(** * SceneManager: textures, materials, transforms, lighting and the
      fixed scene of [Source/SceneManager.cpp]

    The C++ class is embedded as functions over an explicit [Scene]
    record (the members of [SceneManager] plus the namespace-level
    [flameColor] and the texture names of the GL context).  Calls into the
    collaborators (shader manager, OpenGL, mesh library) are recorded as a
    list of [Event]s returned next to the result, and undefined behaviour
    (null dereference, array access outside its 16 slots) is the error of
    the monad.  [float] is idealised as the real numbers; the flame
    colour, which depends on the clock, is also computed on [float] values
    with the infinities and NaN ([f32]). *)

From Stdlib Require Import List String ZArith Reals Lra Lia Bool.
Import ListNotations.

Local Open Scope string_scope.
Local Open Scope list_scope.
Local Open Scope Z_scope.

(** ** The part of glm the scene manager uses

    glm is a library outside the repository; the definitions follow its
    headers ([type_mat4x4.inl], [ext/matrix_transform.inl],
    [gtx/transform.inl], [common.inl]). *)

Module glm.
Local Open Scope R_scope.

Record vec2 := mk_vec2 { x2 : R; y2 : R }.
Record vec3 := mk_vec3 { x3 : R; y3 : R; z3 : R }.
Record vec4 := mk_vec4 { x4 : R; y4 : R; z4 : R; w4 : R }.

(** A [mat4] is four columns, as in glm ([m[i]] is column [i]). *)
Record mat4 := mk_mat4 { col0 : vec4; col1 : vec4; col2 : vec4; col3 : vec4 }.

Definition vadd (a b : vec4) : vec4 :=
  mk_vec4 (x4 a + x4 b) (y4 a + y4 b) (z4 a + z4 b) (w4 a + w4 b).

Definition vscale (a : vec4) (k : R) : vec4 :=
  mk_vec4 (x4 a * k) (y4 a * k) (z4 a * k) (w4 a * k).

(** [v * s] for a [vec3] and a scalar. *)
Definition vec3_scale (v : vec3) (k : R) : vec3 :=
  mk_vec3 (x3 v * k) (y3 v * k) (z3 v * k).

(** [mat4(1.0f)] *)
Definition identity : mat4 :=
  mk_mat4 (mk_vec4 1 0 0 0) (mk_vec4 0 1 0 0) (mk_vec4 0 0 1 0) (mk_vec4 0 0 0 1).

(** [operator*(mat4, mat4)]: column [j] of the product is the combination
    of the columns of [m1] weighted by column [j] of [m2]. *)
Definition mul_col (m1 : mat4) (b : vec4) : vec4 :=
  vadd (vadd (vadd (vscale (col0 m1) (x4 b)) (vscale (col1 m1) (y4 b)))
             (vscale (col2 m1) (z4 b)))
       (vscale (col3 m1) (w4 b)).

Definition mul (m1 m2 : mat4) : mat4 :=
  mk_mat4 (mul_col m1 (col0 m2)) (mul_col m1 (col1 m2))
          (mul_col m1 (col2 m2)) (mul_col m1 (col3 m2)).

(** [glm::radians]: glm multiplies by the literal nearest to pi/180. *)
Definition radians (degrees : R) : R := degrees * (PI / 180).

Definition dot (a b : vec3) : R := x3 a * x3 b + y3 a * y3 b + z3 a * z3 b.

(** [glm::normalize(v) = v * inversesqrt(dot(v, v))] *)
Definition normalize (v : vec3) : vec3 := vec3_scale v (/ sqrt (dot v v)).

(** [glm::translate(m, v)]: only the last column changes. *)
Definition translate_m (m : mat4) (v : vec3) : mat4 :=
  mk_mat4 (col0 m) (col1 m) (col2 m)
    (vadd (vadd (vadd (vscale (col0 m) (x3 v)) (vscale (col1 m) (y3 v)))
                (vscale (col2 m) (z3 v)))
          (col3 m)).

(** [glm::rotate(m, angle, v)]: the axis-angle matrix of the normalised
    axis, multiplied into the first three columns of [m]. *)
Definition rotate_m (m : mat4) (angle : R) (v : vec3) : mat4 :=
  let c := cos angle in
  let s := sin angle in
  let axis := normalize v in
  let temp := vec3_scale axis (1 - c) in
  let r00 := c + x3 temp * x3 axis in
  let r01 := x3 temp * y3 axis + s * z3 axis in
  let r02 := x3 temp * z3 axis - s * y3 axis in
  let r10 := y3 temp * x3 axis - s * z3 axis in
  let r11 := c + y3 temp * y3 axis in
  let r12 := y3 temp * z3 axis + s * x3 axis in
  let r20 := z3 temp * x3 axis + s * y3 axis in
  let r21 := z3 temp * y3 axis - s * x3 axis in
  let r22 := c + z3 temp * z3 axis in
  mk_mat4
    (vadd (vadd (vscale (col0 m) r00) (vscale (col1 m) r01)) (vscale (col2 m) r02))
    (vadd (vadd (vscale (col0 m) r10) (vscale (col1 m) r11)) (vscale (col2 m) r12))
    (vadd (vadd (vscale (col0 m) r20) (vscale (col1 m) r21)) (vscale (col2 m) r22))
    (col3 m).

(** [glm::scale(m, v)] *)
Definition scale_m (m : mat4) (v : vec3) : mat4 :=
  mk_mat4 (vscale (col0 m) (x3 v)) (vscale (col1 m) (y3 v))
          (vscale (col2 m) (z3 v)) (col3 m).

(** The one-argument forms of [glm/gtx/transform.hpp] start from the
    identity matrix. *)
Definition translate (v : vec3) : mat4 := translate_m identity v.
Definition rotate (angle : R) (v : vec3) : mat4 := rotate_m identity angle v.
Definition scale (v : vec3) : mat4 := scale_m identity v.

(** [glm::clamp(x, lo, hi) = min(max(x, lo), hi)], with glm's
    [max(a, b) = (a < b) ? b : a] and [min(a, b) = (b < a) ? b : a]. *)
Definition max (a b : R) : R := if Rlt_dec a b then b else a.
Definition min (a b : R) : R := if Rlt_dec b a then b else a.
Definition clamp (x lo hi : R) : R := min (max x lo) hi.

End glm.

(** ** Single precision beyond the real numbers

    Where a result depends on the clock, the values a [float] has besides
    the real numbers are followed as well: the two infinities and NaN.
    Arithmetic on finite values stays exact (rounding is idealised, as
    everywhere here); a result beyond [FLT_MAX] overflows to an infinity,
    the sine of an infinity is NaN, an operation on NaN gives NaN, and a
    comparison with NaN is false. *)
Module f32.

Local Open Scope R_scope.

Inductive t := Finite (x : R) | Infinity (negative : bool) | NaN.

(** [FLT_MAX], the largest finite value: (2 - 2^-23) * 2^127. *)
Definition FLT_MAX : R := (2 - / 2 ^ 23) * 2 ^ 127.

Definition of_real (x : R) : t :=
  if Rlt_dec FLT_MAX x then Infinity false
  else if Rlt_dec x (- FLT_MAX) then Infinity true
  else Finite x.

Definition negative (x : R) : bool := if Rlt_dec x 0 then true else false.

Definition mul (a b : t) : t :=
  match a, b with
  | NaN, _ | _, NaN => NaN
  | Finite x, Finite y => of_real (x * y)
  | Infinity n, Infinity m => Infinity (xorb n m)
  | Infinity n, Finite y | Finite y, Infinity n =>
      if Req_dec_T y 0 then NaN else Infinity (xorb n (negative y))
  end.

Definition add (a b : t) : t :=
  match a, b with
  | NaN, _ | _, NaN => NaN
  | Finite x, Finite y => of_real (x + y)
  | Infinity n, Infinity m => if Bool.eqb n m then Infinity n else NaN
  | Infinity n, Finite _ | Finite _, Infinity n => Infinity n
  end.

(** [sin] of <cmath>: a domain error, hence NaN, at an infinity. *)
Definition sin (a : t) : t :=
  match a with
  | Finite x => Finite (Rtrigo_def.sin x)
  | _ => NaN
  end.

(** The operator [<]. *)
Definition lt (a b : t) : bool :=
  match a, b with
  | NaN, _ | _, NaN => false
  | Finite x, Finite y => if Rlt_dec x y then true else false
  | Infinity true, Infinity true => false
  | Infinity true, _ => true
  | Infinity false, _ => false
  | Finite _, Infinity n => negb n
  end.

(** [glm::max], [glm::min] and [glm::clamp] at [float]. *)
Definition max (a b : t) : t := if lt a b then b else a.
Definition min (a b : t) : t := if lt b a then b else a.
Definition clamp (x lo hi : t) : t := min (max x lo) hi.


End f32.

(** ** Data of the scene manager *)

(** Modelled from the spec: [SceneManager.h] is not among the sources; the
    structs carry the fields [SceneManager.cpp] reads and writes.  [ID] is
    a [GLuint] (its address is handed to [glGenTextures]). *)
Module TEXTURE_INFO.
Record t := mk { tag : string; ID : Z }.
End TEXTURE_INFO.

Module OBJECT_MATERIAL.
Record t := mk {
  diffuseColor : glm.vec3;
  specularColor : glm.vec3;
  shininess : R;
  emissiveColor : glm.vec3;
  tag : string }.
End OBJECT_MATERIAL.

(** What [stbi_load] hands back for a readable file. *)
Record Image := mk_Image { width : Z; height : Z; colorChannels : Z }.

(** The shader manager pointer is either [NULL] or the address of the
    shader manager given to the constructor. *)
Inductive ShaderManagerPtr := NULL | ShaderManagerObject.

Inductive GLenum :=
  | GL_BLEND | GL_SRC_ALPHA | GL_ONE_MINUS_SRC_ALPHA
  | GL_TEXTURE_2D | GL_TEXTURE_WRAP_S | GL_TEXTURE_WRAP_T
  | GL_TEXTURE_MIN_FILTER | GL_TEXTURE_MAG_FILTER
  | GL_REPEAT | GL_LINEAR | GL_RGB8 | GL_RGB | GL_RGBA8 | GL_RGBA.

Inductive BoxSide := front | back | left | right | top | bottom.

Inductive Mesh :=
  | BoxMesh | BoxMeshSide (side : BoxSide) | PlaneMesh | CylinderMesh
  | ConeMesh | Pyramid4Mesh | TaperedCylinderMesh | TorusMesh
  | HalfSphereMesh.

Inductive Renderer :=
  | Table | Backdrop | PotionBottle | Candle | BottomBook | TopBook
  | Cauldron.

(** Modelled from the spec: the shader manager, the mesh library, OpenGL
    and the image decoder are collaborators outside the sources; a call to
    one of them is recorded with its arguments, in program order.  [Enter]
    is a marker logged on entry of an object renderer; it is not a call. *)
Inductive Event :=
  | setBoolValue (name : string) (v : bool)
  | setIntValue (name : string) (v : Z)
  | setFloatValue (name : string) (v : R)
  | setVec2Value (name : string) (v : glm.vec2)
  | setVec3Value (name : string) (v : glm.vec3)
  | setVec4Value (name : string) (v : glm.vec4)
  | setMat4Value (name : string) (v : glm.mat4)
  | setSampler2DValue (name : string) (slot : Z)
  | glGenTextures (name : Z)
  | glBindTexture (target : GLenum) (name : Z)
  | glActiveTexture (unit : Z)
  | glTexParameteri (target pname param : GLenum)
  | glTexImage2D (internalformat : GLenum) (w h : Z) (format : GLenum)
  | glGenerateMipmap (target : GLenum)
  | stbi_set_flip_vertically_on_load (flag : bool)
  | stbi_image_free
  | glEnable (cap : GLenum)
  | glDisable (cap : GLenum)
  | glBlendFunc (sfactor dfactor : GLenum)
  | Draw (m : Mesh)
  | Enter (r : Renderer).

(** The members of [SceneManager], the file-level [flameColor], and the
    texture names in use in the GL context. *)
Record Scene := mk_Scene {
  m_pShaderManager : ShaderManagerPtr;
  m_textureIDs : list TEXTURE_INFO.t;
  m_loadedTextures : Z;
  m_objectMaterials : list OBJECT_MATERIAL.t;
  flameColor : glm.vec3;
  gl_textures : list Z }.

Definition set_textureIDs (a : list TEXTURE_INFO.t) (s : Scene) : Scene :=
  mk_Scene (m_pShaderManager s) a (m_loadedTextures s)
           (m_objectMaterials s) (flameColor s) (gl_textures s).

Definition set_loadedTextures (n : Z) (s : Scene) : Scene :=
  mk_Scene (m_pShaderManager s) (m_textureIDs s) n
           (m_objectMaterials s) (flameColor s) (gl_textures s).

Definition set_objectMaterials (l : list OBJECT_MATERIAL.t) (s : Scene) : Scene :=
  mk_Scene (m_pShaderManager s) (m_textureIDs s) (m_loadedTextures s)
           l (flameColor s) (gl_textures s).

Definition set_flameColor (c : glm.vec3) (s : Scene) : Scene :=
  mk_Scene (m_pShaderManager s) (m_textureIDs s) (m_loadedTextures s)
           (m_objectMaterials s) c (gl_textures s).

Definition set_gl_textures (l : list Z) (s : Scene) : Scene :=
  mk_Scene (m_pShaderManager s) (m_textureIDs s) (m_loadedTextures s)
           (m_objectMaterials s) (flameColor s) l.

(** ** State, events and undefined behaviour *)

(** A member function maps the scene to its result, the new scene and the
    calls it made; [None] is undefined behaviour. *)
Definition M (A : Type) : Type := Scene -> option (A * Scene * list Event).

Definition ret {A} (a : A) : M A := fun s => Some (a, s, []).

Definition bind {A B} (m : M A) (k : A -> M B) : M B :=
  fun s =>
    match m s with
    | None => None
    | Some (a, s1, e1) =>
        match k a s1 with
        | None => None
        | Some (b, s2, e2) => Some (b, s2, e1 ++ e2)
        end
    end.

Notation "x <- m ;; k" := (bind m (fun x => k))
  (at level 61, m at next level, right associativity).
Notation "m ;; k" := (bind m (fun _ => k))
  (at level 61, right associativity).

Definition get : M Scene := fun s => Some (s, s, []).
Definition modify (f : Scene -> Scene) : M unit := fun s => Some (tt, f s, []).
Definition emit (e : Event) : M unit := fun s => Some (tt, s, [e]).

(** [m_pShaderManager->f(...)]: dereferencing [NULL] is undefined. *)
Definition shader (e : Event) : M unit :=
  fun s =>
    match m_pShaderManager s with
    | NULL => None
    | ShaderManagerObject => Some (tt, s, [e])
    end.

(** [m_basicMeshes->DrawXMesh()]; the mesh object is allocated by the
    constructor and released only by the destructor. *)
Definition draw (m : Mesh) : M unit := emit (Draw m).

(** [unsigned int] and [int] conversions of 32 bits. *)
Definition to_GLuint (z : Z) : Z := z mod 2 ^ 32.
Definition to_int (z : Z) : Z :=
  let u := z mod 2 ^ 32 in if u <? 2 ^ 31 then u else u - 2 ^ 32.

(** [m_textureIDs[i]] as an rvalue and as an lvalue; the array has the
    slots the constructor filled and an index outside them is undefined. *)
Definition load_texture (i : Z) : M TEXTURE_INFO.t :=
  fun s =>
    if (0 <=? i) && (i <? Z.of_nat (List.length (m_textureIDs s)))
    then match nth_error (m_textureIDs s) (Z.to_nat i) with
         | Some e => Some (e, s, [])
         | None => None
         end
    else None.

Fixpoint update {A} (l : list A) (i : nat) (f : A -> A) : list A :=
  match l, i with
  | [], _ => []
  | a :: l', O => f a :: l'
  | a :: l', S i' => a :: update l' i' f
  end.

Definition store_texture (i : Z) (f : TEXTURE_INFO.t -> TEXTURE_INFO.t) : M unit :=
  fun s =>
    if (0 <=? i) && (i <? Z.of_nat (List.length (m_textureIDs s)))
    then Some (tt, set_textureIDs (update (m_textureIDs s) (Z.to_nat i) f) s, [])
    else None.

(** ** The transform of the specification

    Written from the specification's words, to be compared with what
    [SetTransformations] computes: the textbook homogeneous matrices,
    their product by rows and columns, and
    Translation . RotationZ . RotationY . RotationX . Scale with the angles
    turned from degrees into radians. *)
Module TransformSpec.
Local Open Scope R_scope.
Import glm.

(** Entry in row [i], column [j] (both from 0 to 3). *)
Definition component (v : vec4) (i : nat) : R :=
  match i with
  | O => x4 v
  | 1%nat => y4 v
  | 2%nat => z4 v
  | _ => w4 v
  end.

Definition column (m : mat4) (j : nat) : vec4 :=
  match j with
  | O => col0 m
  | 1%nat => col1 m
  | 2%nat => col2 m
  | _ => col3 m
  end.

Definition entry (m : mat4) (i j : nat) : R := component (column m j) i.

Definition of_entries (f : nat -> nat -> R) : mat4 :=
  let c (j : nat) := mk_vec4 (f 0%nat j) (f 1%nat j) (f 2%nat j) (f 3%nat j) in
  mk_mat4 (c 0%nat) (c 1%nat) (c 2%nat) (c 3%nat).

(** Row-by-column product. *)
Definition product (a b : mat4) : mat4 :=
  of_entries (fun i j =>
    entry a i 0%nat * entry b 0%nat j + entry a i 1%nat * entry b 1%nat j
    + entry a i 2%nat * entry b 2%nat j + entry a i 3%nat * entry b 3%nat j).

(** Each matrix is given by its rows. *)
Definition of_rows (r0 r1 r2 r3 : vec4) : mat4 :=
  mk_mat4 (mk_vec4 (x4 r0) (x4 r1) (x4 r2) (x4 r3))
          (mk_vec4 (y4 r0) (y4 r1) (y4 r2) (y4 r3))
          (mk_vec4 (z4 r0) (z4 r1) (z4 r2) (z4 r3))
          (mk_vec4 (w4 r0) (w4 r1) (w4 r2) (w4 r3)).

Definition Translation (p : vec3) : mat4 :=
  of_rows (mk_vec4 1 0 0 (x3 p))
          (mk_vec4 0 1 0 (y3 p))
          (mk_vec4 0 0 1 (z3 p))
          (mk_vec4 0 0 0 1).

Definition Scale (v : vec3) : mat4 :=
  of_rows (mk_vec4 (x3 v) 0 0 0)
          (mk_vec4 0 (y3 v) 0 0)
          (mk_vec4 0 0 (z3 v) 0)
          (mk_vec4 0 0 0 1).

(** Rotations by [a] radians about the world axes. *)
Definition RotationX (a : R) : mat4 :=
  of_rows (mk_vec4 1 0 0 0)
          (mk_vec4 0 (cos a) (- sin a) 0)
          (mk_vec4 0 (sin a) (cos a) 0)
          (mk_vec4 0 0 0 1).

Definition RotationY (a : R) : mat4 :=
  of_rows (mk_vec4 (cos a) 0 (sin a) 0)
          (mk_vec4 0 1 0 0)
          (mk_vec4 (- sin a) 0 (cos a) 0)
          (mk_vec4 0 0 0 1).

Definition RotationZ (a : R) : mat4 :=
  of_rows (mk_vec4 (cos a) (- sin a) 0 0)
          (mk_vec4 (sin a) (cos a) 0 0)
          (mk_vec4 0 0 1 0)
          (mk_vec4 0 0 0 1).

Definition degrees_to_radians (d : R) : R := d * PI / 180.

Definition Identity : mat4 :=
  of_rows (mk_vec4 1 0 0 0) (mk_vec4 0 1 0 0) (mk_vec4 0 0 1 0) (mk_vec4 0 0 0 1).

Definition compose (scale : vec3) (rotationX rotationY rotationZ : R)
    (position : vec3) : mat4 :=
  product (Translation position)
    (product (RotationZ (degrees_to_radians rotationZ))
       (product (RotationY (degrees_to_radians rotationY))
          (product (RotationX (degrees_to_radians rotationX))
             (Scale scale)))).

End TransformSpec.

(** ** Concrete collaborators used in the examples *)

(** A decoder for which every file is a 2x2 RGB image, one that reads no
    file at all, and one that decodes every file to a single channel. *)
Definition rgb_files (filename : string) : option Image := Some (mk_Image 2 2 3).
Definition no_files (filename : string) : option Image := None.
Definition grey_files (filename : string) : option Image := Some (mk_Image 2 2 1).

(** A context that hands out texture names in sequence: one more than the
    largest name in use. *)
Definition next_name (used : list Z) : Z := 1 + fold_right Z.max 0 used.

Definition blank_material : OBJECT_MATERIAL.t :=
  OBJECT_MATERIAL.mk (glm.mk_vec3 0 0 0) (glm.mk_vec3 0 0 0) 0
                     (glm.mk_vec3 0 0 0) "".

Section SceneManager.

(** The image decoder applied to a file name: [None] when the file cannot
    be read or decoded. *)
Variable stbi_load : string -> option Image.

(** The name [glGenTextures] returns in a context where the given names
    are in use. *)
Variable fresh_name : list Z -> Z.

(** The content of a local [OBJECT_MATERIAL] before any assignment. *)
Variable indeterminate : OBJECT_MATERIAL.t.

(** [glGenTextures(1, &id)] *)
Definition gen_texture : M Z :=
  fun s =>
    let id := fresh_name (gl_textures s) in
    Some (id, set_gl_textures (id :: gl_textures s) s, [glGenTextures id]).

(** *** SceneManager::SceneManager *)
Definition SceneManager_new (pShaderManager : ShaderManagerPtr) : Scene :=
  mk_Scene pShaderManager
    (repeat (TEXTURE_INFO.mk "/0" (to_GLuint (-1))) 16)
    0 [] (glm.mk_vec3 0 0 0) [].

(** *** SceneManager::CreateGLTexture
    The messages printed on [std::cout] are left out.  [register] is the
    code after the format test: mipmaps, release of the pixels, and the
    entry written to the next slot. *)
Definition CreateGLTexture_register (textureID : Z) (tag : string) : M bool :=
  emit (glGenerateMipmap GL_TEXTURE_2D) ;;
  emit stbi_image_free ;;
  emit (glBindTexture GL_TEXTURE_2D 0) ;;
  s <- get ;;
  store_texture (m_loadedTextures s)
    (fun e => TEXTURE_INFO.mk (TEXTURE_INFO.tag e) textureID) ;;
  store_texture (m_loadedTextures s)
    (fun e => TEXTURE_INFO.mk tag (TEXTURE_INFO.ID e)) ;;
  modify (set_loadedTextures (m_loadedTextures s + 1)) ;;
  ret true.

Definition CreateGLTexture (filename : string) (tag : string) : M bool :=
  emit (stbi_set_flip_vertically_on_load true) ;;
  match stbi_load filename with
  | Some image =>
      textureID <- gen_texture ;;
      emit (glBindTexture GL_TEXTURE_2D textureID) ;;
      emit (glTexParameteri GL_TEXTURE_2D GL_TEXTURE_WRAP_S GL_REPEAT) ;;
      emit (glTexParameteri GL_TEXTURE_2D GL_TEXTURE_WRAP_T GL_REPEAT) ;;
      emit (glTexParameteri GL_TEXTURE_2D GL_TEXTURE_MIN_FILTER GL_LINEAR) ;;
      emit (glTexParameteri GL_TEXTURE_2D GL_TEXTURE_MAG_FILTER GL_LINEAR) ;;
      if colorChannels image =? 3 then
        emit (glTexImage2D GL_RGB8 (width image) (height image) GL_RGB) ;;
        CreateGLTexture_register textureID tag
      else if colorChannels image =? 4 then
        emit (glTexImage2D GL_RGBA8 (width image) (height image) GL_RGBA) ;;
        CreateGLTexture_register textureID tag
      else ret false
  | None => ret false
  end.

(** *** SceneManager::BindGLTextures *)
Fixpoint BindGLTextures_loop (n : nat) (i : Z) : M unit :=
  match n with
  | O => ret tt
  | S n' =>
      e <- load_texture i ;;
      emit (glActiveTexture i) ;;
      emit (glBindTexture GL_TEXTURE_2D (TEXTURE_INFO.ID e)) ;;
      BindGLTextures_loop n' (i + 1)
  end.

(** The loop runs for [i = 0 .. m_loadedTextures - 1]. *)
Definition BindGLTextures : M unit :=
  s <- get ;; BindGLTextures_loop (Z.to_nat (m_loadedTextures s)) 0.

(** *** SceneManager::DestroyGLTextures
    Each iteration calls [glGenTextures(1, &m_textureIDs[i].ID)]. *)
Fixpoint DestroyGLTextures_loop (n : nat) (i : Z) : M unit :=
  match n with
  | O => ret tt
  | S n' =>
      id <- gen_texture ;;
      store_texture i (fun e => TEXTURE_INFO.mk (TEXTURE_INFO.tag e) id) ;;
      DestroyGLTextures_loop n' (i + 1)
  end.

Definition DestroyGLTextures : M unit :=
  s <- get ;; DestroyGLTextures_loop (Z.to_nat (m_loadedTextures s)) 0.

(** *** SceneManager::FindTextureID
    [n] counts the iterations left, [m_loadedTextures - index]; the loop
    ends at the first match ([bFound]) or when [n] reaches zero. *)
Fixpoint FindTextureID_loop (n : nat) (tag : string) (textureID index : Z) : M Z :=
  match n with
  | O => ret textureID
  | S n' =>
      e <- load_texture index ;;
      if String.eqb (TEXTURE_INFO.tag e) tag
      then ret (to_int (TEXTURE_INFO.ID e))
      else FindTextureID_loop n' tag textureID (index + 1)
  end.

Definition FindTextureID (tag : string) : M Z :=
  s <- get ;; FindTextureID_loop (Z.to_nat (m_loadedTextures s)) tag (-1) 0.

(** *** SceneManager::FindTextureSlot *)
Fixpoint FindTextureSlot_loop (n : nat) (tag : string) (textureSlot index : Z) : M Z :=
  match n with
  | O => ret textureSlot
  | S n' =>
      e <- load_texture index ;;
      if String.eqb (TEXTURE_INFO.tag e) tag
      then ret index
      else FindTextureSlot_loop n' tag textureSlot (index + 1)
  end.

Definition FindTextureSlot (tag : string) : M Z :=
  s <- get ;; FindTextureSlot_loop (Z.to_nat (m_loadedTextures s)) tag (-1) 0.


(** *** SceneManager::FindMaterial
    [rest] is the part of [m_objectMaterials] from [index] on; the loop
    ends at the first match or at the end of the vector.  The result is
    the returned flag and the caller's [material] after the call. *)
Fixpoint FindMaterial_loop (rest : list OBJECT_MATERIAL.t) (tag : string)
    (material : OBJECT_MATERIAL.t) : OBJECT_MATERIAL.t :=
  match rest with
  | [] => material
  | m :: rest' =>
      if String.eqb (OBJECT_MATERIAL.tag m) tag
      then OBJECT_MATERIAL.mk
             (OBJECT_MATERIAL.diffuseColor m)
             (OBJECT_MATERIAL.specularColor m)
             (OBJECT_MATERIAL.shininess m)
             (OBJECT_MATERIAL.emissiveColor material)
             (OBJECT_MATERIAL.tag material)
      else FindMaterial_loop rest' tag material
  end.

Definition FindMaterial (tag : string) (material : OBJECT_MATERIAL.t)
    : M (bool * OBJECT_MATERIAL.t) :=
  s <- get ;;
  if Nat.eqb (List.length (m_objectMaterials s)) 0
  then ret (false, material)
  else ret (true, FindMaterial_loop (m_objectMaterials s) tag material).

Local Open Scope R_scope.

Definition g_ModelName := "model".
Definition g_ColorValueName := "objectColor".
Definition g_TextureValueName := "objectTexture".
Definition g_UseTextureName := "bUseTexture".
Definition g_UseLightingName := "bUseLighting".

(** [if (NULL != m_pShaderManager) { body }] *)
Definition if_shader (body : M unit) : M unit :=
  s <- get ;;
  match m_pShaderManager s with
  | NULL => ret tt
  | ShaderManagerObject => body
  end.

(** *** SceneManager::SetTransformations *)
Definition modelView (scaleXYZ : glm.vec3)
    (XrotationDegrees YrotationDegrees ZrotationDegrees : R)
    (positionXYZ : glm.vec3) : glm.mat4 :=
  let scale := glm.scale scaleXYZ in
  let rotationX := glm.rotate (glm.radians XrotationDegrees) (glm.mk_vec3 1 0 0) in
  let rotationY := glm.rotate (glm.radians YrotationDegrees) (glm.mk_vec3 0 1 0) in
  let rotationZ := glm.rotate (glm.radians ZrotationDegrees) (glm.mk_vec3 0 0 1) in
  let translation := glm.translate positionXYZ in
  glm.mul (glm.mul (glm.mul (glm.mul translation rotationZ) rotationY) rotationX) scale.

Definition SetTransformations (scaleXYZ : glm.vec3)
    (XrotationDegrees YrotationDegrees ZrotationDegrees : R)
    (positionXYZ : glm.vec3) : M unit :=
  if_shader
    (shader (setMat4Value g_ModelName
       (modelView scaleXYZ XrotationDegrees YrotationDegrees ZrotationDegrees
                  positionXYZ))).

(** *** SceneManager::SetShaderColor
    [setIntValue] receives [false], that is 0. *)
Definition SetShaderColor (redColorValue greenColorValue blueColorValue alphaValue : R)
    : M unit :=
  let currentColor :=
    glm.mk_vec4 redColorValue greenColorValue blueColorValue alphaValue in
  if_shader
    (shader (setIntValue g_UseTextureName 0%Z) ;;
     shader (setVec4Value g_ColorValueName currentColor)).

(** *** SceneManager::SetShaderTexture *)
Definition SetShaderTexture (textureTag : string) : M unit :=
  if_shader
    (shader (setIntValue g_UseTextureName 1%Z) ;;
     textureID <- FindTextureSlot textureTag ;;
     shader (setSampler2DValue g_TextureValueName textureID)).

(** *** SceneManager::SetTextureUVScale *)
Definition SetTextureUVScale (u v : R) : M unit :=
  if_shader (shader (setVec2Value "UVscale" (glm.mk_vec2 u v))).

(** *** SceneManager::SetShaderMaterial
    The shader manager is used without a test for [NULL]. *)
Definition SetShaderMaterial (materialTag : string) : M unit :=
  s <- get ;;
  if (0 <? List.length (m_objectMaterials s))%nat then
    r <- FindMaterial materialTag indeterminate ;;
    let (bReturn, material) := r in
    if bReturn then
      shader (setVec3Value "material.diffuseColor" (OBJECT_MATERIAL.diffuseColor material)) ;;
      shader (setVec3Value "material.specularColor" (OBJECT_MATERIAL.specularColor material)) ;;
      shader (setFloatValue "material.shininess" (OBJECT_MATERIAL.shininess material))
    else ret tt
  else ret tt.

(** *** SceneManager::LoadSceneTextures *)
Definition LoadSceneTextures : M unit :=
  CreateGLTexture "textures/knit.jpg" "fabric" ;;
  CreateGLTexture "textures/glass.jpg" "glass" ;;
  CreateGLTexture "textures/rubber.jpg" "rubber" ;;
  CreateGLTexture "textures/candle.jpg" "candle" ;;
  CreateGLTexture "textures/stainless.jpg" "stainless" ;;
  CreateGLTexture "textures/metal.jpg" "metal" ;;
  CreateGLTexture "textures/pages.jpg" "pages" ;;
  CreateGLTexture "textures/leather.png" "leather" ;;
  CreateGLTexture "textures/wood.jpg" "wood" ;;
  BindGLTextures.

(** *** SceneManager::DefineObjectMaterials
    [time] is the value of [glfwGetTime()].  A material starts as an
    unassigned local; the [vec4] given for two diffuse colours is cut to
    its first three components by the conversion to [vec3]. *)
Definition push_back (m : OBJECT_MATERIAL.t) : M unit :=
  modify (fun s => set_objectMaterials (m_objectMaterials s ++ [m]) s).

Definition DefineObjectMaterials (time : R) : M unit :=
  let unset := OBJECT_MATERIAL.emissiveColor indeterminate in
  push_back (OBJECT_MATERIAL.mk (glm.mk_vec3 0.258824 0.258824 0.435294)
               (glm.mk_vec3 0 0 0) 0.3 unset "backdrop") ;;
  push_back (OBJECT_MATERIAL.mk (glm.mk_vec3 0.3 0.3 0.3)
               (glm.mk_vec3 0.7 0.6 0.9) 95 unset "glass") ;;
  push_back (OBJECT_MATERIAL.mk (glm.mk_vec3 0.4 0.4 0.4)
               (glm.mk_vec3 0.7 0.7 0.6) 52 unset "metal") ;;
  push_back (OBJECT_MATERIAL.mk (glm.mk_vec3 0.2 0.2 0.3)
               (glm.mk_vec3 0 0 0) 0.1 unset "wood") ;;
  let flickerIntensity := sin (time * 10) * 0.2 + 0.8 in
  push_back (OBJECT_MATERIAL.mk (glm.mk_vec3 1 0.5 0)
               (glm.mk_vec3 1 0.6 0.3) 32
               (glm.vec3_scale (glm.mk_vec3 1 0.4 0) flickerIntensity) "flame") ;;
  push_back (OBJECT_MATERIAL.mk (glm.mk_vec3 0.396 0.694 0.996)
               (glm.mk_vec3 0.3 0.5 0.7) 50 unset "liquid").

(** *** SceneManager::SetupSceneLights
    [time] is the value of [glfwGetTime()]; [jitter_red], [jitter_green]
    and [jitter_blue] are the three numbers drawn, in this order, from the
    static [uniform_real_distribution(-0.03, 0.03)]. *)
Definition flickerFactor (flameTime : R) : R := sin (flameTime * 3) * 0.3 + 0.5.

Definition flame_light_color (flameTime jitter_red jitter_green jitter_blue : R)
    : glm.vec3 :=
  let red := 1 + jitter_red in
  let green := 0.2 + flickerFactor flameTime * 0.2 + jitter_green in
  let blue := 0.1 + jitter_blue * 0.1 in
  glm.mk_vec3 (glm.clamp red 0 1) (glm.clamp green 0 1) (glm.clamp blue 0 1).



Definition SetupSceneLights (time jitter_red jitter_green jitter_blue : R) : M unit :=
  shader (setBoolValue g_UseLightingName true) ;;
  shader (setVec3Value "directionalLight.direction" (glm.mk_vec3 (-0.05) (-0.3) (-0.1))) ;;
  shader (setVec3Value "directionalLight.ambient" (glm.mk_vec3 0.08 0.08 0.1)) ;;
  shader (setVec3Value "directionalLight.diffuse" (glm.mk_vec3 0.3 0.3 0.5)) ;;
  shader (setVec3Value "directionalLight.specular" (glm.mk_vec3 0.6 0.6 0.7)) ;;
  shader (setBoolValue "directionalLight.bActive" true) ;;
  modify (set_flameColor (flame_light_color time jitter_red jitter_green jitter_blue)) ;;
  s <- get ;;
  shader (setVec3Value "pointLights[3].position" (glm.mk_vec3 (-5) 8.8 0.9)) ;;
  shader (setVec3Value "pointLights[3].ambient" (glm.vec3_scale (flameColor s) 0.1)) ;;
  shader (setVec3Value "pointLights[3].diffuse" (flameColor s)) ;;
  shader (setVec3Value "pointLights[3].specular" (glm.vec3_scale (flameColor s) 0.8)) ;;
  shader (setBoolValue "pointLights[3].bActive" true) ;;
  shader (setVec3Value "pointLights[1].position" (glm.mk_vec3 (-4) 8 0)) ;;
  shader (setVec3Value "pointLights[1].ambient" (glm.mk_vec3 0.05 0.04 0.03)) ;;
  shader (setVec3Value "pointLights[1].diffuse" (glm.mk_vec3 0.4 0.3 0.2)) ;;
  shader (setVec3Value "pointLights[1].specular" (glm.mk_vec3 0.5 0.4 0.3)) ;;
  shader (setBoolValue "pointLights[1].bActive" true) ;;
  shader (setVec3Value "pointLights[2].position" (glm.mk_vec3 3.8 5.5 4)) ;;
  shader (setVec3Value "pointLights[2].ambient" (glm.mk_vec3 0.08 0.06 0.1)) ;;
  shader (setVec3Value "pointLights[2].diffuse" (glm.mk_vec3 0.2 0.2 0.5)) ;;
  shader (setVec3Value "pointLights[2].specular" (glm.mk_vec3 0.3 0.3 0.6)) ;;
  shader (setBoolValue "pointLights[2].bActive" true) ;;
  shader (setVec3Value "spotLight.ambient" (glm.mk_vec3 0.1 0.1 0.15)) ;;
  shader (setVec3Value "spotLight.diffuse" (glm.mk_vec3 0.6 0.6 0.9)) ;;
  shader (setVec3Value "spotLight.specular" (glm.mk_vec3 0.9 0.9 1.2)) ;;
  shader (setFloatValue "spotLight.constant" 1) ;;
  shader (setFloatValue "spotLight.linear" 0.09) ;;
  shader (setFloatValue "spotLight.quadratic" 0.032) ;;
  shader (setFloatValue "spotLight.cutOff" (cos (glm.radians 35))) ;;
  shader (setFloatValue "spotLight.outerCutOff" (cos (glm.radians 45))) ;;
  shader (setBoolValue "spotLight.bActive" true).

(** ** The object renderers

    Every renderer logs its [Enter] marker first; the rest follows the
    source statement by statement.  [time] stands for [glfwGetTime()]. *)

Local Abbreviation vec3 := glm.mk_vec3.

Fixpoint for_each {A} (l : list A) (body : A -> M unit) : M unit :=
  match l with
  | [] => ret tt
  | a :: l' => body a ;; for_each l' body
  end.

(** *** SceneManager::RenderTable *)
Definition RenderTable : M unit :=
  emit (Enter Table) ;;
  (* fabric on table *)
  SetTransformations (vec3 20 0.2 15) 0 0 0 (vec3 0 (-0.2) (-0.9)) ;;
  SetShaderColor 1 1 1 1 ;;
  SetShaderTexture "fabric" ;;
  SetTextureUVScale 1 1 ;;
  SetShaderMaterial "wood" ;;
  draw BoxMesh ;;
  (* actual table *)
  SetTransformations (vec3 50 1.5 15) 0 0 0 (vec3 0 (-1.2) (-0.9)) ;;
  SetShaderColor 0.39 0.24 0.12 1 ;;
  SetShaderTexture "wood" ;;
  SetShaderMaterial "wood" ;;
  draw BoxMesh.

(** *** SceneManager::RenderBackdrop *)
Definition RenderBackdrop : M unit :=
  emit (Enter Backdrop) ;;
  SetTransformations (vec3 20 1 20) 90 0 0 (vec3 0 15 (-9)) ;;
  SetShaderTexture "fabric" ;;
  SetTextureUVScale 10 10 ;;
  SetShaderMaterial "backdrop" ;;
  draw PlaneMesh.

(** *** SceneManager::RenderPotionBottle *)
Definition RenderPotionBottle : M unit :=
  emit (Enter PotionBottle) ;;
  emit (glEnable GL_BLEND) ;;
  emit (glBlendFunc GL_SRC_ALPHA GL_ONE_MINUS_SRC_ALPHA) ;;
  let scaleFactor := 0.9 in
  let liquidScaleFactor := 0.8 in
  let liquidColor := glm.mk_vec4 0.396 0.694 0.996 0.7 in
  (* liquid in bottle *)
  SetTransformations (glm.vec3_scale (vec3 2 2.8 2) liquidScaleFactor)
    0 15 0 (vec3 4 (5.5 * liquidScaleFactor) (-1)) ;;
  SetShaderColor (glm.x4 liquidColor) (glm.y4 liquidColor) (glm.z4 liquidColor)
    (glm.w4 liquidColor) ;;
  SetShaderMaterial "liquid" ;;
  draw BoxMesh ;;
  (* bottom of potion bottle *)
  SetTransformations (glm.vec3_scale (vec3 2 3.5 2) scaleFactor)
    0 15 0 (vec3 4 (4.75 * scaleFactor) (-1)) ;;
  SetShaderColor 0.196 0.294 0.796 0.65 ;;
  SetShaderMaterial "glass" ;;
  draw (BoxMeshSide front) ;;
  draw (BoxMeshSide back) ;;
  draw (BoxMeshSide left) ;;
  draw (BoxMeshSide right) ;;
  draw (BoxMeshSide bottom) ;;
  (* middle of potion *)
  SetTransformations (glm.vec3_scale (vec3 2 1.5 2) scaleFactor)
    0 15 0 (vec3 4 (7.25 * scaleFactor) (-1)) ;;
  SetShaderColor 0.196 0.294 0.796 0.65 ;;
  SetShaderMaterial "glass" ;;
  draw Pyramid4Mesh ;;
  (* neck of bottle *)
  SetTransformations (glm.vec3_scale (vec3 0.35 2.2 0.35) scaleFactor)
    0 15 0 (vec3 4 (7.0 * scaleFactor) (-1)) ;;
  SetShaderColor 0.196 0.294 0.796 0.65 ;;
  SetShaderMaterial "glass" ;;
  draw CylinderMesh ;;
  (* lip of bottle *)
  SetTransformations (glm.vec3_scale (vec3 0.42 0.42 0.65) scaleFactor)
    90 0 0 (vec3 4 (9.2 * scaleFactor) (-1)) ;;
  SetShaderColor 0.196 0.294 0.796 0.65 ;;
  SetShaderMaterial "glass" ;;
  draw TorusMesh ;;
  (* bottle closure *)
  SetTransformations (glm.vec3_scale (vec3 0.45 0.69 0.45) scaleFactor)
    180 0 0 (vec3 4 (9.92 * scaleFactor) (-1)) ;;
  SetShaderTexture "rubber" ;;
  SetTextureUVScale 2 2 ;;
  SetShaderMaterial "wood" ;;
  draw TaperedCylinderMesh ;;
  (* disable transparency *)
  emit (glDisable GL_BLEND).

(** *** SceneManager::RenderCandle *)
Definition flame_alpha (time : R) : R :=
  glm.clamp (sin (time * 2.5) * 0.2 + 0.6) 0.5 0.8.

Definition RenderCandle (time : R) : M unit :=
  emit (Enter Candle) ;;
  (* torus touching the floor *)
  SetTransformations (vec3 1.5 1.7 1.5) 90 0 0 (vec3 (-5) 0.25 0.9) ;;
  SetShaderColor 0.2 0.2 0.2 1 ;;
  SetShaderTexture "metal" ;;
  SetShaderMaterial "metal" ;;
  draw TorusMesh ;;
  (* bell shape bottom *)
  SetTransformations (vec3 1.5 2.2 1.5) 0 0 0 (vec3 (-5) 0.3 0.9) ;;
  SetShaderColor 0.2 0.2 0.2 1 ;;
  SetShaderTexture "metal" ;;
  SetShaderMaterial "metal" ;;
  draw TaperedCylinderMesh ;;
  (* middle cylinder *)
  SetTransformations (vec3 0.5 0.5 0.5) 0 0 0 (vec3 (-5) 2.5 0.9) ;;
  SetShaderColor 0.2 0.2 0.2 1 ;;
  SetShaderTexture "metal" ;;
  SetShaderMaterial "metal" ;;
  draw CylinderMesh ;;
  (* middle tapered upside down cylinder *)
  SetTransformations (vec3 0.58 1.4 0.58) 0 90 0 (vec3 (-5) 3.0 0.9) ;;
  SetShaderColor 0.2 0.2 0.2 1 ;;
  SetShaderTexture "metal" ;;
  SetShaderMaterial "metal" ;;
  draw TaperedCylinderMesh ;;
  (* top tapered upside down cylinder *)
  SetTransformations (vec3 0.62 1.9 0.62) 0 0 180 (vec3 (-5) 5.8 0.9) ;;
  SetShaderColor 0.2 0.2 0.2 1 ;;
  SetShaderTexture "metal" ;;
  SetShaderMaterial "metal" ;;
  draw TaperedCylinderMesh ;;
  (* lip of the candleholder *)
  SetTransformations (vec3 0.7 0.7 0.45) 90 0 0 (vec3 (-5) 5.85 0.9) ;;
  SetShaderColor 0.2 0.2 0.2 1 ;;
  SetShaderTexture "metal" ;;
  SetShaderMaterial "metal" ;;
  draw TorusMesh ;;
  (* actual candle *)
  SetTransformations (vec3 0.35 2.4 0.35) 0 0 0 (vec3 (-5) 5.8 0.9) ;;
  SetShaderColor 1 1 1 1 ;;
  SetShaderTexture "candle" ;;
  SetTextureUVScale 2 1 ;;
  SetShaderMaterial "wood" ;;
  draw CylinderMesh ;;
  (* wick *)
  SetTransformations (vec3 0.04 0.6 0.04) 0 0 0 (vec3 (-5) 8 0.9) ;;
  SetShaderColor 0.1 0.1 0.1 1 ;;
  SetShaderTexture "rubber" ;;
  SetShaderMaterial "wood" ;;
  draw ConeMesh ;;
  (* flame on wick *)
  SetTransformations (vec3 0.2 0.8 0.2) 0 0 0 (vec3 (-5) 8 0.9) ;;
  let alpha := flame_alpha time in
  s <- get ;;
  SetShaderColor (glm.x3 (flameColor s)) (glm.y3 (flameColor s))
    (glm.z3 (flameColor s)) alpha ;;
  SetShaderMaterial "flame" ;;
  emit (glEnable GL_BLEND) ;;
  emit (glBlendFunc GL_SRC_ALPHA GL_ONE_MINUS_SRC_ALPHA) ;;
  draw ConeMesh ;;
  emit (glDisable GL_BLEND).

(** *** SceneManager::RenderBottomBook *)
Definition RenderBottomBook : M unit :=
  emit (Enter BottomBook) ;;
  (* pages *)
  SetTransformations (vec3 4 1.4 4.5) 0 30 0 (vec3 4 0.75 (-1)) ;;
  SetShaderColor 0.659 0.576 0.439 1 ;;
  SetShaderTexture "pages" ;;
  SetTextureUVScale 2 0.5 ;;
  SetShaderMaterial "wood" ;;
  draw (BoxMeshSide front) ;;
  draw (BoxMeshSide back) ;;
  draw (BoxMeshSide left) ;;
  draw (BoxMeshSide right) ;;
  (* bottom cover *)
  SetTransformations (vec3 4.2 0.2 4.7) 0 30 0 (vec3 4 0.1 (-1)) ;;
  SetShaderColor 0.36 0.25 0.20 1 ;;
  SetShaderTexture "leather" ;;
  SetTextureUVScale 0.5 6 ;;
  SetShaderMaterial "wood" ;;
  draw BoxMesh ;;
  (* top cover *)
  SetTransformations (vec3 4.2 0.2 4.7) 0 30 0 (vec3 4 1.5 (-1)) ;;
  SetShaderColor 0.36 0.25 0.20 1 ;;
  SetShaderTexture "leather" ;;
  SetTextureUVScale 0.5 6 ;;
  SetShaderMaterial "wood" ;;
  draw BoxMesh ;;
  (* binding *)
  SetTransformations (vec3 1.6 0.2 4.7) 30 0 90 (vec3 5.8 0.8 (-2.05)) ;;
  SetShaderColor 0.36 0.25 0.20 1 ;;
  SetShaderTexture "leather" ;;
  SetTextureUVScale 0.5 6 ;;
  SetShaderMaterial "wood" ;;
  draw BoxMesh.

(** *** SceneManager::RenderTopBook *)
Definition RenderTopBook : M unit :=
  emit (Enter TopBook) ;;
  (* pages *)
  SetTransformations (vec3 4 1.5 4.5) 0 60 0 (vec3 4 2.35 (-1)) ;;
  SetShaderTexture "pages" ;;
  SetTextureUVScale 1 1 ;;
  SetShaderMaterial "wood" ;;
  draw (BoxMeshSide front) ;;
  draw (BoxMeshSide back) ;;
  draw (BoxMeshSide left) ;;
  draw (BoxMeshSide right) ;;
  (* bottom cover *)
  SetTransformations (vec3 4.2 0.2 4.7) 0 60 0 (vec3 4 1.7 (-1)) ;;
  SetShaderColor 0.36 0.25 0.20 1 ;;
  SetShaderTexture "leather" ;;
  SetShaderMaterial "wood" ;;
  draw BoxMesh ;;
  (* top cover *)
  SetTransformations (vec3 4.2 0.2 4.7) 0 60 0 (vec3 4 3.1 (-1)) ;;
  SetShaderColor 0.36 0.25 0.20 1 ;;
  SetShaderTexture "leather" ;;
  SetShaderMaterial "wood" ;;
  draw BoxMesh ;;
  (* binding *)
  SetTransformations (vec3 1.6 0.2 4.7) 60 0 90 (vec3 5.0 2.4 (-2.735)) ;;
  SetShaderColor 0.36 0.25 0.20 1 ;;
  SetShaderTexture "leather" ;;
  SetTextureUVScale 0.5 6 ;;
  SetShaderMaterial "wood" ;;
  draw BoxMesh.

(** *** SceneManager::RenderCauldron *)
Definition RenderCauldron : M unit :=
  emit (Enter Cauldron) ;;
  (* main body *)
  SetTransformations (vec3 3.2 4.2 3.2) 180 0 0 (vec3 (-1.5) 4.6 (-2.5)) ;;
  SetShaderColor 0.1 0.1 0.1 1 ;;
  SetShaderTexture "metal" ;;
  SetTextureUVScale 1 1 ;;
  SetShaderMaterial "metal" ;;
  draw HalfSphereMesh ;;
  (* rim *)
  SetTransformations (vec3 3 3 0.6) 90 0 0 (vec3 (-1.5) 4.5 (-2.5)) ;;
  SetShaderColor 0.1 0.1 0.1 1 ;;
  SetShaderTexture "metal" ;;
  SetTextureUVScale 1 1 ;;
  SetShaderMaterial "metal" ;;
  draw TorusMesh ;;
  (* legs *)
  let legScale := vec3 0.6 1.9 0.3 in
  let legPositions :=
    [vec3 (-2.8) 2 (-3); vec3 (-0.2) 2 (-3); vec3 (-1.25) 2 (-1)] in
  for_each legPositions (fun legPos =>
    SetTransformations legScale 0 0 180 legPos ;;
    SetShaderColor 0.1 0.1 0.1 1 ;;
    SetShaderTexture "metal" ;;
    SetTextureUVScale 1 1 ;;
    SetShaderMaterial "metal" ;;
    draw TaperedCylinderMesh) ;;
  (* liquid inside the cauldron *)
  emit (glEnable GL_BLEND) ;;
  emit (glBlendFunc GL_SRC_ALPHA GL_ONE_MINUS_SRC_ALPHA) ;;
  SetTransformations (vec3 2.8 1.5 2.8) 0 0 0 (vec3 (-1.5) 2.75 (-2.5)) ;;
  SetShaderColor 0.3 0.8 1.0 0.65 ;;
  SetShaderMaterial "liquid" ;;
  draw CylinderMesh ;;
  emit (glDisable GL_BLEND).

(** *** SceneManager::RenderScene *)
Definition RenderScene (time : R) : M unit :=
  RenderTable ;;
  RenderBackdrop ;;
  RenderPotionBottle ;;
  RenderCandle time ;;
  RenderBottomBook ;;
  RenderTopBook ;;
  RenderCauldron.

(** ** What the shader program and the GL context hold *)

(** Modelled from the spec: the shader manager and OpenGL are outside the
    sources; a named-uniform write stores the value under its name, and
    [glEnable]/[glDisable] switch a capability.  Only the blend capability
    and the uniforms [bUseTexture] and [objectColor] are followed. *)
Record RenderState := mk_RenderState {
  blend : bool;
  bUseTexture : Z;
  objectColor : glm.vec4 }.

Definition apply_event (rs : RenderState) (e : Event) : RenderState :=
  match e with
  | setIntValue name v =>
      if String.eqb name g_UseTextureName
      then mk_RenderState (blend rs) v (objectColor rs) else rs
  | setVec4Value name c =>
      if String.eqb name g_ColorValueName
      then mk_RenderState (blend rs) (bUseTexture rs) c else rs
  | glEnable GL_BLEND => mk_RenderState true (bUseTexture rs) (objectColor rs)
  | glDisable GL_BLEND => mk_RenderState false (bUseTexture rs) (objectColor rs)
  | _ => rs
  end.

Definition replay (rs : RenderState) (evs : list Event) : RenderState :=
  fold_left apply_event evs rs.

(** The GL default: blending off, all uniforms zero. *)
Definition initial_RenderState : RenderState :=
  mk_RenderState false 0%Z (glm.mk_vec4 0 0 0 0).

(** A draw call together with the state it is issued in. *)
Record DrawInfo := mk_DrawInfo {
  mesh : Mesh;
  blending : bool;
  use_texture : Z;
  alpha : R }.

Fixpoint profile (rs : RenderState) (evs : list Event) : list DrawInfo :=
  match evs with
  | [] => []
  | Draw m :: evs' =>
      mk_DrawInfo m (blend rs) (bUseTexture rs) (glm.w4 (objectColor rs))
        :: profile rs evs'
  | e :: evs' => profile (apply_event rs e) evs'
  end.

(** A sub-part is transparent when it is drawn in flat colour with an
    alpha below one; a textured part or a colour of alpha one is opaque. *)
Definition transparent (d : DrawInfo) : Prop := use_texture d = 0%Z /\ alpha d < 1.

Definition only_transparent_blended (l : list DrawInfo) : Prop :=
  Forall (fun d => blending d = true -> transparent d) l.

(** A draw made with the texture flag and the colour of a given state:
    what a draw is when no uniform was written since that state. *)
Definition entry (rs : RenderState) (b : bool) (m : Mesh) : DrawInfo :=
  mk_DrawInfo m b (bUseTexture rs) (glm.w4 (objectColor rs)).

Fixpoint entered (evs : list Event) : list Renderer :=
  match evs with
  | [] => []
  | Enter r :: evs' => r :: entered evs'
  | _ :: evs' => entered evs'
  end.

Fixpoint draws (evs : list Event) : list Mesh :=
  match evs with
  | [] => []
  | Draw m :: evs' => m :: draws evs'
  | _ :: evs' => draws evs'
  end.

(** The uniform an event writes, and the writes whose name starts with a
    given prefix. *)
Definition uniform_name (e : Event) : option string :=
  match e with
  | setBoolValue n _ | setIntValue n _ | setFloatValue n _ | setVec2Value n _
  | setVec3Value n _ | setVec4Value n _ | setMat4Value n _
  | setSampler2DValue n _ => Some n
  | _ => None
  end.

Definition writes_to (p : string) (evs : list Event) : list Event :=
  filter (fun e => match uniform_name e with
                   | Some n => String.prefix p n
                   | None => false
                   end) evs.

(** The scene stays inside the slots of [m_textureIDs]. *)
Definition textures_in_bounds (s : Scene) : Prop :=
  (m_loadedTextures s <= Z.of_nat (List.length (m_textureIDs s)))%Z.

(** Rendering has a defined behaviour: [SetShaderMaterial] does not meet a
    null shader manager with materials defined, and the texture search, made
    only with a shader manager present, stays inside the array. *)
Definition rendering_defined (s : Scene) : Prop :=
  (m_pShaderManager s = NULL -> m_objectMaterials s = [])
  /\ (m_pShaderManager s = ShaderManagerObject -> textures_in_bounds s).

(** The calls of a block guarded by [NULL != m_pShaderManager]. *)
Definition if_present (s : Scene) (evs : list Event) : list Event :=
  match m_pShaderManager s with
  | NULL => []
  | ShaderManagerObject => evs
  end.

(** [runs m s evs]: [m] returns in scene [s], leaves [s] as it is, and
    makes the calls [evs]. *)
Definition runs (m : M unit) (s : Scene) (evs : list Event) : Prop :=
  m s = Some (tt, s, evs).

(** The slot [FindTextureSlot] answers with. *)
Definition slot_of (tag : string) (s : Scene) : Z :=
  match FindTextureSlot tag s with
  | Some (slot, _, _) => slot
  | None => (-1)%Z
  end.

(** The material [SetShaderMaterial] pushes, and its three writes; nothing
    is written while no material is defined. *)
Definition found_material (tag : string) (s : Scene) : OBJECT_MATERIAL.t :=
  FindMaterial_loop (m_objectMaterials s) tag indeterminate.

Definition material_events (tag : string) (s : Scene) : list Event :=
  match m_objectMaterials s with
  | [] => []
  | _ :: _ =>
      [setVec3Value "material.diffuseColor"
         (OBJECT_MATERIAL.diffuseColor (found_material tag s));
       setVec3Value "material.specularColor"
         (OBJECT_MATERIAL.specularColor (found_material tag s));
       setFloatValue "material.shininess"
         (OBJECT_MATERIAL.shininess (found_material tag s))]
  end.

(** The calls an object renderer makes between two draws, as data, so
    that statements can range over every sequence of them. *)
Inductive Call :=
  | CallSetTransformations (scaleXYZ : glm.vec3) (rx ry rz : R)
      (positionXYZ : glm.vec3)
  | CallSetShaderColor (r g b a : R)
  | CallSetShaderTexture (textureTag : string)
  | CallSetTextureUVScale (u v : R)
  | CallSetShaderMaterial (materialTag : string)
  | CallDraw (m : Mesh).

Definition call (c : Call) : M unit :=
  match c with
  | CallSetTransformations sc rx ry rz pos => SetTransformations sc rx ry rz pos
  | CallSetShaderColor r g b a => SetShaderColor r g b a
  | CallSetShaderTexture t => SetShaderTexture t
  | CallSetTextureUVScale u v => SetTextureUVScale u v
  | CallSetShaderMaterial t => SetShaderMaterial t
  | CallDraw m => draw m
  end.

(** The mode chosen by the most recent of [SetShaderColor] (0, flat
    colour) and [SetShaderTexture] (1, textured) before each draw of a
    call sequence; [mode] is the flag before the sequence starts. *)
Fixpoint modes_at_draws (cs : list Call) (mode : Z) : list Z :=
  match cs with
  | [] => []
  | CallDraw _ :: cs' => mode :: modes_at_draws cs' mode
  | CallSetShaderColor _ _ _ _ :: cs' => modes_at_draws cs' 0%Z
  | CallSetShaderTexture _ :: cs' => modes_at_draws cs' 1%Z
  | _ :: cs' => modes_at_draws cs' mode
  end.

(** ** The registry as data *)

(** The entries counted as loaded: the first [m_loadedTextures] slots of
    the array. *)
Definition registered (s : Scene) : list TEXTURE_INFO.t :=
  firstn (Z.to_nat (m_loadedTextures s)) (m_textureIDs s).

(** The array has its 16 slots and the count lies within them. *)
Definition registry_ok (s : Scene) : Prop :=
  List.length (m_textureIDs s) = 16%nat
  /\ (0 <= m_loadedTextures s <= 16)%Z.

(** A file [CreateGLTexture] registers: it decodes, to 3 or 4 channels. *)
Definition loadable (filename : string) : bool :=
  match stbi_load filename with
  | Some image => (colorChannels image =? 3)%Z || (colorChannels image =? 4)%Z
  | None => false
  end.

(** The texture units handed to the sampler uniform by a sequence of
    calls. *)
Fixpoint samplers (evs : list Event) : list Z :=
  match evs with
  | [] => []
  | setSampler2DValue _ slot :: evs' => slot :: samplers evs'
  | _ :: evs' => samplers evs'
  end.

(** The first entry of a list of slots that carries a tag, with its
    index counted from [i]: what both texture searches look for. *)
Fixpoint first_match (tag : string) (l : list TEXTURE_INFO.t) (i : Z)
    : option (Z * TEXTURE_INFO.t) :=
  match l with
  | [] => None
  | e :: l' =>
      if String.eqb (TEXTURE_INFO.tag e) tag then Some (i, e)
      else first_match tag l' (i + 1)
  end.

(** The texture name bound at each [glBindTexture], with the unit that is
    active then ([active] before the first call). *)
Fixpoint bindings (active : Z) (evs : list Event) : list (Z * Z) :=
  match evs with
  | [] => []
  | glActiveTexture unit :: evs' => bindings unit evs'
  | glBindTexture _ name :: evs' => (active, name) :: bindings active evs'
  | _ :: evs' => bindings active evs'
  end.

(** [unchanged_by m]: whenever [m] returns, the scene is as before. *)
Definition unchanged_by {A} (m : M A) : Prop :=
  forall s a s' evs, m s = Some (a, s', evs) -> s' = s.

(** The member functions a client calls after construction, as data, so
    that statements can range over every history of calls. *)
Inductive Operation :=
  | OpCreateGLTexture (filename tag : string)
  | OpBindGLTextures
  | OpDestroyGLTextures
  | OpLoadSceneTextures
  | OpDefineObjectMaterials (time : R)
  | OpSetupSceneLights (time jitter_red jitter_green jitter_blue : R)
  | OpRenderScene (time : R).

Definition perform (op : Operation) : M unit :=
  match op with
  | OpCreateGLTexture filename tag => CreateGLTexture filename tag ;; ret tt
  | OpBindGLTextures => BindGLTextures
  | OpDestroyGLTextures => DestroyGLTextures
  | OpLoadSceneTextures => LoadSceneTextures
  | OpDefineObjectMaterials time => DefineObjectMaterials time
  | OpSetupSceneLights time jr jg jb => SetupSceneLights time jr jg jb
  | OpRenderScene time => RenderScene time
  end.

(** [keeps P m]: [m] takes a scene with [P] to a scene with [P], whenever
    it returns. *)
Definition keeps {A} (P : Scene -> Prop) (m : M A) : Prop :=
  forall s a s' evs, P s -> m s = Some (a, s', evs) -> P s'.

(** The registry is well formed and the shader manager pointer is [p]. *)
Definition well_formed (p : ShaderManagerPtr) (s : Scene) : Prop :=
  registry_ok s /\ m_pShaderManager s = p.

(** The files [LoadSceneTextures] reads and the tags it gives them, in
    the order of its calls. *)
Definition scene_textures : list (string * string) :=
  [("textures/knit.jpg", "fabric"); ("textures/glass.jpg", "glass");
   ("textures/rubber.jpg", "rubber"); ("textures/candle.jpg", "candle");
   ("textures/stainless.jpg", "stainless"); ("textures/metal.jpg", "metal");
   ("textures/pages.jpg", "pages"); ("textures/leather.png", "leather");
   ("textures/wood.jpg", "wood")].

(** The first material of the vector that carries a tag. *)
Definition defined_material (tag : string) (s : Scene) : option OBJECT_MATERIAL.t :=
  find (fun m => String.eqb (OBJECT_MATERIAL.tag m) tag) (m_objectMaterials s).

(** The three uniform writes for a material. *)
Definition material_push (m : OBJECT_MATERIAL.t) : list Event :=
  [setVec3Value "material.diffuseColor" (OBJECT_MATERIAL.diffuseColor m);
   setVec3Value "material.specularColor" (OBJECT_MATERIAL.specularColor m);
   setFloatValue "material.shininess" (OBJECT_MATERIAL.shininess m)].

(** The writes to the three material uniforms among a sequence of calls. *)
Definition is_material_write (e : Event) : bool :=
  match e with
  | setVec3Value name _ =>
      String.eqb name "material.diffuseColor"
      || String.eqb name "material.specularColor"
  | setFloatValue name _ => String.eqb name "material.shininess"
  | _ => false
  end.

Definition material_writes (evs : list Event) : list Event :=
  filter is_material_write evs.

(** The calls of a sequence that are not writes to one of the given
    uniforms. *)
Definition without (names : list string) (evs : list Event) : list Event :=
  filter (fun e => match uniform_name e with
                   | Some n => negb (existsb (String.eqb n) names)
                   | None => true
                   end) evs.

(** The names of the uniforms written by a sequence of calls, in order. *)
Fixpoint uniform_names (evs : list Event) : list string :=
  match evs with
  | [] => []
  | e :: evs' =>
      match uniform_name e with
      | Some n => n :: uniform_names evs'
      | None => uniform_names evs'
      end
  end.

(** A matrix of an affine map: its bottom row is (0, 0, 0, 1). *)
Definition affine (m : glm.mat4) : Prop :=
  glm.w4 (glm.col0 m) = 0 /\ glm.w4 (glm.col1 m) = 0
  /\ glm.w4 (glm.col2 m) = 0 /\ glm.w4 (glm.col3 m) = 1.

(** The image of a point [(x, y, z)] under a matrix: the matrix applied
    to [(x, y, z, 1)]. *)
Definition transform_point (m : glm.mat4) (v : glm.vec3) : glm.vec4 :=
  glm.mul_col m (glm.mk_vec4 (glm.x3 v) (glm.y3 v) (glm.z3 v) 1).

(** A scene as [LoadSceneTextures] and [DefineObjectMaterials] leave it
    after construction with a shader manager, when every file decodes to
    three channels and texture names are handed out in sequence. *)
Definition prepared_scene : Scene :=
  mk_Scene ShaderManagerObject
    ([TEXTURE_INFO.mk "fabric" 1; TEXTURE_INFO.mk "glass" 2;
      TEXTURE_INFO.mk "rubber" 3; TEXTURE_INFO.mk "candle" 4;
      TEXTURE_INFO.mk "stainless" 5; TEXTURE_INFO.mk "metal" 6;
      TEXTURE_INFO.mk "pages" 7; TEXTURE_INFO.mk "leather" 8;
      TEXTURE_INFO.mk "wood" 9]
     ++ repeat (TEXTURE_INFO.mk "/0" (to_GLuint (-1))) 7)
    9
    [OBJECT_MATERIAL.mk (glm.mk_vec3 0.258824 0.258824 0.435294)
       (glm.mk_vec3 0 0 0) 0.3 (glm.mk_vec3 0 0 0) "backdrop";
     OBJECT_MATERIAL.mk (glm.mk_vec3 0.3 0.3 0.3)
       (glm.mk_vec3 0.7 0.6 0.9) 95 (glm.mk_vec3 0 0 0) "glass";
     OBJECT_MATERIAL.mk (glm.mk_vec3 0.4 0.4 0.4)
       (glm.mk_vec3 0.7 0.7 0.6) 52 (glm.mk_vec3 0 0 0) "metal";
     OBJECT_MATERIAL.mk (glm.mk_vec3 0.2 0.2 0.3)
       (glm.mk_vec3 0 0 0) 0.1 (glm.mk_vec3 0 0 0) "wood";
     OBJECT_MATERIAL.mk (glm.mk_vec3 1 0.5 0)
       (glm.mk_vec3 1 0.6 0.3) 32
       (glm.vec3_scale (glm.mk_vec3 1 0.4 0) (sin (0 * 10) * 0.2 + 0.8)) "flame";
     OBJECT_MATERIAL.mk (glm.mk_vec3 0.396 0.694 0.996)
       (glm.mk_vec3 0.3 0.5 0.7) 50 (glm.mk_vec3 0 0 0) "liquid"]
    (glm.mk_vec3 0 0 0)
    [9; 8; 7; 6; 5; 4; 3; 2; 1]%Z.

(** ** Running member functions *)

Lemma runs_bind (m k : M unit) s e1 e2 :
  runs m s e1 -> runs k s e2 -> runs (m ;; k) s (e1 ++ e2).
Proof. unfold runs, bind. intros -> ->. reflexivity. Qed.

Lemma runs_get (k : Scene -> M unit) s e :
  runs (k s) s e -> runs (x <- get ;; k x) s e.
Proof. unfold runs, bind, get. intros ->. reflexivity. Qed.

Lemma runs_emit e s : runs (emit e) s [e].
Proof. reflexivity. Qed.

Lemma runs_draw m s : runs (draw m) s [Draw m].
Proof. reflexivity. Qed.

Lemma runs_ret s : runs (ret tt) s [].
Proof. reflexivity. Qed.

Lemma runs_shader e s :
  m_pShaderManager s = ShaderManagerObject -> runs (shader e) s [e].
Proof. unfold runs, shader. intros ->. reflexivity. Qed.

Lemma runs_if_shader body s e :
  m_pShaderManager s = ShaderManagerObject ->
  runs body s e -> runs (if_shader body) s e.
Proof.
  intros Hp Hb. unfold if_shader. apply runs_get. rewrite Hp. exact Hb.
Qed.

Lemma if_shader_null body s :
  m_pShaderManager s = NULL -> if_shader body s = Some (tt, s, []).
Proof. intros Hp. unfold if_shader, bind, get. rewrite Hp. reflexivity. Qed.

(** *** Texture lookups return inside the bounds *)

Lemma load_texture_in_bounds i s :
  (0 <= i < Z.of_nat (List.length (m_textureIDs s)))%Z ->
  exists e, load_texture i s = Some (e, s, []).
Proof.
  intros Hi. unfold load_texture.
  replace ((0 <=? i)%Z && (i <? Z.of_nat (List.length (m_textureIDs s)))%Z)
    with true by (symmetry; apply andb_true_intro; split;
                  [apply Z.leb_le | apply Z.ltb_lt]; lia).
  destruct (nth_error (m_textureIDs s) (Z.to_nat i)) as [e|] eqn:E.
  - now exists e.
  - apply nth_error_None in E. lia.
Qed.

Lemma FindTextureSlot_loop_returns n tag dflt index s :
  (0 <= index)%Z ->
  (index + Z.of_nat n <= Z.of_nat (List.length (m_textureIDs s)))%Z ->
  exists slot, FindTextureSlot_loop n tag dflt index s = Some (slot, s, []).
Proof.
  revert index. induction n as [|n IH]; intros index H0 Hn.
  - now exists dflt.
  - cbn [FindTextureSlot_loop]. unfold bind.
    destruct (load_texture_in_bounds index s) as [e ->]; [lia|].
    destruct (String.eqb (TEXTURE_INFO.tag e) tag).
    + now exists index.
    + destruct (IH (index + 1)%Z) as [slot ->]; [lia | lia |].
      now exists slot.
Qed.

Lemma FindTextureSlot_returns tag s :
  textures_in_bounds s -> FindTextureSlot tag s = Some (slot_of tag s, s, []).
Proof.
  intros Hb. unfold slot_of.
  assert (exists slot, FindTextureSlot tag s = Some (slot, s, [])) as [slot ->].
  { unfold FindTextureSlot, bind, get.
    destruct (FindTextureSlot_loop_returns
                (Z.to_nat (m_loadedTextures s)) tag (-1)%Z 0%Z s) as [slot ->].
    - lia.
    - unfold textures_in_bounds in Hb. lia.
    - now exists slot. }
  reflexivity.
Qed.

(** *** The calls of the uniform setters *)

Lemma runs_guarded body s evs :
  (m_pShaderManager s = ShaderManagerObject -> runs body s evs) ->
  runs (if_shader body) s (if_present s evs).
Proof.
  intros H. unfold if_present. destruct (m_pShaderManager s) eqn:Hp.
  - now apply if_shader_null.
  - apply runs_if_shader; auto.
Qed.

Lemma SetTransformations_runs s scaleXYZ rx ry rz positionXYZ :
  runs (SetTransformations scaleXYZ rx ry rz positionXYZ) s
       (if_present s
          [setMat4Value g_ModelName (modelView scaleXYZ rx ry rz positionXYZ)]).
Proof. apply runs_guarded. intros Hp. now apply runs_shader. Qed.

Lemma SetShaderColor_runs s r g b a :
  runs (SetShaderColor r g b a) s
       (if_present s
          [setIntValue g_UseTextureName 0%Z;
           setVec4Value g_ColorValueName (glm.mk_vec4 r g b a)]).
Proof.
  apply runs_guarded. intros Hp.
  apply (runs_bind _ _ s [_] [_]); now apply runs_shader.
Qed.

Lemma SetTextureUVScale_runs s u v :
  runs (SetTextureUVScale u v) s
       (if_present s [setVec2Value "UVscale" (glm.mk_vec2 u v)]).
Proof. apply runs_guarded. intros Hp. now apply runs_shader. Qed.

Section Setters.

Variable s : Scene.
Hypothesis defined : rendering_defined s.

Lemma SetShaderTexture_runs textureTag :
  runs (SetShaderTexture textureTag) s
       (if_present s
          [setIntValue g_UseTextureName 1%Z;
           setSampler2DValue g_TextureValueName (slot_of textureTag s)]).
Proof.
  apply runs_guarded. intros Hp.
  apply (runs_bind _ _ s [_] [_]); [now apply runs_shader|].
  unfold runs, bind.
  rewrite (FindTextureSlot_returns _ _ (proj2 defined Hp)).
  unfold shader. rewrite Hp. reflexivity.
Qed.

Lemma SetShaderMaterial_runs materialTag :
  runs (SetShaderMaterial materialTag) s (material_events materialTag s).
Proof.
  unfold runs, SetShaderMaterial, material_events, found_material, FindMaterial,
    bind, get, shader, ret.
  destruct (m_objectMaterials s) as [|m l] eqn:E; [reflexivity|].
  assert (Hp : m_pShaderManager s = ShaderManagerObject).
  { destruct (m_pShaderManager s) eqn:Hp; [|reflexivity].
    now rewrite (proj1 defined) in E. }
  cbn [List.length Nat.ltb Nat.leb]. cbv beta iota. rewrite E.
  cbn [List.length Nat.eqb]. cbv beta iota.
  repeat (rewrite Hp; cbv beta iota). reflexivity.
Qed.

End Setters.

Lemma defined_with_shader s :
  m_pShaderManager s = ShaderManagerObject -> textures_in_bounds s ->
  rendering_defined s.
Proof. intros Hp Hb. split; [congruence | auto]. Qed.

(** [run] follows a renderer call by call; [trace_of_renderer] then reads
    the collected calls, in each case of shader manager and materials. *)
Ltac run :=
  lazymatch goal with
  | |- runs (bind get _) _ _ => apply runs_get; cbv beta; run
  | |- runs (bind _ _) _ _ => eapply runs_bind; [run | run]
  | |- runs (emit _) _ _ => apply runs_emit
  | |- runs (draw _) _ _ => apply runs_draw
  | |- runs (ret tt) _ _ => apply runs_ret
  | |- runs (SetTransformations _ _ _ _ _) _ _ => apply SetTransformations_runs
  | |- runs (SetShaderColor _ _ _ _) _ _ => apply SetShaderColor_runs
  | |- runs (SetShaderTexture _) _ _ => apply SetShaderTexture_runs; assumption
  | |- runs (SetTextureUVScale _ _) _ _ => apply SetTextureUVScale_runs
  | |- runs (SetShaderMaterial _) _ _ => apply SetShaderMaterial_runs; assumption
  end.

Ltac trace_eval :=
  cbn [app profile entered draws apply_event replay fold_left String.eqb
       Ascii.eqb Bool.eqb andb g_UseTextureName g_ColorValueName blend
       bUseTexture objectColor glm.w4 glm.x4 glm.y4 glm.z4].

Ltac trace_of_renderer :=
  unfold material_events, if_present;
  match goal with
  | |- context [m_objectMaterials ?s] => destruct (m_objectMaterials s)
  end;
  match goal with
  | |- context [m_pShaderManager ?s] => destruct (m_pShaderManager s)
  | _ => idtac
  end;
  trace_eval; repeat split; reflexivity.

(** *** The calls of each renderer *)

Section Renderers.

Variable s : Scene.
Hypothesis defined : rendering_defined s.

Lemma RenderTable_trace :
  exists evs, runs RenderTable s evs /\ entered evs = [Table]
    /\ draws evs = [BoxMesh; BoxMesh].
Proof.
  eexists. split; [unfold RenderTable; run | trace_of_renderer].
Qed.

Lemma RenderBackdrop_trace :
  exists evs, runs RenderBackdrop s evs /\ entered evs = [Backdrop]
    /\ draws evs = [PlaneMesh].
Proof.
  eexists. split; [unfold RenderBackdrop; run | trace_of_renderer].
Qed.

Lemma RenderPotionBottle_trace :
  exists evs, runs RenderPotionBottle s evs /\ entered evs = [PotionBottle]
    /\ draws evs =
         [BoxMesh; BoxMeshSide front; BoxMeshSide back; BoxMeshSide left;
          BoxMeshSide right; BoxMeshSide bottom; Pyramid4Mesh; CylinderMesh;
          TorusMesh; TaperedCylinderMesh].
Proof.
  eexists. split; [unfold RenderPotionBottle; cbv zeta; run | trace_of_renderer].
Qed.

Lemma RenderCandle_trace time :
  exists evs, runs (RenderCandle time) s evs /\ entered evs = [Candle]
    /\ draws evs =
         [TorusMesh; TaperedCylinderMesh; CylinderMesh; TaperedCylinderMesh;
          TaperedCylinderMesh; TorusMesh; CylinderMesh; ConeMesh; ConeMesh].
Proof.
  eexists. split; [unfold RenderCandle; cbv zeta; run | trace_of_renderer].
Qed.

Lemma RenderBottomBook_trace :
  exists evs, runs RenderBottomBook s evs /\ entered evs = [BottomBook]
    /\ draws evs =
         [BoxMeshSide front; BoxMeshSide back; BoxMeshSide left;
          BoxMeshSide right; BoxMesh; BoxMesh; BoxMesh].
Proof.
  eexists. split; [unfold RenderBottomBook; run | trace_of_renderer].
Qed.

Lemma RenderTopBook_trace :
  exists evs, runs RenderTopBook s evs /\ entered evs = [TopBook]
    /\ draws evs =
         [BoxMeshSide front; BoxMeshSide back; BoxMeshSide left;
          BoxMeshSide right; BoxMesh; BoxMesh; BoxMesh].
Proof.
  eexists. split; [unfold RenderTopBook; run | trace_of_renderer].
Qed.

Lemma RenderCauldron_trace :
  exists evs, runs RenderCauldron s evs /\ entered evs = [Cauldron]
    /\ draws evs =
         [HalfSphereMesh; TorusMesh; TaperedCylinderMesh; TaperedCylinderMesh;
          TaperedCylinderMesh; CylinderMesh].
Proof.
  eexists. split;
    [unfold RenderCauldron; cbv zeta; cbn [for_each]; run | trace_of_renderer].
Qed.

End Renderers.

(** *** The draws of the renderers that blend, with a shader manager *)

Ltac profile_of_renderer Hp :=
  unfold material_events, if_present; rewrite Hp;
  match goal with
  | |- context [m_objectMaterials ?s] => destruct (m_objectMaterials s)
  end;
  trace_eval; repeat split; reflexivity.

Section Blending.

Variable s : Scene.
Variable rs : RenderState.
Hypothesis shader_present : m_pShaderManager s = ShaderManagerObject.
Hypothesis in_bounds : textures_in_bounds s.

Let defined : rendering_defined s :=
  defined_with_shader s shader_present in_bounds.

Lemma RenderPotionBottle_profile :
  exists evs, runs RenderPotionBottle s evs
    /\ profile rs evs =
         [mk_DrawInfo BoxMesh true 0 0.7;
          mk_DrawInfo (BoxMeshSide front) true 0 0.65;
          mk_DrawInfo (BoxMeshSide back) true 0 0.65;
          mk_DrawInfo (BoxMeshSide left) true 0 0.65;
          mk_DrawInfo (BoxMeshSide right) true 0 0.65;
          mk_DrawInfo (BoxMeshSide bottom) true 0 0.65;
          mk_DrawInfo Pyramid4Mesh true 0 0.65;
          mk_DrawInfo CylinderMesh true 0 0.65;
          mk_DrawInfo TorusMesh true 0 0.65;
          mk_DrawInfo TaperedCylinderMesh true 1 0.65]
    /\ blend (replay rs evs) = false.
Proof.
  eexists. split; [unfold RenderPotionBottle; cbv zeta; run|].
  profile_of_renderer shader_present.
Qed.

Lemma RenderCandle_profile time :
  exists evs, runs (RenderCandle time) s evs
    /\ profile rs evs =
         [mk_DrawInfo TorusMesh (blend rs) 1 1;
          mk_DrawInfo TaperedCylinderMesh (blend rs) 1 1;
          mk_DrawInfo CylinderMesh (blend rs) 1 1;
          mk_DrawInfo TaperedCylinderMesh (blend rs) 1 1;
          mk_DrawInfo TaperedCylinderMesh (blend rs) 1 1;
          mk_DrawInfo TorusMesh (blend rs) 1 1;
          mk_DrawInfo CylinderMesh (blend rs) 1 1;
          mk_DrawInfo ConeMesh (blend rs) 1 1;
          mk_DrawInfo ConeMesh true 0 (flame_alpha time)]
    /\ blend (replay rs evs) = false.
Proof.
  eexists. split; [unfold RenderCandle; cbv zeta; run|].
  profile_of_renderer shader_present.
Qed.

Lemma RenderCauldron_profile :
  exists evs, runs RenderCauldron s evs
    /\ profile rs evs =
         [mk_DrawInfo HalfSphereMesh (blend rs) 1 1;
          mk_DrawInfo TorusMesh (blend rs) 1 1;
          mk_DrawInfo TaperedCylinderMesh (blend rs) 1 1;
          mk_DrawInfo TaperedCylinderMesh (blend rs) 1 1;
          mk_DrawInfo TaperedCylinderMesh (blend rs) 1 1;
          mk_DrawInfo CylinderMesh true 0 0.65]
    /\ blend (replay rs evs) = false.
Proof.
  eexists. split; [unfold RenderCauldron; cbv zeta; cbn [for_each]; run|].
  profile_of_renderer shader_present.
Qed.

End Blending.

(** *** The draws of the renderers that blend, in every defined scene

    Without a shader manager no uniform is written, so a draw is made with
    the flag and the colour the renderer was entered with; the GL calls and
    the draws are the same. *)

Section Brackets.

Variable s : Scene.
Variable rs : RenderState.
Hypothesis defined : rendering_defined s.

Ltac profile_in_both_cases :=
  unfold material_events, if_present;
  match goal with
  | |- context [m_objectMaterials ?s] => destruct (m_objectMaterials s)
  end;
  destruct (m_pShaderManager s);
  trace_eval; unfold entry; cbn [map app]; split; reflexivity.

Lemma RenderPotionBottle_brackets :
  exists evs, runs RenderPotionBottle s evs
    /\ blend (replay rs evs) = false
    /\ profile rs evs =
         match m_pShaderManager s with
         | ShaderManagerObject =>
             [mk_DrawInfo BoxMesh true 0 0.7;
              mk_DrawInfo (BoxMeshSide front) true 0 0.65;
              mk_DrawInfo (BoxMeshSide back) true 0 0.65;
              mk_DrawInfo (BoxMeshSide left) true 0 0.65;
              mk_DrawInfo (BoxMeshSide right) true 0 0.65;
              mk_DrawInfo (BoxMeshSide bottom) true 0 0.65;
              mk_DrawInfo Pyramid4Mesh true 0 0.65;
              mk_DrawInfo CylinderMesh true 0 0.65;
              mk_DrawInfo TorusMesh true 0 0.65;
              mk_DrawInfo TaperedCylinderMesh true 1 0.65]
         | NULL =>
             map (entry rs true)
               [BoxMesh; BoxMeshSide front; BoxMeshSide back; BoxMeshSide left;
                BoxMeshSide right; BoxMeshSide bottom; Pyramid4Mesh;
                CylinderMesh; TorusMesh; TaperedCylinderMesh]
         end.
Proof.
  eexists. split; [unfold RenderPotionBottle; cbv zeta; run|].
  profile_in_both_cases.
Qed.

Lemma RenderCandle_brackets time :
  exists evs, runs (RenderCandle time) s evs
    /\ blend (replay rs evs) = false
    /\ profile rs evs =
         match m_pShaderManager s with
         | ShaderManagerObject =>
             map (fun m => mk_DrawInfo m (blend rs) 1 1)
               [TorusMesh; TaperedCylinderMesh; CylinderMesh;
                TaperedCylinderMesh; TaperedCylinderMesh; TorusMesh;
                CylinderMesh; ConeMesh]
             ++ [mk_DrawInfo ConeMesh true 0 (flame_alpha time)]
         | NULL =>
             map (entry rs (blend rs))
               [TorusMesh; TaperedCylinderMesh; CylinderMesh;
                TaperedCylinderMesh; TaperedCylinderMesh; TorusMesh;
                CylinderMesh; ConeMesh]
             ++ [entry rs true ConeMesh]
         end.
Proof.
  eexists. split; [unfold RenderCandle; cbv zeta; run|].
  profile_in_both_cases.
Qed.

Lemma RenderCauldron_brackets :
  exists evs, runs RenderCauldron s evs
    /\ blend (replay rs evs) = false
    /\ profile rs evs =
         match m_pShaderManager s with
         | ShaderManagerObject =>
             map (fun m => mk_DrawInfo m (blend rs) 1 1)
               [HalfSphereMesh; TorusMesh; TaperedCylinderMesh;
                TaperedCylinderMesh; TaperedCylinderMesh]
             ++ [mk_DrawInfo CylinderMesh true 0 0.65]
         | NULL =>
             map (entry rs (blend rs))
               [HalfSphereMesh; TorusMesh; TaperedCylinderMesh;
                TaperedCylinderMesh; TaperedCylinderMesh]
             ++ [entry rs true CylinderMesh]
         end.
Proof.
  eexists. split; [unfold RenderCauldron; cbv zeta; cbn [for_each]; run|].
  profile_in_both_cases.
Qed.

End Brackets.

(** ** The texture registry *)

(** C10: right after construction no texture is counted as loaded, the 16
    slots all carry the placeholder tag "/0", and both texture lookups
    answer -1 for every tag, "/0" included, leaving the scene as it is. *)
Theorem lookups_after_construction pShaderManager tag :
  m_loadedTextures (SceneManager_new pShaderManager) = 0%Z
  /\ List.length (m_textureIDs (SceneManager_new pShaderManager)) = 16%nat
  /\ Forall (fun e => TEXTURE_INFO.tag e = "/0")
            (m_textureIDs (SceneManager_new pShaderManager))
  /\ FindTextureID tag (SceneManager_new pShaderManager)
     = Some ((-1)%Z, SceneManager_new pShaderManager, [])
  /\ FindTextureSlot tag (SceneManager_new pShaderManager)
     = Some ((-1)%Z, SceneManager_new pShaderManager, [])
  /\ FindTextureID "/0" (SceneManager_new pShaderManager)
     = Some ((-1)%Z, SceneManager_new pShaderManager, [])
  /\ FindTextureSlot "/0" (SceneManager_new pShaderManager)
     = Some ((-1)%Z, SceneManager_new pShaderManager, []).
Proof.
  repeat split; try reflexivity.
  unfold SceneManager_new. cbn [m_textureIDs repeat].
  repeat constructor.
Qed.

(** The failure paths of [CreateGLTexture] never reach the registration
    code. *)
Lemma emit_then {A} e (k : M A) s :
  (emit e ;; k) s =
  match k s with
  | Some (a, s', evs) => Some (a, s', e :: evs)
  | None => None
  end.
Proof. unfold bind, emit. destruct (k s) as [[[a s'] evs]|]; reflexivity. Qed.

(** C6: when the file cannot be decoded, or decodes to a channel count
    other than 3 and 4, [CreateGLTexture] returns false and neither the
    count of loaded textures nor any slot of the registry changes. *)
Theorem CreateGLTexture_failure filename tag s :
  stbi_load filename = None
  \/ (exists image, stbi_load filename = Some image
       /\ colorChannels image <> 3%Z /\ colorChannels image <> 4%Z) ->
  exists s' evs,
    CreateGLTexture filename tag s = Some (false, s', evs)
    /\ m_loadedTextures s' = m_loadedTextures s
    /\ m_textureIDs s' = m_textureIDs s.
Proof.
  unfold CreateGLTexture. rewrite emit_then.
  intros [-> | (image & -> & H3 & H4)].
  - eexists _, _. repeat split.
  - apply Z.eqb_neq in H3, H4. rewrite H3, H4.
    unfold bind at 1. unfold gen_texture at 1. cbv beta iota.
    rewrite !emit_then. unfold ret. cbv beta iota.
    eexists _, _. repeat split.
Qed.

(** A successful load fills the next slot (shown for the first one). *)
Lemma CreateGLTexture_success_example filename tag pShaderManager image :
  stbi_load filename = Some image -> colorChannels image = 3%Z ->
  exists s' evs,
    CreateGLTexture filename tag (SceneManager_new pShaderManager)
      = Some (true, s', evs)
    /\ m_loadedTextures s' = 1%Z
    /\ nth_error (m_textureIDs s') 0
        = Some (TEXTURE_INFO.mk tag (fresh_name [])).
Proof.
  intros E H3. unfold CreateGLTexture. rewrite E, H3. cbn [Z.eqb Pos.eqb].
  eexists _, _. repeat split.
Qed.

(** [DestroyGLTextures] without loaded textures does nothing. *)
Lemma DestroyGLTextures_nothing_loaded s :
  (m_loadedTextures s <= 0)%Z -> DestroyGLTextures s = Some (tt, s, []).
Proof.
  intros H. unfold DestroyGLTextures, bind, get.
  replace (Z.to_nat (m_loadedTextures s)) with O by lia. reflexivity.
Qed.

(** Every iteration of [DestroyGLTextures] adds a texture name to the
    context and removes none. *)
Lemma DestroyGLTextures_loop_names n : forall i s s' evs,
  DestroyGLTextures_loop n i s = Some (tt, s', evs) ->
  incl (gl_textures s) (gl_textures s')
  /\ List.length (gl_textures s') = (List.length (gl_textures s) + n)%nat
  /\ m_loadedTextures s' = m_loadedTextures s.
Proof.
  induction n as [|n IH]; intros i s s' evs H.
  - inversion H; subst. split; [apply incl_refl | split; [lia | reflexivity]].
  - cbn [DestroyGLTextures_loop] in H.
    unfold bind, gen_texture, store_texture in H. cbv beta iota in H.
    match type of H with
    | context [if ?c then _ else _] => destruct c; [|discriminate]
    end.
    cbv beta iota in H.
    match type of H with
    | context [DestroyGLTextures_loop n ?j ?t] =>
        destruct (DestroyGLTextures_loop n j t) as [[[[] s2] e2]|] eqn:E;
        [|discriminate]
    end.
    inversion H; subst. apply IH in E. cbn in E. destruct E as (Hi & Hl & Hc).
    repeat split.
    + intros x Hx. apply Hi. now right.
    + rewrite Hl. lia.
    + exact Hc.
Qed.

Lemma DestroyGLTextures_names s s' evs :
  DestroyGLTextures s = Some (tt, s', evs) ->
  incl (gl_textures s) (gl_textures s')
  /\ List.length (gl_textures s')
     = (List.length (gl_textures s) + Z.to_nat (m_loadedTextures s))%nat.
Proof.
  unfold DestroyGLTextures, bind, get. intros H.
  destruct (DestroyGLTextures_loop _ _ s) as [[[[] s2] e2]|] eqn:E;
    [|discriminate].
  inversion H; subst. apply DestroyGLTextures_loop_names in E. tauto.
Qed.

(** ** The material registry *)

Lemma FindMaterial_empty tag material s :
  m_objectMaterials s = [] ->
  FindMaterial tag material s = Some ((false, material), s, []).
Proof. intros E. unfold FindMaterial, bind, get. rewrite E. reflexivity. Qed.

Lemma FindMaterial_nonempty tag material s :
  m_objectMaterials s <> [] ->
  FindMaterial tag material s
  = Some ((true, FindMaterial_loop (m_objectMaterials s) tag material), s, []).
Proof.
  intros E. unfold FindMaterial, bind, get.
  destruct (m_objectMaterials s); [contradiction | reflexivity].
Qed.

(** With a match, the three fields of the first matching entry are copied
    into the caller's material. *)
Lemma FindMaterial_loop_first_match before m after tag material :
  Forall (fun e => OBJECT_MATERIAL.tag e <> tag) before ->
  OBJECT_MATERIAL.tag m = tag ->
  FindMaterial_loop (before ++ m :: after) tag material
  = OBJECT_MATERIAL.mk (OBJECT_MATERIAL.diffuseColor m)
      (OBJECT_MATERIAL.specularColor m) (OBJECT_MATERIAL.shininess m)
      (OBJECT_MATERIAL.emissiveColor material) (OBJECT_MATERIAL.tag material).
Proof.
  intros Hb Hm. induction Hb as [|e before He _ IH]; cbn [app FindMaterial_loop].
  - apply String.eqb_eq in Hm. now rewrite Hm.
  - apply String.eqb_neq in He. now rewrite He.
Qed.

(** Without a match the caller's material is left as it was. *)
Lemma FindMaterial_loop_no_match l tag material :
  Forall (fun e => OBJECT_MATERIAL.tag e <> tag) l ->
  FindMaterial_loop l tag material = material.
Proof.
  induction 1 as [|e l He _ IH]; cbn [FindMaterial_loop]; [reflexivity|].
  apply String.eqb_neq in He. now rewrite He.
Qed.

Lemma FindMaterial_first_match before m after tag material s :
  m_objectMaterials s = before ++ m :: after ->
  Forall (fun e => OBJECT_MATERIAL.tag e <> tag) before ->
  OBJECT_MATERIAL.tag m = tag ->
  FindMaterial tag material s
  = Some ((true,
           OBJECT_MATERIAL.mk (OBJECT_MATERIAL.diffuseColor m)
             (OBJECT_MATERIAL.specularColor m) (OBJECT_MATERIAL.shininess m)
             (OBJECT_MATERIAL.emissiveColor material)
             (OBJECT_MATERIAL.tag material)), s, []).
Proof.
  intros E Hb Hm. rewrite FindMaterial_nonempty.
  - rewrite E. now rewrite FindMaterial_loop_first_match.
  - rewrite E. now destruct before.
Qed.

(** With materials defined and none of them carrying the tag, the answer
    is still [true]. *)
Lemma FindMaterial_no_match tag material s :
  m_objectMaterials s <> [] ->
  Forall (fun e => OBJECT_MATERIAL.tag e <> tag) (m_objectMaterials s) ->
  FindMaterial tag material s = Some ((true, material), s, []).
Proof.
  intros E H. rewrite FindMaterial_nonempty by assumption.
  now rewrite FindMaterial_loop_no_match.
Qed.

(** ** The uniform setters *)

(** C9: with a null shader manager pointer, [SetTransformations],
    [SetShaderColor], [SetShaderTexture] and [SetTextureUVScale] each
    return without any call to a collaborator (so without a uniform write)
    and leave the whole scene as it was. *)
Theorem setters_without_shader_manager s :
  m_pShaderManager s = NULL ->
  (forall scaleXYZ rx ry rz positionXYZ,
      SetTransformations scaleXYZ rx ry rz positionXYZ s = Some (tt, s, []))
  /\ (forall r g b a, SetShaderColor r g b a s = Some (tt, s, []))
  /\ (forall textureTag, SetShaderTexture textureTag s = Some (tt, s, []))
  /\ (forall u v, SetTextureUVScale u v s = Some (tt, s, [])).
Proof.
  intros Hp. repeat split; intros; now apply if_shader_null.
Qed.

(** ** The transform builder *)

Lemma mul_is_product a b : glm.mul a b = TransformSpec.product a b.
Proof. reflexivity. Qed.

Lemma product_assoc a b c :
  TransformSpec.product (TransformSpec.product a b) c
  = TransformSpec.product a (TransformSpec.product b c).
Proof.
  destruct a as [[] [] [] []], b as [[] [] [] []], c as [[] [] [] []].
  unfold TransformSpec.product, TransformSpec.of_entries, TransformSpec.entry.
  cbn [TransformSpec.column TransformSpec.component glm.col0 glm.col1 glm.col2
       glm.col3 glm.x4 glm.y4 glm.z4 glm.w4].
  f_equal; f_equal; ring.
Qed.

Lemma translate_is_Translation p : glm.translate p = TransformSpec.Translation p.
Proof.
  unfold glm.translate, glm.translate_m, TransformSpec.Translation,
    TransformSpec.of_rows, glm.identity, glm.vadd, glm.vscale.
  cbn [glm.col0 glm.col1 glm.col2 glm.col3 glm.x4 glm.y4 glm.z4 glm.w4].
  f_equal; f_equal; ring.
Qed.

Lemma scale_is_Scale v : glm.scale v = TransformSpec.Scale v.
Proof.
  unfold glm.scale, glm.scale_m, TransformSpec.Scale, TransformSpec.of_rows,
    glm.identity, glm.vscale.
  cbn [glm.col0 glm.col1 glm.col2 glm.col3 glm.x4 glm.y4 glm.z4 glm.w4].
  f_equal; f_equal; ring.
Qed.

Lemma radians_is_degrees_to_radians d :
  glm.radians d = TransformSpec.degrees_to_radians d.
Proof. unfold glm.radians, TransformSpec.degrees_to_radians. field. Qed.

(** The unit axes are already normalised. *)
Lemma inversesqrt_one : / sqrt 1 = 1.
Proof. rewrite sqrt_1. apply Rinv_1. Qed.

Ltac unit_axis :=
  unfold glm.rotate, glm.rotate_m, glm.normalize, glm.dot, glm.vec3_scale,
    TransformSpec.of_rows, glm.identity, glm.vadd, glm.vscale;
  cbn [glm.col0 glm.col1 glm.col2 glm.col3 glm.x4 glm.y4 glm.z4 glm.w4
       glm.x3 glm.y3 glm.z3];
  match goal with
  | |- context [sqrt ?d] => replace d with 1 by ring
  end;
  rewrite inversesqrt_one; f_equal; f_equal; ring.

Lemma rotate_about_x a :
  glm.rotate a (glm.mk_vec3 1 0 0) = TransformSpec.RotationX a.
Proof. unfold TransformSpec.RotationX. unit_axis. Qed.

Lemma rotate_about_y a :
  glm.rotate a (glm.mk_vec3 0 1 0) = TransformSpec.RotationY a.
Proof. unfold TransformSpec.RotationY. unit_axis. Qed.

Lemma rotate_about_z a :
  glm.rotate a (glm.mk_vec3 0 0 1) = TransformSpec.RotationZ a.
Proof. unfold TransformSpec.RotationZ. unit_axis. Qed.

Lemma modelView_is_compose scaleXYZ rx ry rz positionXYZ :
  modelView scaleXYZ rx ry rz positionXYZ
  = TransformSpec.compose scaleXYZ rx ry rz positionXYZ.
Proof.
  unfold modelView, TransformSpec.compose. cbv zeta.
  rewrite !mul_is_product, translate_is_Translation, scale_is_Scale,
    rotate_about_x, rotate_about_y, rotate_about_z,
    !radians_is_degrees_to_radians.
  now rewrite !product_assoc.
Qed.

Lemma product_identity_l m : TransformSpec.product glm.identity m = m.
Proof.
  destruct m as [[] [] [] []].
  unfold TransformSpec.product, TransformSpec.of_entries, TransformSpec.entry,
    glm.identity.
  cbn [TransformSpec.column TransformSpec.component glm.col0 glm.col1 glm.col2
       glm.col3 glm.x4 glm.y4 glm.z4 glm.w4].
  f_equal; f_equal; ring.
Qed.

Lemma product_identity_r m : TransformSpec.product m glm.identity = m.
Proof.
  destruct m as [[] [] [] []].
  unfold TransformSpec.product, TransformSpec.of_entries, TransformSpec.entry,
    glm.identity.
  cbn [TransformSpec.column TransformSpec.component glm.col0 glm.col1 glm.col2
       glm.col3 glm.x4 glm.y4 glm.z4 glm.w4].
  f_equal; f_equal; ring.
Qed.

Ltac identity_matrix :=
  unfold TransformSpec.of_rows, glm.identity;
  cbn [glm.x4 glm.y4 glm.z4 glm.w4 glm.x3 glm.y3 glm.z3];
  rewrite ?cos_0, ?sin_0; f_equal; f_equal; ring.

Lemma Translation_origin :
  TransformSpec.Translation (glm.mk_vec3 0 0 0) = glm.identity.
Proof. unfold TransformSpec.Translation. identity_matrix. Qed.

Lemma Scale_unit : TransformSpec.Scale (glm.mk_vec3 1 1 1) = glm.identity.
Proof. unfold TransformSpec.Scale. identity_matrix. Qed.

Lemma RotationX_zero : TransformSpec.RotationX 0 = glm.identity.
Proof. unfold TransformSpec.RotationX. identity_matrix. Qed.

Lemma RotationY_zero : TransformSpec.RotationY 0 = glm.identity.
Proof. unfold TransformSpec.RotationY. identity_matrix. Qed.

Lemma RotationZ_zero : TransformSpec.RotationZ 0 = glm.identity.
Proof. unfold TransformSpec.RotationZ. identity_matrix. Qed.

Lemma zero_degrees : TransformSpec.degrees_to_radians 0 = 0.
Proof. unfold TransformSpec.degrees_to_radians. field. Qed.

Lemma compose_identity :
  TransformSpec.compose (glm.mk_vec3 1 1 1) 0 0 0 (glm.mk_vec3 0 0 0)
  = glm.identity.
Proof.
  unfold TransformSpec.compose.
  rewrite zero_degrees, Translation_origin, Scale_unit, RotationX_zero,
    RotationY_zero, RotationZ_zero.
  now rewrite !product_identity_l.
Qed.

(** C4: whenever [SetTransformations] writes the model matrix (it writes
    it once, to the uniform "model", unless the shader manager pointer is
    null), the matrix is Translation . RotationZ . RotationY . RotationX .
    Scale of the specification, the angles taken in degrees; scale (1,1,1),
    rotation (0,0,0) and position (0,0,0) give the identity matrix. *)
Theorem SetTransformations_model_matrix scaleXYZ rx ry rz positionXYZ s :
  SetTransformations scaleXYZ rx ry rz positionXYZ s
  = Some (tt, s,
          match m_pShaderManager s with
          | NULL => []
          | ShaderManagerObject =>
              [setMat4Value "model"
                 (TransformSpec.compose scaleXYZ rx ry rz positionXYZ)]
          end)
  /\ modelView (glm.mk_vec3 1 1 1) 0 0 0 (glm.mk_vec3 0 0 0) = glm.identity
  /\ glm.identity = TransformSpec.Identity.
Proof.
  split; [|split].
  - rewrite <- modelView_is_compose. apply SetTransformations_runs.
  - rewrite modelView_is_compose. apply compose_identity.
  - reflexivity.
Qed.

(** The convention of the rotations: a quarter turn about X takes the
    Y axis to the Z axis. *)
Lemma quarter_turn_about_x :
  glm.col1 (modelView (glm.mk_vec3 1 1 1) 90 0 0 (glm.mk_vec3 0 0 0))
  = glm.mk_vec4 0 0 1 0.
Proof.
  rewrite modelView_is_compose. unfold TransformSpec.compose.
  rewrite zero_degrees, Translation_origin, Scale_unit, RotationY_zero,
    RotationZ_zero, !product_identity_l, product_identity_r.
  unfold TransformSpec.degrees_to_radians.
  replace (90 * PI / 180) with (PI / 2) by field.
  unfold TransformSpec.RotationX, TransformSpec.of_rows.
  cbn [glm.col1 glm.x4 glm.y4 glm.z4 glm.w4].
  now rewrite cos_PI2, sin_PI2.
Qed.

(** ** The flame light *)

Lemma clamp_bounds x lo hi : lo <= hi -> lo <= glm.clamp x lo hi <= hi.
Proof.
  intros H. unfold glm.clamp, glm.min, glm.max.
  destruct (Rlt_dec x lo); destruct (Rlt_dec hi _); lra.
Qed.





(** *** The computation in [float] *)









(** ** The render order *)

Lemma entered_app a b : entered (a ++ b) = entered a ++ entered b.
Proof.
  induction a as [|e a IH]; [reflexivity|].
  destruct e; cbn [app entered]; now rewrite ?IH.
Qed.

Lemma draws_app a b : draws (a ++ b) = draws a ++ draws b.
Proof.
  induction a as [|e a IH]; [reflexivity|].
  destruct e; cbn [app draws]; now rewrite ?IH.
Qed.

Lemma replay_app rs a b : replay rs (a ++ b) = replay (replay rs a) b.
Proof. apply fold_left_app. Qed.

Lemma profile_app a : forall rs b,
  profile rs (a ++ b) = profile rs a ++ profile (replay rs a) b.
Proof.
  induction a as [|e a IH]; intros rs b; [reflexivity|].
  destruct e; cbn [app profile replay fold_left]; rewrite IH; reflexivity.
Qed.

(** C7: [RenderScene] returns, and its calls are those of one run of
    [RenderTable], [RenderBackdrop], [RenderPotionBottle], [RenderCandle],
    [RenderBottomBook], [RenderTopBook] and [RenderCauldron], in this
    order: the renderers entered are exactly these seven, once each, and
    the meshes are drawn object after object. *)
Theorem RenderScene_order time s :
  rendering_defined s ->
  exists table backdrop bottle candle book1 book2 cauldron,
    runs RenderTable s table
    /\ runs RenderBackdrop s backdrop
    /\ runs RenderPotionBottle s bottle
    /\ runs (RenderCandle time) s candle
    /\ runs RenderBottomBook s book1
    /\ runs RenderTopBook s book2
    /\ runs RenderCauldron s cauldron
    /\ runs (RenderScene time) s
         (table ++ backdrop ++ bottle ++ candle ++ book1 ++ book2 ++ cauldron)
    /\ entered
         (table ++ backdrop ++ bottle ++ candle ++ book1 ++ book2 ++ cauldron)
       = [Table; Backdrop; PotionBottle; Candle; BottomBook; TopBook; Cauldron]
    /\ draws
         (table ++ backdrop ++ bottle ++ candle ++ book1 ++ book2 ++ cauldron)
       = [BoxMesh; BoxMesh] ++ [PlaneMesh]
         ++ [BoxMesh; BoxMeshSide front; BoxMeshSide back; BoxMeshSide left;
             BoxMeshSide right; BoxMeshSide bottom; Pyramid4Mesh; CylinderMesh;
             TorusMesh; TaperedCylinderMesh]
         ++ [TorusMesh; TaperedCylinderMesh; CylinderMesh; TaperedCylinderMesh;
             TaperedCylinderMesh; TorusMesh; CylinderMesh; ConeMesh; ConeMesh]
         ++ [BoxMeshSide front; BoxMeshSide back; BoxMeshSide left;
             BoxMeshSide right; BoxMesh; BoxMesh; BoxMesh]
         ++ [BoxMeshSide front; BoxMeshSide back; BoxMeshSide left;
             BoxMeshSide right; BoxMesh; BoxMesh; BoxMesh]
         ++ [HalfSphereMesh; TorusMesh; TaperedCylinderMesh; TaperedCylinderMesh;
             TaperedCylinderMesh; CylinderMesh].
Proof.
  intros Hd.
  destruct (RenderTable_trace s Hd) as (e1 & R1 & N1 & D1).
  destruct (RenderBackdrop_trace s Hd) as (e2 & R2 & N2 & D2).
  destruct (RenderPotionBottle_trace s Hd) as (e3 & R3 & N3 & D3).
  destruct (RenderCandle_trace s Hd time) as (e4 & R4 & N4 & D4).
  destruct (RenderBottomBook_trace s Hd) as (e5 & R5 & N5 & D5).
  destruct (RenderTopBook_trace s Hd) as (e6 & R6 & N6 & D6).
  destruct (RenderCauldron_trace s Hd) as (e7 & R7 & N7 & D7).
  exists e1, e2, e3, e4, e5, e6, e7.
  repeat (split; [assumption|]). split; [|split].
  - unfold RenderScene. repeat (apply runs_bind; [assumption|]). assumption.
  - rewrite !entered_app, N1, N2, N3, N4, N5, N6, N7. reflexivity.
  - rewrite !draws_app, D1, D2, D3, D4, D5, D6, D7. reflexivity.
Qed.

(** ** Blending *)

Lemma flame_alpha_bounds time : 0.5 <= flame_alpha time <= 0.8.
Proof. unfold flame_alpha. apply clamp_bounds. lra. Qed.

(** C2 (amended): in every scene where rendering is defined, and whatever
    the blending state on entry, each of the three renderers that enable
    blending returns with blending disabled.  [RenderCandle] and
    [RenderCauldron] enable it for their last draw only, the flame and the
    liquid: every draw before it is made in the blending state of entry.
    With a shader manager those earlier draws are textured and the last
    one is in flat colour with an alpha below one, so that, entered with
    blending off, nothing but the transparent part is drawn blended.
    [RenderPotionBottle] makes each of its ten draws with blending on,
    and with a shader manager its last one, the closure, is textured. *)
Theorem blending_brackets time s rs :
  rendering_defined s ->
  (exists evs, runs RenderPotionBottle s evs
     /\ blend (replay rs evs) = false
     /\ List.length (profile rs evs) = 10%nat
     /\ Forall (fun d => blending d = true) (profile rs evs)
     /\ (m_pShaderManager s = ShaderManagerObject ->
           exists closure, In closure (profile rs evs)
             /\ mesh closure = TaperedCylinderMesh
             /\ use_texture closure = 1%Z))
  /\ (exists evs opaque flame, runs (RenderCandle time) s evs
       /\ blend (replay rs evs) = false
       /\ profile rs evs = opaque ++ [flame]
       /\ List.length opaque = 8%nat
       /\ Forall (fun d => blending d = blend rs) opaque
       /\ mesh flame = ConeMesh /\ blending flame = true
       /\ (m_pShaderManager s = ShaderManagerObject ->
             Forall (fun d => use_texture d = 1%Z) opaque
             /\ transparent flame /\ alpha flame = flame_alpha time
             /\ (blend rs = false ->
                   only_transparent_blended (profile rs evs))))
  /\ (exists evs opaque liquid, runs RenderCauldron s evs
       /\ blend (replay rs evs) = false
       /\ profile rs evs = opaque ++ [liquid]
       /\ List.length opaque = 5%nat
       /\ Forall (fun d => blending d = blend rs) opaque
       /\ mesh liquid = CylinderMesh /\ blending liquid = true
       /\ (m_pShaderManager s = ShaderManagerObject ->
             Forall (fun d => use_texture d = 1%Z) opaque
             /\ transparent liquid /\ alpha liquid = 0.65
             /\ (blend rs = false ->
                   only_transparent_blended (profile rs evs)))).
Proof.
  intros Hd. split; [|split].
  - destruct (RenderPotionBottle_brackets s rs Hd) as (evs & R & B & P).
    exists evs. split; [exact R|]. split; [exact B|]. rewrite P.
    destruct (m_pShaderManager s).
    + split; [reflexivity|]. split; [repeat constructor|]. discriminate.
    + split; [reflexivity|]. split; [repeat constructor|]. intros _.
      eexists. split; [do 9 right; left; reflexivity | split; reflexivity].
  - destruct (RenderCandle_brackets s rs Hd time) as (evs & R & B & P).
    exists evs. rewrite P. destruct (m_pShaderManager s).
    + eexists _, _. split; [exact R|]. split; [exact B|].
      split; [reflexivity|]. split; [reflexivity|].
      split; [repeat constructor|]. split; [reflexivity|].
      split; [reflexivity | discriminate].
    + eexists _, _. split; [exact R|]. split; [exact B|].
      split; [reflexivity|]. split; [reflexivity|].
      split; [repeat constructor|]. split; [reflexivity|].
      split; [reflexivity|]. intros _.
      pose proof (flame_alpha_bounds time) as Ha.
      split; [repeat constructor|].
      split; [split; [reflexivity | cbn [alpha]; lra]|].
      split; [reflexivity|]. intros Hoff. rewrite Hoff.
      unfold only_transparent_blended, transparent.
      repeat constructor; cbn [blending use_texture alpha]; try discriminate.
      lra.
  - destruct (RenderCauldron_brackets s rs Hd) as (evs & R & B & P).
    exists evs. rewrite P. destruct (m_pShaderManager s).
    + eexists _, _. split; [exact R|]. split; [exact B|].
      split; [reflexivity|]. split; [reflexivity|].
      split; [repeat constructor|]. split; [reflexivity|].
      split; [reflexivity | discriminate].
    + eexists _, _. split; [exact R|]. split; [exact B|].
      split; [reflexivity|]. split; [reflexivity|].
      split; [repeat constructor|]. split; [reflexivity|].
      split; [reflexivity|]. intros _.
      split; [repeat constructor|].
      split; [split; [reflexivity | cbn [alpha]; lra]|].
      split; [reflexivity|]. intros Hoff. rewrite Hoff.
      unfold only_transparent_blended, transparent.
      repeat constructor; cbn [blending use_texture alpha]; try discriminate.
      lra.
Qed.

(** ** Flat colour and texture *)

Lemma material_events_replay tag s rs : replay rs (material_events tag s) = rs.
Proof. unfold material_events. now destruct (m_objectMaterials s). Qed.

Lemma material_events_profile tag s rs : profile rs (material_events tag s) = [].
Proof. unfold material_events. now destruct (m_objectMaterials s). Qed.

(** What one call does to the texture flag and to the draws. *)
Lemma call_effect c s rs :
  m_pShaderManager s = ShaderManagerObject -> textures_in_bounds s ->
  exists evs, runs (call c) s evs
    /\ bUseTexture (replay rs evs)
       = match c with
         | CallSetShaderColor _ _ _ _ => 0%Z
         | CallSetShaderTexture _ => 1%Z
         | _ => bUseTexture rs
         end
    /\ map use_texture (profile rs evs)
       = match c with
         | CallDraw _ => [bUseTexture rs]
         | _ => []
         end.
Proof.
  intros Hp Hb. pose proof (defined_with_shader s Hp Hb) as Hd.
  destruct c; cbn [call]; eexists; (split; [run|]);
    unfold if_present; rewrite ?Hp;
    rewrite ?material_events_replay, ?material_events_profile;
    split; reflexivity.
Qed.

(** C8 (amended): with a shader manager present, [SetShaderColor] sets the
    texture flag to false and writes the colour, [SetShaderTexture] sets
    the flag to true, and in every sequence of renderer calls each draw is
    issued with the flag chosen by the most recent of the two setters. *)
Theorem color_and_texture_modes s :
  m_pShaderManager s = ShaderManagerObject -> textures_in_bounds s ->
  (forall rs r g b a, exists evs,
      runs (SetShaderColor r g b a) s evs
      /\ bUseTexture (replay rs evs) = 0%Z
      /\ objectColor (replay rs evs) = glm.mk_vec4 r g b a)
  /\ (forall rs textureTag, exists evs,
        runs (SetShaderTexture textureTag) s evs
        /\ bUseTexture (replay rs evs) = 1%Z)
  /\ (forall cs rs, exists evs,
        runs (for_each cs call) s evs
        /\ map use_texture (profile rs evs)
           = modes_at_draws cs (bUseTexture rs)).
Proof.
  intros Hp Hb. pose proof (defined_with_shader s Hp Hb) as Hd.
  split; [|split].
  - intros rs r g b a. eexists. split; [run|].
    unfold if_present. rewrite Hp. split; reflexivity.
  - intros rs t. eexists. split; [run|].
    unfold if_present. rewrite Hp. reflexivity.
  - induction cs as [|c cs IH]; intros rs.
    + exists []. split; reflexivity.
    + destruct (call_effect c s rs Hp Hb) as (e1 & R1 & F1 & P1).
      destruct (IH (replay rs e1)) as (e2 & R2 & P2).
      exists (e1 ++ e2). split.
      * cbn [for_each]. now apply runs_bind.
      * rewrite profile_app, map_app, P1, P2, F1.
        destruct c; reflexivity.
Qed.


(** ** More on the texture registry *)

Lemma update_length {A} (l : list A) i f : List.length (update l i f) = List.length l.
Proof.
  revert i. induction l as [|a l IH]; intros [|i]; cbn [update List.length];
    now rewrite ?IH.
Qed.

Lemma update_update {A} (l : list A) i f g :
  update (update l i f) i g = update l i (fun a => g (f a)).
Proof.
  revert i. induction l as [|a l IH]; intros [|i]; cbn [update];
    now rewrite ?IH.
Qed.

Lemma firstn_update_after {A} (l : list A) n i f :
  (n <= i)%nat -> firstn n (update l i f) = firstn n l.
Proof.
  revert n i. induction l as [|a l IH]; intros [|n] [|i] H;
    cbn [update firstn]; try reflexivity; try lia.
  now rewrite IH by lia.
Qed.

Lemma firstn_update_at {A} (l : list A) i f a :
  nth_error l i = Some a ->
  firstn (S i) (update l i f) = firstn i l ++ [f a].
Proof.
  revert i. induction l as [|b l IH]; intros [|i] H; try discriminate.
  - inversion H; subst. reflexivity.
  - cbn [nth_error] in H. cbn [update]. rewrite !firstn_cons.
    cbn [app]. now rewrite (IH i H).
Qed.

Lemma map_update_tag (l : list TEXTURE_INFO.t) i f :
  (forall e, TEXTURE_INFO.tag (f e) = TEXTURE_INFO.tag e) ->
  map TEXTURE_INFO.tag (update l i f) = map TEXTURE_INFO.tag l.
Proof.
  intros Hf. revert i. induction l as [|a l IH]; intros [|i];
    cbn [update map]; now rewrite ?IH, ?Hf.
Qed.

Lemma store_texture_inside i f s :
  (0 <= i < Z.of_nat (List.length (m_textureIDs s)))%Z ->
  store_texture i f s
  = Some (tt, set_textureIDs (update (m_textureIDs s) (Z.to_nat i) f) s, []).
Proof.
  intros H. unfold store_texture.
  replace ((0 <=? i)%Z && (i <? Z.of_nat (List.length (m_textureIDs s)))%Z)
    with true; [reflexivity|].
  symmetry. apply andb_true_intro. split; [apply Z.leb_le | apply Z.ltb_lt]; lia.
Qed.

Lemma store_texture_outside i f s :
  ~ (0 <= i < Z.of_nat (List.length (m_textureIDs s)))%Z ->
  store_texture i f s = None.
Proof.
  intros H. unfold store_texture.
  destruct ((0 <=? i)%Z && (i <? Z.of_nat (List.length (m_textureIDs s)))%Z) eqn:E;
    [|reflexivity].
  apply andb_prop in E. destruct E as [E1 E2].
  apply Z.leb_le in E1. apply Z.ltb_lt in E2. lia.
Qed.

(** The scene after the registration code of [CreateGLTexture]. *)
Lemma CreateGLTexture_register_inside textureID tag s :
  (0 <= m_loadedTextures s < Z.of_nat (List.length (m_textureIDs s)))%Z ->
  CreateGLTexture_register textureID tag s
  = Some (true,
          set_loadedTextures (m_loadedTextures s + 1)
            (set_textureIDs
               (update (m_textureIDs s) (Z.to_nat (m_loadedTextures s))
                  (fun _ => TEXTURE_INFO.mk tag textureID)) s),
          [glGenerateMipmap GL_TEXTURE_2D; stbi_image_free;
           glBindTexture GL_TEXTURE_2D 0]).
Proof.
  intros H. unfold CreateGLTexture_register. rewrite !emit_then.
  unfold bind at 1. unfold get at 1. cbv beta iota.
  unfold bind at 1. rewrite (store_texture_inside _ _ _ H). cbv beta iota.
  unfold bind at 1. rewrite store_texture_inside
    by (cbn [m_textureIDs set_textureIDs]; now rewrite update_length).
  cbv beta iota. unfold bind, modify, ret.
  cbn [m_textureIDs set_textureIDs m_loadedTextures m_pShaderManager
       m_objectMaterials flameColor gl_textures app].
  rewrite update_update. reflexivity.
Qed.

Lemma CreateGLTexture_register_outside textureID tag s :
  ~ (0 <= m_loadedTextures s < Z.of_nat (List.length (m_textureIDs s)))%Z ->
  CreateGLTexture_register textureID tag s = None.
Proof.
  intros H. unfold CreateGLTexture_register. rewrite !emit_then.
  unfold bind at 1. unfold get at 1. cbv beta iota.
  unfold bind at 1. now rewrite (store_texture_outside _ _ _ H).
Qed.

Lemma loadable_channels filename :
  loadable filename = true ->
  exists image, stbi_load filename = Some image
    /\ (colorChannels image = 3 \/ colorChannels image = 4)%Z.
Proof.
  unfold loadable. destruct (stbi_load filename) as [image|]; [|discriminate].
  intros H. exists image. split; [reflexivity|].
  apply orb_prop in H. destruct H as [H|H]; apply Z.eqb_eq in H; auto.
Qed.

(** What is common to both accepted formats: the calls up to the upload,
    then the registration. *)
Lemma CreateGLTexture_loadable filename tag s :
  loadable filename = true ->
  exists upload,
    CreateGLTexture filename tag s
    = match CreateGLTexture_register (fresh_name (gl_textures s)) tag
              (set_gl_textures (fresh_name (gl_textures s) :: gl_textures s) s)
      with
      | Some (b, s', evs) =>
          Some (b, s',
                [stbi_set_flip_vertically_on_load true;
                 glGenTextures (fresh_name (gl_textures s));
                 glBindTexture GL_TEXTURE_2D (fresh_name (gl_textures s));
                 glTexParameteri GL_TEXTURE_2D GL_TEXTURE_WRAP_S GL_REPEAT;
                 glTexParameteri GL_TEXTURE_2D GL_TEXTURE_WRAP_T GL_REPEAT;
                 glTexParameteri GL_TEXTURE_2D GL_TEXTURE_MIN_FILTER GL_LINEAR;
                 glTexParameteri GL_TEXTURE_2D GL_TEXTURE_MAG_FILTER GL_LINEAR;
                 upload] ++ evs)
      | None => None
      end.
Proof.
  intros H. destruct (loadable_channels _ H) as (image & E & C).
  unfold CreateGLTexture. rewrite emit_then, E.
  unfold bind at 1. unfold gen_texture at 1. cbv beta iota.
  rewrite !emit_then.
  destruct C as [C|C]; rewrite C; cbn [Z.eqb Pos.eqb]; rewrite emit_then;
    eexists;
    destruct (CreateGLTexture_register _ _ _) as [[[b s'] evs]|]; reflexivity.
Qed.

Lemma update_nth_error_other {A} (l : list A) i j f :
  i <> j -> nth_error (update l i f) j = nth_error l j.
Proof.
  revert i j. induction l as [|a l IH]; intros [|i] [|j] H;
    cbn [update nth_error]; try reflexivity; try congruence.
  apply IH. congruence.
Qed.

Lemma update_nth_error_same {A} (l : list A) i f a :
  nth_error l i = Some a -> nth_error (update l i f) i = Some (f a).
Proof.
  revert i. induction l as [|b l IH]; intros [|i] H; try discriminate.
  - inversion H; subst. reflexivity.
  - cbn [nth_error update] in *. now apply IH.
Qed.

Lemma registered_nth_error s :
  (0 <= m_loadedTextures s < Z.of_nat (List.length (m_textureIDs s)))%Z ->
  exists e, nth_error (m_textureIDs s) (Z.to_nat (m_loadedTextures s)) = Some e.
Proof.
  intros H.
  destruct (nth_error (m_textureIDs s) (Z.to_nat (m_loadedTextures s))) eqn:E.
  - now eexists.
  - apply nth_error_None in E. lia.
Qed.

(** The registry after a successful load: one more entry, at the end. *)
Lemma CreateGLTexture_inside filename tag s :
  loadable filename = true ->
  (0 <= m_loadedTextures s < Z.of_nat (List.length (m_textureIDs s)))%Z ->
  exists s' evs,
    CreateGLTexture filename tag s = Some (true, s', evs)
    /\ m_loadedTextures s' = (m_loadedTextures s + 1)%Z
    /\ registered s'
       = registered s ++ [TEXTURE_INFO.mk tag (fresh_name (gl_textures s))]
    /\ List.length (m_textureIDs s') = List.length (m_textureIDs s)
    /\ m_pShaderManager s' = m_pShaderManager s
    /\ m_objectMaterials s' = m_objectMaterials s.
Proof.
  intros Hl Hb. destruct (CreateGLTexture_loadable filename tag s Hl) as [up ->].
  rewrite CreateGLTexture_register_inside by exact Hb.
  eexists _, _. split; [reflexivity|].
  cbn [m_textureIDs set_textureIDs set_loadedTextures set_gl_textures
       m_loadedTextures m_pShaderManager m_objectMaterials].
  split; [reflexivity|]. split; [|split; [apply update_length | now split]].
  unfold registered.
  cbn [m_textureIDs set_textureIDs set_loadedTextures set_gl_textures
       m_loadedTextures].
  destruct (registered_nth_error s Hb) as [e He].
  replace (Z.to_nat (m_loadedTextures s + 1))
    with (S (Z.to_nat (m_loadedTextures s))) by lia.
  now rewrite (firstn_update_at _ _ _ e He).
Qed.

(** With the count outside the array the registration code writes out of
    bounds. *)
Lemma CreateGLTexture_outside filename tag s :
  loadable filename = true ->
  ~ (0 <= m_loadedTextures s < Z.of_nat (List.length (m_textureIDs s)))%Z ->
  CreateGLTexture filename tag s = None.
Proof.
  intros Hl Hb. destruct (CreateGLTexture_loadable filename tag s Hl) as [up ->].
  now rewrite CreateGLTexture_register_outside.
Qed.

(** X1: A loadable file, with a slot left, is registered in the next slot
    under the name [glGenTextures] returned; nothing else in the scene
    changes. *)
Theorem CreateGLTexture_registers filename tag s :
  loadable filename = true ->
  (0 <= m_loadedTextures s < Z.of_nat (List.length (m_textureIDs s)))%Z ->
  exists s' evs,
    CreateGLTexture filename tag s = Some (true, s', evs)
    /\ m_loadedTextures s' = (m_loadedTextures s + 1)%Z
    /\ registered s'
       = registered s ++ [TEXTURE_INFO.mk tag (fresh_name (gl_textures s))]
    /\ List.length (m_textureIDs s') = List.length (m_textureIDs s)
    /\ (forall i, i <> Z.to_nat (m_loadedTextures s) ->
          nth_error (m_textureIDs s') i = nth_error (m_textureIDs s) i)
    /\ gl_textures s' = fresh_name (gl_textures s) :: gl_textures s
    /\ m_pShaderManager s' = m_pShaderManager s
    /\ m_objectMaterials s' = m_objectMaterials s
    /\ flameColor s' = flameColor s.
Proof.
  intros Hl Hb. destruct (CreateGLTexture_loadable filename tag s Hl) as [up ->].
  rewrite CreateGLTexture_register_inside by exact Hb.
  eexists _, _. split; [reflexivity|].
  cbn [m_textureIDs set_textureIDs set_loadedTextures set_gl_textures
       m_loadedTextures m_pShaderManager m_objectMaterials flameColor
       gl_textures].
  split; [reflexivity|]. split.
  - unfold registered.
    cbn [m_textureIDs set_textureIDs set_loadedTextures set_gl_textures
         m_loadedTextures].
    destruct (registered_nth_error s Hb) as [e He].
    replace (Z.to_nat (m_loadedTextures s + 1))
      with (S (Z.to_nat (m_loadedTextures s))) by lia.
    now rewrite (firstn_update_at _ _ _ e He).
  - split; [apply update_length|]. split.
    + intros i Hi. apply update_nth_error_other. congruence.
    + repeat split.
Qed.

(** X2: With no slot left the registration code writes outside the array:
    the load of a loadable file is undefined. *)
Theorem CreateGLTexture_registry_full filename tag s :
  loadable filename = true ->
  (Z.of_nat (List.length (m_textureIDs s)) <= m_loadedTextures s)%Z ->
  CreateGLTexture filename tag s = None.
Proof.
  intros Hl Hb. apply CreateGLTexture_outside; [exact Hl | lia].
Qed.

(** A file that is not loadable leaves the registry as it was. *)
Lemma CreateGLTexture_not_loadable filename tag s :
  loadable filename = false ->
  exists s' evs,
    CreateGLTexture filename tag s = Some (false, s', evs)
    /\ m_loadedTextures s' = m_loadedTextures s
    /\ m_textureIDs s' = m_textureIDs s
    /\ m_pShaderManager s' = m_pShaderManager s
    /\ m_objectMaterials s' = m_objectMaterials s.
Proof.
  unfold loadable, CreateGLTexture. rewrite emit_then.
  destruct (stbi_load filename) as [image|].
  - intros H. apply orb_false_elim in H. destruct H as [H3 H4].
    rewrite H3, H4.
    unfold bind at 1. unfold gen_texture at 1. cbv beta iota.
    rewrite !emit_then. unfold ret. cbv beta iota.
    eexists _, _. repeat split.
  - intros _. eexists _, _. repeat split.
Qed.

(** *** The two searches *)

Lemma load_texture_nth i s e :
  (0 <= i)%Z -> nth_error (m_textureIDs s) (Z.to_nat i) = Some e ->
  load_texture i s = Some (e, s, []).
Proof.
  intros H0 He. unfold load_texture. rewrite He.
  assert (Z.to_nat i < List.length (m_textureIDs s))%nat
    by (apply nth_error_Some; congruence).
  replace ((0 <=? i)%Z && (i <? Z.of_nat (List.length (m_textureIDs s)))%Z)
    with true; [reflexivity|].
  symmetry. apply andb_true_intro. split; [apply Z.leb_le | apply Z.ltb_lt]; lia.
Qed.

Lemma firstn_skipn_step {A} (l : list A) n i e :
  nth_error l i = Some e ->
  firstn (S n) (skipn i l) = e :: firstn n (skipn (S i) l).
Proof.
  revert i. induction l as [|a l IH]; intros [|i] H; try discriminate.
  - inversion H; subst. reflexivity.
  - cbn [nth_error] in H. rewrite !skipn_cons. now apply IH.
Qed.

Lemma FindTextureSlot_loop_first_match tag s n : forall index,
  (0 <= index)%Z ->
  (index + Z.of_nat n <= Z.of_nat (List.length (m_textureIDs s)))%Z ->
  FindTextureSlot_loop n tag (-1)%Z index s
  = Some (match first_match tag
                  (firstn n (skipn (Z.to_nat index) (m_textureIDs s))) index with
          | Some (slot, _) => slot
          | None => (-1)%Z
          end, s, []).
Proof.
  induction n as [|n IH]; intros index H0 Hn; [reflexivity|].
  destruct (nth_error (m_textureIDs s) (Z.to_nat index)) as [e|] eqn:He;
    [|apply nth_error_None in He; lia].
  cbn [FindTextureSlot_loop]. unfold bind.
  rewrite (load_texture_nth _ _ _ H0 He), (firstn_skipn_step _ _ _ _ He).
  cbn [first_match]. destruct (String.eqb (TEXTURE_INFO.tag e) tag);
    [reflexivity|].
  rewrite IH by lia.
  replace (Z.to_nat (index + 1)) with (S (Z.to_nat index)) by lia.
  reflexivity.
Qed.

Lemma FindTextureID_loop_first_match tag s n : forall index,
  (0 <= index)%Z ->
  (index + Z.of_nat n <= Z.of_nat (List.length (m_textureIDs s)))%Z ->
  FindTextureID_loop n tag (-1)%Z index s
  = Some (match first_match tag
                  (firstn n (skipn (Z.to_nat index) (m_textureIDs s))) index with
          | Some (_, e) => to_int (TEXTURE_INFO.ID e)
          | None => (-1)%Z
          end, s, []).
Proof.
  induction n as [|n IH]; intros index H0 Hn; [reflexivity|].
  destruct (nth_error (m_textureIDs s) (Z.to_nat index)) as [e|] eqn:He;
    [|apply nth_error_None in He; lia].
  cbn [FindTextureID_loop]. unfold bind.
  rewrite (load_texture_nth _ _ _ H0 He), (firstn_skipn_step _ _ _ _ He).
  cbn [first_match]. destruct (String.eqb (TEXTURE_INFO.tag e) tag);
    [reflexivity|].
  rewrite IH by lia.
  replace (Z.to_nat (index + 1)) with (S (Z.to_nat index)) by lia.
  reflexivity.
Qed.

Lemma FindTextureSlot_registered tag s :
  textures_in_bounds s ->
  FindTextureSlot tag s
  = Some (match first_match tag (registered s) 0 with
          | Some (slot, _) => slot
          | None => (-1)%Z
          end, s, []).
Proof.
  intros Hb. unfold FindTextureSlot, bind, get, registered.
  rewrite FindTextureSlot_loop_first_match;
    [reflexivity | lia | unfold textures_in_bounds in Hb; lia].
Qed.

Lemma FindTextureID_registered tag s :
  textures_in_bounds s ->
  FindTextureID tag s
  = Some (match first_match tag (registered s) 0 with
          | Some (_, e) => to_int (TEXTURE_INFO.ID e)
          | None => (-1)%Z
          end, s, []).
Proof.
  intros Hb. unfold FindTextureID, bind, get, registered.
  rewrite FindTextureID_loop_first_match;
    [reflexivity | lia | unfold textures_in_bounds in Hb; lia].
Qed.

Lemma first_match_none tag l i :
  first_match tag l i = None ->
  Forall (fun e => TEXTURE_INFO.tag e <> tag) l.
Proof.
  revert i. induction l as [|e l IH]; intros i H; [constructor|].
  cbn [first_match] in H.
  destruct (String.eqb (TEXTURE_INFO.tag e) tag) eqn:E; [discriminate|].
  constructor; [now apply String.eqb_neq | eauto].
Qed.

Lemma first_match_some tag l : forall i slot e,
  first_match tag l i = Some (slot, e) ->
  exists k, slot = (i + Z.of_nat k)%Z
    /\ nth_error l k = Some e
    /\ TEXTURE_INFO.tag e = tag
    /\ Forall (fun x => TEXTURE_INFO.tag x <> tag) (firstn k l).
Proof.
  induction l as [|a l IH]; intros i slot e H; [discriminate|].
  cbn [first_match] in H.
  destruct (String.eqb (TEXTURE_INFO.tag a) tag) eqn:E.
  - inversion H; subst. exists O. repeat split.
    + lia.
    + now apply String.eqb_eq.
    + constructor.
  - destruct (IH _ _ _ H) as (k & -> & Hn & Ht & Hf).
    exists (S k). repeat split; try assumption; [lia|].
    cbn [firstn]. constructor; [now apply String.eqb_neq | assumption].
Qed.

(** [FindTextureSlot] answers -1 when no registered entry carries the
    tag, and otherwise the index of the first one that does. *)
Lemma FindTextureSlot_first_match tag s :
  textures_in_bounds s ->
  (Forall (fun e => TEXTURE_INFO.tag e <> tag) (registered s)
   /\ FindTextureSlot tag s = Some ((-1)%Z, s, []))
  \/ (exists k e,
        nth_error (registered s) k = Some e
        /\ TEXTURE_INFO.tag e = tag
        /\ Forall (fun x => TEXTURE_INFO.tag x <> tag) (firstn k (registered s))
        /\ FindTextureSlot tag s = Some (Z.of_nat k, s, [])).
Proof.
  intros Hb. rewrite (FindTextureSlot_registered tag s Hb).
  destruct (first_match tag (registered s) 0) as [[slot e]|] eqn:E.
  - right. destruct (first_match_some _ _ _ _ _ E) as (k & -> & Hn & Ht & Hf).
    exists k, e. repeat split; assumption.
  - left. split; [now apply first_match_none in E | reflexivity].
Qed.

(** The conversion of a texture name to [int] keeps a name below 2^31 and
    takes 2^32 off a larger one. *)
Lemma to_int_small z : (0 <= z < 2 ^ 31)%Z -> to_int z = z.
Proof.
  intros H. unfold to_int. cbv zeta. rewrite Z.mod_small by lia.
  destruct (Z.ltb_spec z (2 ^ 31)); lia.
Qed.

Lemma to_int_large z : (2 ^ 31 <= z < 2 ^ 32)%Z -> to_int z = (z - 2 ^ 32)%Z.
Proof.
  intros H. unfold to_int. cbv zeta. rewrite Z.mod_small by lia.
  destruct (Z.ltb_spec z (2 ^ 31)); lia.
Qed.

(** X3: Both searches stop at the first registered entry that carries the
    tag: [FindTextureSlot] answers its index and [FindTextureID] its name
    converted to [int], which is the name itself below 2^31 and the name
    minus 2^32, a negative number, from 2^31 on; with no such entry both
    answer -1.  Slots beyond the count are never looked at. *)
Theorem texture_searches_first_match tag s :
  textures_in_bounds s ->
  (Forall (fun e => TEXTURE_INFO.tag e <> tag) (registered s)
   /\ FindTextureSlot tag s = Some ((-1)%Z, s, [])
   /\ FindTextureID tag s = Some ((-1)%Z, s, []))
  \/ (exists k e,
        nth_error (registered s) k = Some e
        /\ TEXTURE_INFO.tag e = tag
        /\ Forall (fun x => TEXTURE_INFO.tag x <> tag) (firstn k (registered s))
        /\ FindTextureSlot tag s = Some (Z.of_nat k, s, [])
        /\ FindTextureID tag s = Some (to_int (TEXTURE_INFO.ID e), s, [])
        /\ ((0 <= TEXTURE_INFO.ID e < 2 ^ 31)%Z ->
              FindTextureID tag s = Some (TEXTURE_INFO.ID e, s, []))
        /\ ((2 ^ 31 <= TEXTURE_INFO.ID e < 2 ^ 32)%Z ->
              FindTextureID tag s
              = Some ((TEXTURE_INFO.ID e - 2 ^ 32)%Z, s, []))).
Proof.
  intros Hb.
  rewrite (FindTextureSlot_registered tag s Hb),
    (FindTextureID_registered tag s Hb).
  destruct (first_match tag (registered s) 0) as [[slot e]|] eqn:E.
  - right. destruct (first_match_some _ _ _ _ _ E) as (k & -> & Hn & Ht & Hf).
    exists k, e. do 5 (split; [assumption || reflexivity|]). split.
    + intros H. now rewrite to_int_small.
    + intros H. now rewrite to_int_large.
  - left. split; [now apply first_match_none in E | split; reflexivity].
Qed.

(** X4: Two tags that are both found are found in different slots. *)
Theorem found_tags_have_distinct_slots tag1 tag2 slot1 slot2 s :
  textures_in_bounds s ->
  tag1 <> tag2 ->
  FindTextureSlot tag1 s = Some (slot1, s, []) -> slot1 <> (-1)%Z ->
  FindTextureSlot tag2 s = Some (slot2, s, []) -> slot2 <> (-1)%Z ->
  slot1 <> slot2.
Proof.
  intros Hb Hne H1 N1 H2 N2.
  destruct (FindTextureSlot_first_match tag1 s Hb)
    as [(_ & F1) | (k1 & e1 & Hn1 & Ht1 & _ & F1)];
    rewrite F1 in H1; inversion H1; subst slot1; [congruence|].
  destruct (FindTextureSlot_first_match tag2 s Hb)
    as [(_ & F2) | (k2 & e2 & Hn2 & Ht2 & _ & F2)];
    rewrite F2 in H2; inversion H2; subst slot2; [congruence|].
  intros E. apply Nat2Z.inj in E. subst k2.
  rewrite Hn1 in Hn2. inversion Hn2; subst e2. congruence.
Qed.

Lemma first_match_app tag l l' : forall i,
  first_match tag (l ++ l') i
  = match first_match tag l i with
    | Some r => Some r
    | None => first_match tag l' (i + Z.of_nat (List.length l))
    end.
Proof.
  induction l as [|e l IH]; intros i; cbn [app first_match List.length].
  - f_equal. lia.
  - destruct (String.eqb (TEXTURE_INFO.tag e) tag); [reflexivity|].
    rewrite IH. destruct (first_match tag l (i + 1)); [reflexivity|].
    f_equal. lia.
Qed.

Lemma first_match_slot_range tag l i slot e :
  first_match tag l i = Some (slot, e) -> (i <= slot)%Z.
Proof.
  intros H. destruct (first_match_some _ _ _ _ _ H) as (k & -> & _). lia.
Qed.

Lemma registered_length s :
  (0 <= m_loadedTextures s)%Z -> textures_in_bounds s ->
  Z.of_nat (List.length (registered s)) = m_loadedTextures s.
Proof.
  intros H0 Hb. unfold registered, textures_in_bounds in *.
  rewrite length_firstn. lia.
Qed.

(** X5: Lookup after a load: a tag that was found keeps its slot (a second
    load under the same tag is shadowed by the first), the new tag, if it
    was not found before, is found in the slot just filled, with the name
    just generated converted to [int] as its ID (the name itself when it
    is below 2^31), and any other tag stays not found. *)
Theorem lookup_after_load filename tag s :
  loadable filename = true ->
  (0 <= m_loadedTextures s < Z.of_nat (List.length (m_textureIDs s)))%Z ->
  exists s' evs,
    CreateGLTexture filename tag s = Some (true, s', evs)
    /\ (forall t slot, slot <> (-1)%Z ->
          FindTextureSlot t s = Some (slot, s, []) ->
          FindTextureSlot t s' = Some (slot, s', []))
    /\ (FindTextureSlot tag s = Some ((-1)%Z, s, []) ->
          FindTextureSlot tag s' = Some (m_loadedTextures s, s', [])
          /\ FindTextureID tag s'
             = Some (to_int (fresh_name (gl_textures s)), s', [])
          /\ ((0 <= fresh_name (gl_textures s) < 2 ^ 31)%Z ->
                FindTextureID tag s'
                = Some (fresh_name (gl_textures s), s', [])))
    /\ (forall t, t <> tag ->
          FindTextureSlot t s = Some ((-1)%Z, s, []) ->
          FindTextureSlot t s' = Some ((-1)%Z, s', [])).
Proof.
  intros Hl Hb.
  destruct (CreateGLTexture_inside filename tag s Hl Hb)
    as (s' & evs & Hc & Hn & Hr & Hlen & _).
  assert (B : textures_in_bounds s) by (unfold textures_in_bounds; lia).
  assert (B' : textures_in_bounds s')
    by (unfold textures_in_bounds; rewrite Hn, Hlen; lia).
  exists s', evs. split; [exact Hc|].
  assert (Hlr := registered_length s (proj1 Hb) B).
  split; [|split].
  - intros t slot Hs H. rewrite (FindTextureSlot_registered t s B) in H.
    rewrite (FindTextureSlot_registered t s' B'), Hr, first_match_app.
    destruct (first_match t (registered s) 0) as [[k e]|]; [|].
    + inversion H; subst. reflexivity.
    + inversion H. congruence.
  - intros H. rewrite (FindTextureSlot_registered tag s B) in H.
    rewrite (FindTextureSlot_registered tag s' B'),
      (FindTextureID_registered tag s' B'), Hr, first_match_app.
    destruct (first_match tag (registered s) 0) as [[k e]|] eqn:E.
    + apply first_match_slot_range in E. inversion H. lia.
    + cbn [first_match TEXTURE_INFO.tag TEXTURE_INFO.ID].
      rewrite String.eqb_refl, Hlr. split; [reflexivity|].
      split; [reflexivity|]. intros Hs. now rewrite to_int_small.
  - intros t Ht H. rewrite (FindTextureSlot_registered t s B) in H.
    rewrite (FindTextureSlot_registered t s' B'), Hr, first_match_app.
    destruct (first_match t (registered s) 0) as [[k e]|] eqn:E.
    + apply first_match_slot_range in E. inversion H. lia.
    + cbn [first_match TEXTURE_INFO.tag].
      apply not_eq_sym in Ht. apply String.eqb_neq in Ht. now rewrite Ht.
Qed.

(** *** Binding and destroying *)

Lemma BindGLTextures_loop_bindings s n : forall i active,
  (i + n <= List.length (m_textureIDs s))%nat ->
  exists evs,
    BindGLTextures_loop n (Z.of_nat i) s = Some (tt, s, evs)
    /\ List.length evs = (2 * n)%nat
    /\ List.length (bindings active evs) = n
    /\ forall k e, (k < n)%nat ->
         nth_error (m_textureIDs s) (i + k) = Some e ->
         nth_error (bindings active evs) k
         = Some (Z.of_nat (i + k), TEXTURE_INFO.ID e).
Proof.
  induction n as [|n IH]; intros i active Hn.
  - exists []. repeat split. intros k e Hk. lia.
  - destruct (nth_error (m_textureIDs s) i) as [e|] eqn:He;
      [|apply nth_error_None in He; lia].
    destruct (IH (S i) (Z.of_nat i)) as (evs & Hr & Hl & Hlb & Hb); [lia|].
    exists (glActiveTexture (Z.of_nat i)
              :: glBindTexture GL_TEXTURE_2D (TEXTURE_INFO.ID e) :: evs).
    split; [|split; [|split]].
    + cbn [BindGLTextures_loop]. unfold bind at 1.
      rewrite (load_texture_nth (Z.of_nat i) s e);
        [|lia | now rewrite Nat2Z.id].
      rewrite !emit_then.
      replace (Z.of_nat i + 1)%Z with (Z.of_nat (S i)) by lia.
      now rewrite Hr.
    + cbn [List.length]. lia.
    + cbn [bindings List.length]. now rewrite Hlb.
    + intros [|k] x Hk Hx; cbn [bindings nth_error].
      * rewrite Nat.add_0_r in Hx. rewrite Nat.add_0_r. congruence.
      * rewrite (Hb k x); [|lia|].
        -- do 3 f_equal. lia.
        -- now replace (S i + k)%nat with (i + S k)%nat by lia.
Qed.

Lemma BindGLTextures_runs s :
  textures_in_bounds s -> exists evs, runs BindGLTextures s evs.
Proof.
  intros Hb. unfold textures_in_bounds in Hb.
  destruct (BindGLTextures_loop_bindings s (Z.to_nat (m_loadedTextures s)) 0 0%Z)
    as (evs & Hr & _); [lia|].
  exists evs. unfold runs, BindGLTextures, bind, get. cbn [Z.of_nat] in Hr.
  now rewrite Hr.
Qed.

(** X6: [BindGLTextures] binds the registered entry [k] to texture unit [k],
    for every [k] below the count and in this order, with two calls per
    entry, and leaves the scene as it is. *)
Theorem BindGLTextures_units s :
  textures_in_bounds s ->
  exists evs,
    runs BindGLTextures s evs
    /\ List.length evs = (2 * List.length (registered s))%nat
    /\ List.length (bindings 0 evs) = List.length (registered s)
    /\ forall k e, nth_error (registered s) k = Some e ->
         nth_error (bindings 0 evs) k = Some (Z.of_nat k, TEXTURE_INFO.ID e).
Proof.
  intros Hb. unfold textures_in_bounds in Hb.
  destruct (BindGLTextures_loop_bindings s (Z.to_nat (m_loadedTextures s)) 0 0%Z)
    as (evs & Hr & Hl & Hlb & Hbind); [lia|].
  assert (Hlen : List.length (registered s) = Z.to_nat (m_loadedTextures s)).
  { unfold registered. rewrite length_firstn. lia. }
  exists evs. split; [|split; [|split]].
  - unfold runs, BindGLTextures, bind, get. cbn [Z.of_nat] in Hr.
    now rewrite Hr.
  - rewrite Hl, Hlen. reflexivity.
  - now rewrite Hlb, Hlen.
  - intros k e Hk.
    assert (Hlt : (k < List.length (registered s))%nat)
      by (apply nth_error_Some; congruence).
    apply (Hbind k e); [lia|]. cbn [Nat.add].
    unfold registered in Hk. rewrite nth_error_firstn in Hk.
    destruct (k <? Z.to_nat (m_loadedTextures s))%nat; [exact Hk|discriminate].
Qed.

Lemma DestroyGLTextures_loop_effect n : forall i s,
  (i + n <= List.length (m_textureIDs s))%nat ->
  exists s' evs,
    DestroyGLTextures_loop n (Z.of_nat i) s = Some (tt, s', evs)
    /\ List.length evs = n
    /\ Forall (fun e => exists name, e = glGenTextures name) evs
    /\ m_loadedTextures s' = m_loadedTextures s
    /\ m_pShaderManager s' = m_pShaderManager s
    /\ m_objectMaterials s' = m_objectMaterials s
    /\ flameColor s' = flameColor s
    /\ map TEXTURE_INFO.tag (m_textureIDs s') = map TEXTURE_INFO.tag (m_textureIDs s)
    /\ incl (gl_textures s) (gl_textures s')
    /\ List.length (gl_textures s') = (List.length (gl_textures s) + n)%nat
    /\ (forall k, (k < i)%nat ->
          nth_error (m_textureIDs s') k = nth_error (m_textureIDs s) k)
    /\ ((forall used, ~ In (fresh_name used) used) ->
        forall k e, (i <= k < i + n)%nat ->
          nth_error (m_textureIDs s') k = Some e ->
          ~ In (TEXTURE_INFO.ID e) (gl_textures s)
          /\ In (TEXTURE_INFO.ID e) (gl_textures s')).
Proof.
  induction n as [|n IH]; intros i s Hn.
  - exists s, []. repeat split; try apply incl_refl; try lia.
    constructor.
  - set (id := fresh_name (gl_textures s)).
    set (s1 := set_textureIDs
                 (update (m_textureIDs s) i
                    (fun e => TEXTURE_INFO.mk (TEXTURE_INFO.tag e) id))
                 (set_gl_textures (id :: gl_textures s) s)).
    destruct (IH (S i) s1) as
      (s' & evs & Hr & Hl & Hg & Hc & Hp & Hm & Hf & Ht & Hi & Hlen & Hb & Hfr).
    { unfold s1. cbn [m_textureIDs set_textureIDs]. rewrite update_length. lia. }
    exists s', (glGenTextures id :: evs).
    split; [|split; [|split]].
    + cbn [DestroyGLTextures_loop]. unfold bind at 1. unfold gen_texture at 1.
      cbv beta iota. unfold bind at 1.
      rewrite store_texture_inside
        by (cbn [m_textureIDs set_gl_textures]; lia).
      cbv beta iota.
      cbn [m_textureIDs set_gl_textures]. rewrite Nat2Z.id.
      fold id. fold s1.
      replace (Z.of_nat i + 1)%Z with (Z.of_nat (S i)) by lia.
      rewrite Hr. reflexivity.
    + cbn [List.length]. now rewrite Hl.
    + constructor; [now exists id | exact Hg].
    + unfold s1 in Hc, Hp, Hm, Hf, Ht, Hi, Hlen, Hb, Hfr.
      cbn [m_textureIDs set_textureIDs set_gl_textures m_loadedTextures
           m_pShaderManager m_objectMaterials flameColor gl_textures] in *.
      do 4 (split; [assumption|]).
      split; [rewrite Ht; now apply map_update_tag|].
      split; [intros x Hx; apply Hi; now right|].
      split; [cbn [List.length] in Hlen; lia|].
      split.
      { intros k Hk. rewrite Hb by lia. apply update_nth_error_other. lia. }
      intros Hfresh k e Hk He.
      destruct (Nat.eq_dec k i) as [->|Hne].
      * rewrite Hb in He by lia.
        destruct (nth_error (m_textureIDs s) i) as [e0|] eqn:E0;
          [|apply nth_error_None in E0; lia].
        rewrite (update_nth_error_same _ _ _ _ E0) in He.
        inversion He; subst e. cbn [TEXTURE_INFO.ID].
        split; [apply Hfresh | apply Hi; now left].
      * destruct (Hfr Hfresh k e) as [N I]; [lia | assumption |].
        split; [|exact I]. intros Hin. apply N. now right.
Qed.

Lemma first_match_slot_tags tag l : forall l' i,
  map TEXTURE_INFO.tag l = map TEXTURE_INFO.tag l' ->
  match first_match tag l i with Some (slot, _) => slot | None => (-1)%Z end
  = match first_match tag l' i with Some (slot, _) => slot | None => (-1)%Z end.
Proof.
  induction l as [|e l IH]; intros [|e' l'] i H; try discriminate;
    [reflexivity|].
  cbn [map] in H. inversion H as [[He Hl]]. cbn [first_match]. rewrite He.
  destruct (String.eqb (TEXTURE_INFO.tag e') tag); [reflexivity|].
  now apply IH.
Qed.

(** X7: [DestroyGLTextures] always returns within the bounds; it makes one
    [glGenTextures] call per loaded texture and nothing else, so the
    context gains that many names and loses none, the count and the tags
    stay (a tag is found in the same slot as before), and, when the
    context hands out unused names, no registered entry names a texture
    that existed before the call. *)
Theorem DestroyGLTextures_effect s :
  textures_in_bounds s ->
  exists s' evs,
    DestroyGLTextures s = Some (tt, s', evs)
    /\ List.length evs = Z.to_nat (m_loadedTextures s)
    /\ Forall (fun e => exists name, e = glGenTextures name) evs
    /\ m_loadedTextures s' = m_loadedTextures s
    /\ map TEXTURE_INFO.tag (m_textureIDs s') = map TEXTURE_INFO.tag (m_textureIDs s)
    /\ incl (gl_textures s) (gl_textures s')
    /\ List.length (gl_textures s')
       = (List.length (gl_textures s) + Z.to_nat (m_loadedTextures s))%nat
    /\ (forall tag slot,
          FindTextureSlot tag s = Some (slot, s, []) ->
          FindTextureSlot tag s' = Some (slot, s', []))
    /\ ((forall used, ~ In (fresh_name used) used) ->
        Forall (fun e => ~ In (TEXTURE_INFO.ID e) (gl_textures s))
               (registered s')).
Proof.
  intros Hb.
  destruct (DestroyGLTextures_loop_effect (Z.to_nat (m_loadedTextures s)) 0 s)
    as (s' & evs & Hr & Hl & Hg & Hc & Hp & Hm & Hf & Ht & Hi & Hlen & _ & Hfr).
  { unfold textures_in_bounds in Hb. lia. }
  assert (Hb' : textures_in_bounds s').
  { unfold textures_in_bounds in *. rewrite Hc.
    rewrite <- (length_map TEXTURE_INFO.tag), Ht, length_map. exact Hb. }
  exists s', evs. split.
  { unfold DestroyGLTextures, bind, get. cbn [Z.of_nat] in Hr. now rewrite Hr. }
  do 6 (split; [assumption|]). split.
  - intros tag slot H. rewrite (FindTextureSlot_registered tag s Hb) in H.
    rewrite (FindTextureSlot_registered tag s' Hb').
    rewrite (first_match_slot_tags tag (registered s') (registered s)).
    + now inversion H.
    + unfold registered. now rewrite <- !firstn_map, Ht, Hc.
  - intros Hfresh. apply Forall_forall. intros e He.
    apply In_nth_error in He. destruct He as [k Hk].
    assert (Hlt : (k < List.length (registered s'))%nat)
      by (apply nth_error_Some; congruence).
    unfold registered in Hk, Hlt. rewrite length_firstn, Hc in Hlt.
    rewrite nth_error_firstn, Hc in Hk.
    destruct (k <? Z.to_nat (m_loadedTextures s))%nat eqn:E; [|discriminate].
    apply (Hfr Hfresh k e); [lia | exact Hk].
Qed.

(** ** What never changes the scene *)

Lemma unchanged_ret {A} (a : A) : unchanged_by (ret a).
Proof. intros s x s' evs H. now inversion H. Qed.

Lemma unchanged_bind {A B} (m : M A) (k : A -> M B) :
  unchanged_by m -> (forall a, unchanged_by (k a)) -> unchanged_by (bind m k).
Proof.
  intros Hm Hk s b s' evs H. unfold bind in H.
  destruct (m s) as [[[a s1] e1]|] eqn:E1; [|discriminate].
  destruct (k a s1) as [[[b' s2] e2]|] eqn:E2; [|discriminate].
  inversion H; subst. apply Hm in E1. subst s1. now apply Hk in E2.
Qed.

Lemma unchanged_get : unchanged_by get.
Proof. intros s x s' evs H. now inversion H. Qed.

Lemma unchanged_emit e : unchanged_by (emit e).
Proof. intros s x s' evs H. now inversion H. Qed.

Lemma unchanged_shader e : unchanged_by (shader e).
Proof.
  intros s x s' evs H. unfold shader in H.
  destruct (m_pShaderManager s); [discriminate | now inversion H].
Qed.

Lemma unchanged_if_shader body : unchanged_by body -> unchanged_by (if_shader body).
Proof.
  intros Hb. unfold if_shader. apply unchanged_bind; [apply unchanged_get|].
  intros s. destruct (m_pShaderManager s); [apply unchanged_ret | exact Hb].
Qed.

Lemma unchanged_load_texture i : unchanged_by (load_texture i).
Proof.
  intros s x s' evs H. unfold load_texture in H.
  destruct (_ && _); [|discriminate].
  destruct (nth_error _ _); [now inversion H | discriminate].
Qed.

Lemma unchanged_FindTextureSlot tag : unchanged_by (FindTextureSlot tag).
Proof.
  unfold FindTextureSlot. apply unchanged_bind; [apply unchanged_get|].
  intros s. generalize (Z.to_nat (m_loadedTextures s)) as n.
  generalize 0%Z as index.
  intros index n. revert index. induction n as [|n IH]; intros index.
  - apply unchanged_ret.
  - cbn [FindTextureSlot_loop].
    apply unchanged_bind; [apply unchanged_load_texture|].
    intros e. destruct (String.eqb _ _); [apply unchanged_ret | apply IH].
Qed.

Lemma unchanged_FindTextureID tag : unchanged_by (FindTextureID tag).
Proof.
  unfold FindTextureID. apply unchanged_bind; [apply unchanged_get|].
  intros s. generalize (Z.to_nat (m_loadedTextures s)) as n.
  generalize 0%Z as index.
  intros index n. revert index. induction n as [|n IH]; intros index.
  - apply unchanged_ret.
  - cbn [FindTextureID_loop].
    apply unchanged_bind; [apply unchanged_load_texture|].
    intros e. destruct (String.eqb _ _); [apply unchanged_ret | apply IH].
Qed.

Lemma unchanged_FindMaterial tag material : unchanged_by (FindMaterial tag material).
Proof.
  unfold FindMaterial. apply unchanged_bind; [apply unchanged_get|].
  intros s. destruct (Nat.eqb _ _); apply unchanged_ret.
Qed.

Lemma unchanged_SetTransformations sc rx ry rz pos :
  unchanged_by (SetTransformations sc rx ry rz pos).
Proof. apply unchanged_if_shader, unchanged_shader. Qed.

Lemma unchanged_SetShaderColor r g b a : unchanged_by (SetShaderColor r g b a).
Proof.
  apply unchanged_if_shader, unchanged_bind; [|intros _]; apply unchanged_shader.
Qed.

Lemma unchanged_SetShaderTexture tag : unchanged_by (SetShaderTexture tag).
Proof.
  apply unchanged_if_shader, unchanged_bind; [apply unchanged_shader|].
  intros _. apply unchanged_bind; [apply unchanged_FindTextureSlot|].
  intros slot. apply unchanged_shader.
Qed.

Lemma unchanged_SetTextureUVScale u v : unchanged_by (SetTextureUVScale u v).
Proof. apply unchanged_if_shader, unchanged_shader. Qed.

Lemma unchanged_SetShaderMaterial tag : unchanged_by (SetShaderMaterial tag).
Proof.
  unfold SetShaderMaterial. apply unchanged_bind; [apply unchanged_get|].
  intros s. destruct (_ <? _)%nat; [|apply unchanged_ret].
  apply unchanged_bind; [apply unchanged_FindMaterial|].
  intros [[] material]; [|apply unchanged_ret].
  repeat (apply unchanged_bind; [apply unchanged_shader | intros _]).
  apply unchanged_shader.
Qed.

Ltac unchanged :=
  lazymatch goal with
  | |- unchanged_by (bind get _) =>
      apply unchanged_bind; [apply unchanged_get | intros ?; unchanged]
  | |- unchanged_by (bind _ _) =>
      apply unchanged_bind; [unchanged | intros _; unchanged]
  | |- unchanged_by (emit _) => apply unchanged_emit
  | |- unchanged_by (draw _) => apply unchanged_emit
  | |- unchanged_by (ret _) => apply unchanged_ret
  | |- unchanged_by (SetTransformations _ _ _ _ _) =>
      apply unchanged_SetTransformations
  | |- unchanged_by (SetShaderColor _ _ _ _) => apply unchanged_SetShaderColor
  | |- unchanged_by (SetShaderTexture _) => apply unchanged_SetShaderTexture
  | |- unchanged_by (SetTextureUVScale _ _) => apply unchanged_SetTextureUVScale
  | |- unchanged_by (SetShaderMaterial _) => apply unchanged_SetShaderMaterial
  end.

Lemma unchanged_RenderTable : unchanged_by RenderTable.
Proof. unfold RenderTable. unchanged. Qed.

Lemma unchanged_RenderBackdrop : unchanged_by RenderBackdrop.
Proof. unfold RenderBackdrop. unchanged. Qed.

Lemma unchanged_RenderPotionBottle : unchanged_by RenderPotionBottle.
Proof. unfold RenderPotionBottle. cbv zeta. unchanged. Qed.

Lemma unchanged_RenderCandle time : unchanged_by (RenderCandle time).
Proof. unfold RenderCandle. cbv zeta. unchanged. Qed.

Lemma unchanged_RenderBottomBook : unchanged_by RenderBottomBook.
Proof. unfold RenderBottomBook. unchanged. Qed.

Lemma unchanged_RenderTopBook : unchanged_by RenderTopBook.
Proof. unfold RenderTopBook. unchanged. Qed.

Lemma unchanged_RenderCauldron : unchanged_by RenderCauldron.
Proof. unfold RenderCauldron. cbv zeta. cbn [for_each]. unchanged. Qed.

Lemma unchanged_RenderScene time : unchanged_by (RenderScene time).
Proof.
  unfold RenderScene.
  apply unchanged_bind; [apply unchanged_RenderTable | intros _].
  apply unchanged_bind; [apply unchanged_RenderBackdrop | intros _].
  apply unchanged_bind; [apply unchanged_RenderPotionBottle | intros _].
  apply unchanged_bind; [apply unchanged_RenderCandle | intros _].
  apply unchanged_bind; [apply unchanged_RenderBottomBook | intros _].
  apply unchanged_bind; [apply unchanged_RenderTopBook | intros _].
  apply unchanged_RenderCauldron.
Qed.

(** X8: Lookups, uniform setters and renderers only read the scene: whenever
    one of them returns, in any scene at all, the registry, the count, the
    materials, the shader manager pointer, the flame colour and the
    texture names of the context are what they were. *)
Theorem rendering_reads_only :
  (forall time, unchanged_by (RenderScene time))
  /\ (forall tag, unchanged_by (FindTextureID tag))
  /\ (forall tag, unchanged_by (FindTextureSlot tag))
  /\ (forall tag material, unchanged_by (FindMaterial tag material))
  /\ (forall sc rx ry rz pos, unchanged_by (SetTransformations sc rx ry rz pos))
  /\ (forall r g b a, unchanged_by (SetShaderColor r g b a))
  /\ (forall tag, unchanged_by (SetShaderTexture tag))
  /\ (forall u v, unchanged_by (SetTextureUVScale u v))
  /\ (forall tag, unchanged_by (SetShaderMaterial tag)).
Proof.
  split; [exact unchanged_RenderScene|].
  repeat split; intros.
  - apply unchanged_FindTextureID.
  - apply unchanged_FindTextureSlot.
  - apply unchanged_FindMaterial.
  - apply unchanged_SetTransformations.
  - apply unchanged_SetShaderColor.
  - apply unchanged_SetShaderTexture.
  - apply unchanged_SetTextureUVScale.
  - apply unchanged_SetShaderMaterial.
Qed.

(** ** The invariant of the registry *)

Lemma keeps_bind {A B} P (m : M A) (k : A -> M B) :
  keeps P m -> (forall a, keeps P (k a)) -> keeps P (bind m k).
Proof.
  intros Hm Hk s b s' evs HP H. unfold bind in H.
  destruct (m s) as [[[a s1] e1]|] eqn:E1; [|discriminate].
  destruct (k a s1) as [[[b' s2] e2]|] eqn:E2; [|discriminate].
  inversion H; subst. eapply Hk; [|exact E2]. eapply Hm; [exact HP | exact E1].
Qed.

Lemma keeps_unchanged {A} P (m : M A) : unchanged_by m -> keeps P m.
Proof. intros Hm s a s' evs HP H. apply Hm in H. now subst. Qed.

Lemma registry_ok_in_bounds s : registry_ok s -> textures_in_bounds s.
Proof. intros [Hl Hc]. unfold textures_in_bounds. rewrite Hl. lia. Qed.

Lemma keeps_CreateGLTexture p filename tag :
  keeps (well_formed p) (CreateGLTexture filename tag).
Proof.
  intros s b s' evs [[Hl Hc] Hp] H.
  destruct (loadable filename) eqn:L.
  - destruct (Z.eq_dec (m_loadedTextures s) 16) as [E|E].
    + rewrite CreateGLTexture_outside in H; [discriminate | exact L|].
      rewrite Hl. lia.
    + destruct (CreateGLTexture_inside filename tag s L)
        as (s1 & e1 & Hr & Hn & _ & Hlen & Hp1 & _); [rewrite Hl; lia|].
      rewrite Hr in H. inversion H; subst.
      repeat split; try congruence; lia.
  - destruct (CreateGLTexture_not_loadable filename tag s L)
      as (s1 & e1 & Hr & Hn & Hi & Hp1 & _).
    rewrite Hr in H. inversion H; subst.
    repeat split; try congruence; lia.
Qed.

Lemma unchanged_BindGLTextures : unchanged_by BindGLTextures.
Proof.
  unfold BindGLTextures. apply unchanged_bind; [apply unchanged_get|].
  intros s. generalize (Z.to_nat (m_loadedTextures s)) as n.
  generalize 0%Z as index.
  intros index n. revert index. induction n as [|n IH]; intros index.
  - apply unchanged_ret.
  - cbn [BindGLTextures_loop].
    apply unchanged_bind; [apply unchanged_load_texture | intros e].
    apply unchanged_bind; [apply unchanged_emit | intros _].
    apply unchanged_bind; [apply unchanged_emit | intros _]. apply IH.
Qed.

Lemma keeps_DestroyGLTextures p : keeps (well_formed p) DestroyGLTextures.
Proof.
  intros s a s' evs [Hr Hp] H.
  destruct (DestroyGLTextures_loop_effect (Z.to_nat (m_loadedTextures s)) 0 s)
    as (s2 & e2 & Hd2 & _ & _ & Hc & Hp2 & _ & _ & Ht & _).
  { destruct Hr as [Hl Hc']. lia. }
  assert (Hd : DestroyGLTextures s = Some (tt, s2, e2)).
  { unfold DestroyGLTextures, bind, get. cbn [Z.of_nat] in Hd2. now rewrite Hd2. }
  rewrite Hd in H. inversion H; subst.
  destruct Hr as [Hl Hc']. repeat split; try congruence; try lia.
  now rewrite <- (length_map TEXTURE_INFO.tag), Ht, length_map.
Qed.

Lemma keeps_LoadSceneTextures p : keeps (well_formed p) LoadSceneTextures.
Proof.
  unfold LoadSceneTextures.
  repeat (apply keeps_bind; [apply keeps_CreateGLTexture | intros _]).
  apply keeps_unchanged, unchanged_BindGLTextures.
Qed.

(** [DefineObjectMaterials] always returns, makes no call and appends its
    six materials to the vector. *)
Lemma DefineObjectMaterials_appends time s :
  exists six,
    DefineObjectMaterials time s
    = Some (tt, set_objectMaterials (m_objectMaterials s ++ six) s, [])
    /\ map OBJECT_MATERIAL.tag six
       = ["backdrop"; "glass"; "metal"; "wood"; "flame"; "liquid"].
Proof.
  eexists. split.
  - unfold DefineObjectMaterials, push_back, bind, modify. cbv zeta beta iota.
    cbn [m_objectMaterials set_objectMaterials m_pShaderManager m_textureIDs
         m_loadedTextures flameColor gl_textures app].
    unfold set_objectMaterials.
    cbn [m_objectMaterials m_pShaderManager m_textureIDs
         m_loadedTextures flameColor gl_textures].
    rewrite <- !app_assoc. cbn [app]. reflexivity.
  - reflexivity.
Qed.

Lemma keeps_DefineObjectMaterials p time :
  keeps (well_formed p) (DefineObjectMaterials time).
Proof.
  intros s a s' evs HP H.
  destruct (DefineObjectMaterials_appends time s) as (six & E & _).
  rewrite E in H. inversion H; subst. exact HP.
Qed.

(** [SetupSceneLights] changes the flame colour and nothing else. *)
Lemma SetupSceneLights_scene time jr jg jb s a s' evs :
  SetupSceneLights time jr jg jb s = Some (a, s', evs) ->
  s' = set_flameColor (flame_light_color time jr jg jb) s.
Proof.
  destruct s as [p ids n mats fc names]. destruct p.
  - discriminate.
  - intros H. inversion H. reflexivity.
Qed.

Lemma keeps_SetupSceneLights p time jr jg jb :
  keeps (well_formed p) (SetupSceneLights time jr jg jb).
Proof.
  intros s a s' evs HP H. apply SetupSceneLights_scene in H. subst. exact HP.
Qed.

Lemma keeps_perform p op : keeps (well_formed p) (perform op).
Proof.
  destruct op; cbn [perform].
  - apply keeps_bind; [apply keeps_CreateGLTexture | intros _].
    apply keeps_unchanged, unchanged_ret.
  - apply keeps_unchanged, unchanged_BindGLTextures.
  - apply keeps_DestroyGLTextures.
  - apply keeps_LoadSceneTextures.
  - apply keeps_DefineObjectMaterials.
  - apply keeps_SetupSceneLights.
  - apply keeps_unchanged, unchanged_RenderScene.
Qed.

Lemma keeps_for_each {A} P (l : list A) body :
  (forall a, keeps P (body a)) -> keeps P (for_each l body).
Proof.
  intros Hb. induction l as [|a l IH]; cbn [for_each].
  - apply keeps_unchanged, unchanged_ret.
  - apply keeps_bind; [apply Hb | intros _; exact IH].
Qed.

(** X9: From the constructor on, whatever member functions are called and in
    whatever order, every scene reached has its 16 slots, a count between
    0 and 16 and the shader manager pointer it was constructed with; with a
    shader manager, a frame rendered there has a defined behaviour. *)
Theorem registry_invariant p ops s evs :
  for_each ops perform (SceneManager_new p) = Some (tt, s, evs) ->
  registry_ok s
  /\ m_pShaderManager s = p
  /\ (p = ShaderManagerObject -> rendering_defined s).
Proof.
  intros H.
  assert (W : well_formed p s).
  { apply (keeps_for_each (well_formed p) ops perform (keeps_perform p)
             (SceneManager_new p) tt s evs); [|exact H].
    repeat split; try reflexivity; cbn; lia. }
  destruct W as [Hr Hp]. split; [exact Hr|]. split; [exact Hp|].
  intros ->. apply defined_with_shader; [exact Hp|].
  now apply registry_ok_in_bounds.
Qed.

(** ** Loading the textures of the scene *)

Lemma registered_snoc_tags s s' e :
  registered s' = registered s ++ [e] ->
  map TEXTURE_INFO.tag (registered s')
  = map TEXTURE_INFO.tag (registered s) ++ [TEXTURE_INFO.tag e].
Proof. intros ->. now rewrite map_app. Qed.

Lemma registered_same s s' :
  m_loadedTextures s' = m_loadedTextures s -> m_textureIDs s' = m_textureIDs s ->
  registered s' = registered s.
Proof. unfold registered. now intros -> ->. Qed.

(** One load followed by the rest of the function. *)
Lemma CreateGLTexture_then {A} filename tag (k : M A) s :
  (0 <= m_loadedTextures s < Z.of_nat (List.length (m_textureIDs s)))%Z ->
  exists s1 e1,
    (CreateGLTexture filename tag ;; k) s
    = match k s1 with
      | Some (a, s2, e2) => Some (a, s2, e1 ++ e2)
      | None => None
      end
    /\ map TEXTURE_INFO.tag (registered s1)
       = map TEXTURE_INFO.tag (registered s)
         ++ (if loadable filename then [tag] else [])
    /\ (m_loadedTextures s <= m_loadedTextures s1 <= m_loadedTextures s + 1)%Z
    /\ List.length (m_textureIDs s1) = List.length (m_textureIDs s)
    /\ m_pShaderManager s1 = m_pShaderManager s
    /\ m_objectMaterials s1 = m_objectMaterials s.
Proof.
  intros Hb. destruct (loadable filename) eqn:L.
  - destruct (CreateGLTexture_inside filename tag s L Hb)
      as (s1 & e1 & Hr & Hn & Hreg & Hlen & Hp & Hm).
    exists s1, e1. unfold bind. rewrite Hr.
    split; [reflexivity|]. split; [now apply registered_snoc_tags in Hreg|].
    repeat split; try assumption; lia.
  - destruct (CreateGLTexture_not_loadable filename tag s L)
      as (s1 & e1 & Hr & Hn & Hi & Hp & Hm).
    exists s1, e1. unfold bind. rewrite Hr.
    split; [reflexivity|]. rewrite (registered_same s s1 Hn Hi), app_nil_r.
    repeat split; try assumption; try congruence; lia.
Qed.

Ltac load_step :=
  match goal with
  | |- context [(CreateGLTexture ?f ?t ;; ?k) ?s] =>
      let s1 := fresh "s" in
      let e1 := fresh "e" in
      let Ht := fresh "Ht" in
      let Hn := fresh "Hn" in
      let Hl := fresh "Hl" in
      let Hp := fresh "Hp" in
      let Hm := fresh "Hm" in
      destruct (CreateGLTexture_then f t k s)
        as (s1 & e1 & -> & Ht & Hn & Hl & Hp & Hm); [lia|]
  end.

(** X10: [LoadSceneTextures], started with nine slots left, always returns: a
    file that does not decode to 3 or 4 channels is skipped, the tags of
    the others are registered in the order of the calls (so a skipped file
    moves every later texture one slot down), and the materials and the
    shader manager pointer stay. *)
Theorem LoadSceneTextures_registers s :
  (0 <= m_loadedTextures s)%Z ->
  (m_loadedTextures s + 9 <= Z.of_nat (List.length (m_textureIDs s)))%Z ->
  exists s' evs,
    LoadSceneTextures s = Some (tt, s', evs)
    /\ map TEXTURE_INFO.tag (registered s')
       = map TEXTURE_INFO.tag (registered s)
         ++ flat_map (fun p => if loadable (fst p) then [snd p] else [])
                     scene_textures
    /\ m_loadedTextures s' = Z.of_nat (List.length (registered s'))
    /\ List.length (m_textureIDs s') = List.length (m_textureIDs s)
    /\ m_pShaderManager s' = m_pShaderManager s
    /\ m_objectMaterials s' = m_objectMaterials s.
Proof.
  intros H0 H9. unfold LoadSceneTextures.
  do 8 load_step.
  destruct (CreateGLTexture_then "textures/wood.jpg" "wood" BindGLTextures s7)
    as (s8 & e8 & -> & Ht8 & Hn8 & Hl8 & Hp8 & Hm8); [lia|].
  assert (B : textures_in_bounds s8) by (unfold textures_in_bounds; lia).
  destruct (BindGLTextures_runs s8 B) as (eb & Hr).
  rewrite Hr. eexists _, _. split; [reflexivity|].
  split; [|split; [|repeat split; congruence]].
  - rewrite Ht8, Ht6, Ht5, Ht4, Ht3, Ht2, Ht1, Ht0, Ht.
    unfold scene_textures. cbn [flat_map fst snd].
    rewrite <- !app_assoc, !app_nil_r. reflexivity.
  - symmetry. apply registered_length; [lia | exact B].
Qed.

(** ** A whole frame *)

Lemma slot_of_registered tag s :
  textures_in_bounds s ->
  slot_of tag s
  = match first_match tag (registered s) 0 with
    | Some (slot, _) => slot
    | None => (-1)%Z
    end.
Proof.
  intros Hb. unfold slot_of. now rewrite (FindTextureSlot_registered tag s Hb).
Qed.

Lemma slot_of_known tag s tags :
  textures_in_bounds s ->
  map TEXTURE_INFO.tag (registered s) = tags ->
  slot_of tag s
  = match first_match tag (map (fun t => TEXTURE_INFO.mk t 0) tags) 0 with
    | Some (slot, _) => slot
    | None => (-1)%Z
    end.
Proof.
  intros Hb Ht. rewrite (slot_of_registered tag s Hb).
  apply first_match_slot_tags. rewrite map_map. cbn [TEXTURE_INFO.tag].
  now rewrite map_id.
Qed.

Ltac run_frame :=
  unfold RenderScene, RenderTable, RenderBackdrop, RenderPotionBottle,
    RenderCandle, RenderBottomBook, RenderTopBook, RenderCauldron;
  cbv zeta; cbn [for_each]; run.

(** X11: With the nine textures of [LoadSceneTextures] registered in
    its order, every texture selection of a frame names a registered unit:
    the 25 sampler values are, in order, those of fabric, wood, fabric,
    rubber, metal six times, candle, rubber, then twice pages followed by
    leather three times, and metal five times; the textures glass and
    stainless are never selected, and no selection is the not-found
    value -1. *)
Theorem frame_samplers time s :
  m_pShaderManager s = ShaderManagerObject ->
  textures_in_bounds s ->
  map TEXTURE_INFO.tag (registered s)
  = ["fabric"; "glass"; "rubber"; "candle"; "stainless"; "metal"; "pages";
     "leather"; "wood"] ->
  exists evs,
    runs (RenderScene time) s evs
    /\ samplers evs
       = [0; 8; 0; 2; 5; 5; 5; 5; 5; 5; 3; 2; 6; 7; 7; 7; 6; 7; 7; 7;
          5; 5; 5; 5; 5]%Z.
Proof.
  intros Hp Hb Ht. pose proof (defined_with_shader s Hp Hb) as Hd.
  eexists. split; [run_frame|].
  unfold material_events, if_present. rewrite Hp.
  destruct (m_objectMaterials s); cbn [app samplers];
    rewrite !(slot_of_known _ s _ Hb Ht); reflexivity.
Qed.

(** X12: A frame entered with blending off makes 42 draws: blending
    is on for the 4th to the 13th, the 22nd and the 42nd, and off for every
    other draw and at the end; every draw in flat colour is transparent
    and blended, every other draw is textured; the frame ends in
    flat-colour mode with the object colour (0.3, 0.8, 1.0, 0.65). *)
Theorem frame_profile time s rs :
  m_pShaderManager s = ShaderManagerObject ->
  textures_in_bounds s ->
  blend rs = false ->
  exists evs,
    runs (RenderScene time) s evs
    /\ map blending (profile rs evs)
       = repeat false 3 ++ repeat true 10 ++ repeat false 8 ++ [true]
         ++ repeat false 19 ++ [true]
    /\ Forall (fun d => (use_texture d = 0%Z /\ transparent d /\ blending d = true)
                        \/ use_texture d = 1%Z)
              (profile rs evs)
    /\ replay rs evs = mk_RenderState false 0 (glm.mk_vec4 0.3 0.8 1.0 0.65).
Proof.
  intros Hp Hb Hoff. pose proof (defined_with_shader s Hp Hb) as Hd.
  eexists. split; [run_frame|].
  unfold material_events, if_present. rewrite Hp.
  destruct (m_objectMaterials s); trace_eval; rewrite Hoff;
    (split; [reflexivity|]); (split; [|reflexivity]);
    unfold transparent; cbn [repeat app];
    repeat (constructor;
            [cbn [use_texture alpha blending];
             first [ now right
                   | left; repeat split;
                     first [ lra
                           | pose proof (flame_alpha_bounds time); lra ] ]
            |]);
    constructor.
Qed.

(** ** Materials *)

Lemma FindMaterial_loop_defined l tag material m :
  find (fun x => String.eqb (OBJECT_MATERIAL.tag x) tag) l = Some m ->
  FindMaterial_loop l tag material
  = OBJECT_MATERIAL.mk (OBJECT_MATERIAL.diffuseColor m)
      (OBJECT_MATERIAL.specularColor m) (OBJECT_MATERIAL.shininess m)
      (OBJECT_MATERIAL.emissiveColor material) (OBJECT_MATERIAL.tag material).
Proof.
  induction l as [|x l IH]; cbn [find FindMaterial_loop]; [discriminate|].
  destruct (String.eqb (OBJECT_MATERIAL.tag x) tag); [|exact IH].
  intros H. now inversion H.
Qed.

Lemma FindMaterial_loop_undefined l tag material :
  find (fun x => String.eqb (OBJECT_MATERIAL.tag x) tag) l = None ->
  FindMaterial_loop l tag material = material.
Proof.
  induction l as [|x l IH]; cbn [find FindMaterial_loop]; [reflexivity|].
  destruct (String.eqb (OBJECT_MATERIAL.tag x) tag); [discriminate | exact IH].
Qed.

(** X13: [FindMaterial] hands back the caller's emissive colour and tag in
    every case: only diffuse colour, specular colour and shininess are
    ever taken from the registry. *)
Theorem FindMaterial_keeps_emissive_and_tag tag material s :
  exists found result,
    FindMaterial tag material s = Some ((found, result), s, [])
    /\ OBJECT_MATERIAL.emissiveColor result
       = OBJECT_MATERIAL.emissiveColor material
    /\ OBJECT_MATERIAL.tag result = OBJECT_MATERIAL.tag material
    /\ (found = false <-> m_objectMaterials s = []).
Proof.
  unfold FindMaterial, bind, get.
  destruct (m_objectMaterials s) as [|x l] eqn:E.
  - exists false, material. repeat split; reflexivity.
  - exists true, (FindMaterial_loop (x :: l) tag material).
    cbn [List.length Nat.eqb]. split; [reflexivity|].
    destruct (find (fun y => String.eqb (OBJECT_MATERIAL.tag y) tag) (x :: l))
      as [m|] eqn:F.
    + rewrite (FindMaterial_loop_defined _ _ _ _ F).
      repeat split; discriminate.
    + rewrite (FindMaterial_loop_undefined _ _ _ F).
      repeat split; discriminate.
Qed.

Lemma material_events_defined tag s m :
  defined_material tag s = Some m -> material_events tag s = material_push m.
Proof.
  unfold defined_material, material_events, found_material, material_push.
  intros H. rewrite (FindMaterial_loop_defined _ _ _ _ H).
  destruct (m_objectMaterials s); [discriminate | reflexivity].
Qed.

Lemma material_events_undefined tag s :
  m_objectMaterials s <> [] -> defined_material tag s = None ->
  material_events tag s = material_push indeterminate.
Proof.
  unfold defined_material, material_events, found_material, material_push.
  intros Hne H. rewrite (FindMaterial_loop_undefined _ _ _ H).
  destruct (m_objectMaterials s); [contradiction | reflexivity].
Qed.

Lemma SetShaderMaterial_writes tag s :
  (m_pShaderManager s = NULL -> m_objectMaterials s = []) ->
  runs (SetShaderMaterial tag) s (material_events tag s).
Proof.
  intros Hn.
  unfold runs, SetShaderMaterial, material_events, found_material, FindMaterial,
    bind, get, shader, ret.
  destruct (m_objectMaterials s) as [|m l] eqn:E; [reflexivity|].
  assert (Hp : m_pShaderManager s = ShaderManagerObject).
  { destruct (m_pShaderManager s); [now specialize (Hn eq_refl) | reflexivity]. }
  cbn [List.length Nat.ltb Nat.leb]. cbv beta iota. rewrite E.
  cbn [List.length Nat.eqb]. cbv beta iota.
  repeat (rewrite Hp; cbv beta iota). reflexivity.
Qed.

(** X14: With a shader manager, [SetShaderMaterial] writes nothing while no
    material is defined, writes the three fields of the first material
    defined under the tag when there is one, and otherwise writes the
    three fields of its own unassigned local. *)
Theorem SetShaderMaterial_pushes tag s :
  m_pShaderManager s = ShaderManagerObject ->
  (m_objectMaterials s = [] -> runs (SetShaderMaterial tag) s [])
  /\ (forall m, defined_material tag s = Some m ->
        runs (SetShaderMaterial tag) s (material_push m))
  /\ (m_objectMaterials s <> [] -> defined_material tag s = None ->
        runs (SetShaderMaterial tag) s (material_push indeterminate)).
Proof.
  intros Hp.
  assert (R : runs (SetShaderMaterial tag) s (material_events tag s))
    by (apply SetShaderMaterial_writes; congruence).
  split; [|split].
  - intros E. unfold material_events in R. now rewrite E in R.
  - intros m H. now rewrite (material_events_defined _ _ _ H) in R.
  - intros Hne H. now rewrite (material_events_undefined _ _ Hne H) in R.
Qed.

Lemma bind_none {A B} (m : M A) (k : A -> M B) s :
  m s = None -> bind m k s = None.
Proof. unfold bind. now intros ->. Qed.

Lemma bind_runs {B} (m : M unit) (k : M B) s evs :
  runs m s evs ->
  (m ;; k) s
  = match k s with
    | Some (b, s', e) => Some (b, s', evs ++ e)
    | None => None
    end.
Proof. unfold runs, bind. now intros ->. Qed.

Lemma SetShaderMaterial_null tag s :
  m_pShaderManager s = NULL -> m_objectMaterials s <> [] ->
  SetShaderMaterial tag s = None.
Proof.
  intros Hp Hne. unfold SetShaderMaterial, FindMaterial, bind, get, shader, ret.
  destruct (m_objectMaterials s) as [|m l] eqn:E; [contradiction|].
  cbn [List.length Nat.ltb Nat.leb]. cbv beta iota. rewrite E.
  cbn [List.length Nat.eqb]. cbv beta iota. now rewrite Hp.
Qed.

(** X15: Where the null test is missing: with a null shader manager pointer
    [SetupSceneLights] is undefined, [SetShaderMaterial] is undefined as
    soon as one material is defined (and does nothing otherwise), and so
    is a whole frame. *)
Theorem unguarded_shader_manager s :
  m_pShaderManager s = NULL ->
  (forall time jr jg jb, SetupSceneLights time jr jg jb s = None)
  /\ (forall tag,
        SetShaderMaterial tag s
        = match m_objectMaterials s with
          | [] => Some (tt, s, [])
          | _ :: _ => None
          end)
  /\ (forall time, m_objectMaterials s <> [] -> RenderScene time s = None).
Proof.
  intros Hp. split; [|split].
  - intros. unfold SetupSceneLights. apply bind_none.
    unfold shader. now rewrite Hp.
  - intros tag. destruct (m_objectMaterials s) as [|m l] eqn:E.
    + pose proof (SetShaderMaterial_writes tag s (fun _ => E)) as R.
      unfold material_events in R. now rewrite E in R.
    + apply SetShaderMaterial_null; [exact Hp | congruence].
  - intros time Hne. unfold RenderScene. apply bind_none.
    unfold RenderTable. rewrite (bind_runs _ _ _ _ (runs_emit _ _)).
    rewrite (bind_runs _ _ _ _ (SetTransformations_runs _ _ _ _ _ _)).
    rewrite (bind_runs _ _ _ _ (SetShaderColor_runs _ _ _ _ _)).
    assert (T : runs (SetShaderTexture "fabric") s []).
    { now apply if_shader_null. }
    rewrite (bind_runs _ _ _ _ T).
    rewrite (bind_runs _ _ _ _ (SetTextureUVScale_runs _ _ _)).
    rewrite bind_none; [reflexivity|]. now apply SetShaderMaterial_null.
Qed.

Ltac defined_tag H s t m Hm Hin :=
  let E := fresh "E" in
  destruct (defined_material t s) as [m|] eqn:E;
    [ pose proof (material_events_defined _ _ _ E) as Hm;
      pose proof (proj1 (find_some _ _ E)) as Hin
    | exfalso; apply (H t); [cbn; tauto | exact E] ].

(** X16: With the six tags of [DefineObjectMaterials] defined, a frame
    makes 96 writes to the material uniforms, each of them a field of a
    material of the vector: the unassigned local of [SetShaderMaterial] is
    never forwarded. *)
Theorem frame_materials time s :
  m_pShaderManager s = ShaderManagerObject ->
  textures_in_bounds s ->
  (forall t, In t ["backdrop"; "glass"; "metal"; "wood"; "flame"; "liquid"] ->
     defined_material t s <> None) ->
  exists evs,
    runs (RenderScene time) s evs
    /\ List.length (material_writes evs) = 96%nat
    /\ Forall (fun e => exists m, In m (m_objectMaterials s)
                                  /\ In e (material_push m))
              (material_writes evs).
Proof.
  intros Hp Hb H. pose proof (defined_with_shader s Hp Hb) as Hd.
  defined_tag H s "backdrop" m1 M1 I1. defined_tag H s "glass" m2 M2 I2.
  defined_tag H s "metal" m3 M3 I3. defined_tag H s "wood" m4 M4 I4.
  defined_tag H s "flame" m5 M5 I5. defined_tag H s "liquid" m6 M6 I6.
  eexists. split; [run_frame|].
  rewrite M1, M2, M3, M4, M5, M6. unfold if_present. rewrite Hp.
  cbn [material_writes filter is_material_write material_push app String.eqb
       Ascii.eqb Bool.eqb andb orb].
  split; [reflexivity|].
  repeat (constructor;
          [match goal with
           | Hin : In ?m (m_objectMaterials s) |- _ =>
               exists m; split; [exact Hin | cbn [material_push In]; tauto]
           end|]).
  constructor.
Qed.

Lemma find_tag_none l tag :
  find (fun m => String.eqb (OBJECT_MATERIAL.tag m) tag) l = None
  <-> ~ In tag (map OBJECT_MATERIAL.tag l).
Proof using Type.
  induction l as [|x l IH]; cbn [find map In].
  - split; [intros _ F; exact F | reflexivity].
  - destruct (String.eqb (OBJECT_MATERIAL.tag x) tag) eqn:E.
    + apply String.eqb_eq in E. split; [discriminate|].
      intros F. exfalso. apply F. now left.
    + apply String.eqb_neq in E. destruct IH as [IH1 IH2]. split.
      * intros F [H|H]; [exact (E H) | exact (IH1 F H)].
      * intros F. apply IH2. intros H. apply F. now right.
Qed.

Lemma find_tag_app l l' tag :
  find (fun m => String.eqb (OBJECT_MATERIAL.tag m) tag) (l ++ l')
  = match find (fun m => String.eqb (OBJECT_MATERIAL.tag m) tag) l with
    | Some m => Some m
    | None => find (fun m => String.eqb (OBJECT_MATERIAL.tag m) tag) l'
    end.
Proof.
  induction l as [|x l IH]; cbn [app find]; [reflexivity|].
  now destruct (String.eqb (OBJECT_MATERIAL.tag x) tag).
Qed.


(** X18: A second [DefineObjectMaterials] doubles the six entries and changes
    the answer of no lookup: every [FindMaterial] returns what it returned
    after the first call. *)
Theorem DefineObjectMaterials_twice time1 time2 tag material s :
  exists s1 s2 answer,
    DefineObjectMaterials time1 s = Some (tt, s1, [])
    /\ DefineObjectMaterials time2 s1 = Some (tt, s2, [])
    /\ List.length (m_objectMaterials s2)
       = (List.length (m_objectMaterials s) + 12)%nat
    /\ FindMaterial tag material s1 = Some (answer, s1, [])
    /\ FindMaterial tag material s2 = Some (answer, s2, []).
Proof.
  destruct (DefineObjectMaterials_appends time1 s) as (six1 & E1 & T1).
  set (s1 := set_objectMaterials (m_objectMaterials s ++ six1) s) in *.
  destruct (DefineObjectMaterials_appends time2 s1) as (six2 & E2 & T2).
  set (s2 := set_objectMaterials (m_objectMaterials s1 ++ six2) s1) in *.
  exists s1, s2, (true, FindMaterial_loop (m_objectMaterials s1) tag material).
  split; [exact E1|]. split; [exact E2|]. split.
  { unfold s2, s1. cbn [set_objectMaterials m_objectMaterials].
    rewrite !length_app, <- (length_map OBJECT_MATERIAL.tag six1), T1,
      <- (length_map OBJECT_MATERIAL.tag six2), T2. cbn [List.length]. lia. }
  assert (N1 : m_objectMaterials s1 <> []).
  { unfold s1. cbn [set_objectMaterials m_objectMaterials].
    intros H. apply (f_equal (map OBJECT_MATERIAL.tag)) in H.
    rewrite map_app, T1 in H. now destruct (map _ (m_objectMaterials s)). }
  split; [now apply FindMaterial_nonempty|].
  rewrite FindMaterial_nonempty.
  - do 3 f_equal. unfold s2 at 1. cbn [set_objectMaterials m_objectMaterials].
    destruct (find (fun m => String.eqb (OBJECT_MATERIAL.tag m) tag)
                (m_objectMaterials s1)) as [m|] eqn:F.
    + rewrite (FindMaterial_loop_defined _ _ _ m),
        (FindMaterial_loop_defined _ _ _ m); [reflexivity | exact F|].
      now rewrite find_tag_app, F.
    + rewrite !FindMaterial_loop_undefined; [reflexivity | exact F|].
      rewrite find_tag_app, F. apply find_tag_none. rewrite T2.
      apply find_tag_none in F. intros Hin. apply F.
      unfold s1. cbn [set_objectMaterials m_objectMaterials].
      rewrite map_app, T1. apply in_or_app. now right.
  - unfold s2. cbn [set_objectMaterials m_objectMaterials].
    now destruct (m_objectMaterials s1).
Qed.

(** ** Lights and flame *)

Lemma NoDup_by_nodup (l : list string) : nodup string_dec l = l -> NoDup l.
Proof. intros <-. apply NoDup_nodup. Qed.

(** X19: [SetupSceneLights] with a shader manager: it returns, changes the
    flame colour and nothing else in the scene, and writes 30 uniforms,
    each name once; no uniform of point light 0 is among them, and apart
    from ambient, diffuse and specular of point light 3 every value is the
    same whatever the time and the jitter. *)
Theorem SetupSceneLights_writes time jr jg jb time' jr' jg' jb' s :
  m_pShaderManager s = ShaderManagerObject ->
  exists evs evs',
    SetupSceneLights time jr jg jb s
      = Some (tt, set_flameColor (flame_light_color time jr jg jb) s, evs)
    /\ SetupSceneLights time' jr' jg' jb' s
      = Some (tt, set_flameColor (flame_light_color time' jr' jg' jb') s, evs')
    /\ List.length (uniform_names evs) = 30%nat
    /\ List.length evs = 30%nat
    /\ NoDup (uniform_names evs)
    /\ writes_to "pointLights[0]" evs = []
    /\ without ["pointLights[3].ambient"; "pointLights[3].diffuse";
                "pointLights[3].specular"] evs
       = without ["pointLights[3].ambient"; "pointLights[3].diffuse";
                  "pointLights[3].specular"] evs'.
Proof.
  intros Hp. destruct s as [p ids n mats fc names].
  cbn [m_pShaderManager] in Hp. subst p.
  eexists _, _. split; [reflexivity|]. split; [reflexivity|].
  cbn [app]. split; [reflexivity|]. split; [reflexivity|]. split.
  - cbn [uniform_names uniform_name g_UseLightingName].
    apply NoDup_by_nodup. vm_compute. reflexivity.
  - split; [reflexivity|].
    cbn [without filter uniform_name existsb String.eqb Ascii.eqb Bool.eqb
         negb orb andb g_UseLightingName].
    reflexivity.
Qed.



(** ** More on the model matrix *)

Ltac matrix_entries :=
  cbv beta iota zeta delta
    [TransformSpec.product TransformSpec.of_entries TransformSpec.entry
     TransformSpec.of_rows TransformSpec.Translation TransformSpec.Scale
     TransformSpec.RotationX TransformSpec.RotationY TransformSpec.RotationZ
     transform_point glm.mul_col glm.vadd glm.vscale affine
     TransformSpec.column TransformSpec.component glm.col0 glm.col1 glm.col2
     glm.col3 glm.x4 glm.y4 glm.z4 glm.w4 glm.x3 glm.y3 glm.z3].

Lemma affine_product a b :
  affine a -> affine b -> affine (TransformSpec.product a b).
Proof.
  destruct a as [[] [] [] []], b as [[] [] [] []]. matrix_entries.
  intros (-> & -> & -> & ->) (-> & -> & -> & ->). repeat split; ring.
Qed.

Lemma affine_factors p v a :
  affine (TransformSpec.Translation p) /\ affine (TransformSpec.Scale v)
  /\ affine (TransformSpec.RotationX a) /\ affine (TransformSpec.RotationY a)
  /\ affine (TransformSpec.RotationZ a).
Proof. matrix_entries. repeat split; reflexivity. Qed.

Lemma transform_point_product a b v :
  affine b ->
  transform_point (TransformSpec.product a b) v
  = glm.mul_col a (transform_point b v).
Proof.
  destruct a as [[] [] [] []], b as [[] [] [] []], v. matrix_entries.
  intros (-> & -> & -> & ->). f_equal; ring.
Qed.

(** X21: The model matrix is the matrix of an affine map (bottom row
    0, 0, 0, 1) whose last column is the position: the origin of the mesh
    lands on [positionXYZ] whatever the scale and the angles. *)
Theorem modelView_places_origin scaleXYZ rx ry rz positionXYZ :
  affine (modelView scaleXYZ rx ry rz positionXYZ)
  /\ glm.col3 (modelView scaleXYZ rx ry rz positionXYZ)
     = glm.mk_vec4 (glm.x3 positionXYZ) (glm.y3 positionXYZ)
                   (glm.z3 positionXYZ) 1
  /\ transform_point (modelView scaleXYZ rx ry rz positionXYZ)
       (glm.mk_vec3 0 0 0)
     = glm.mk_vec4 (glm.x3 positionXYZ) (glm.y3 positionXYZ)
                   (glm.z3 positionXYZ) 1.
Proof.
  rewrite modelView_is_compose. unfold TransformSpec.compose.
  set (S := TransformSpec.Scale scaleXYZ).
  set (X := TransformSpec.RotationX _). set (Y := TransformSpec.RotationY _).
  set (Z := TransformSpec.RotationZ _).
  set (T := TransformSpec.Translation positionXYZ).
  assert (AS : affine S) by apply (affine_factors positionXYZ scaleXYZ 0).
  assert (AX : affine X) by apply (affine_factors positionXYZ scaleXYZ).
  assert (AY : affine Y) by apply (affine_factors positionXYZ scaleXYZ).
  assert (AZ : affine Z) by apply (affine_factors positionXYZ scaleXYZ).
  assert (AT : affine T) by apply (affine_factors positionXYZ scaleXYZ 0).
  assert (A1 : affine (TransformSpec.product X S)) by now apply affine_product.
  assert (A2 : affine (TransformSpec.product Y (TransformSpec.product X S)))
    by now apply affine_product.
  assert (A3 : affine (TransformSpec.product Z
                         (TransformSpec.product Y (TransformSpec.product X S))))
    by now apply affine_product.
  assert (O : transform_point
                (TransformSpec.product T
                   (TransformSpec.product Z
                      (TransformSpec.product Y (TransformSpec.product X S))))
                (glm.mk_vec3 0 0 0)
              = glm.mk_vec4 (glm.x3 positionXYZ) (glm.y3 positionXYZ)
                            (glm.z3 positionXYZ) 1).
  { rewrite !transform_point_product by assumption.
    unfold S, X, Y, Z, T. destruct scaleXYZ, positionXYZ. matrix_entries.
    f_equal; ring. }
  split; [now apply affine_product|]. split; [|exact O].
  rewrite <- O. generalize (TransformSpec.product T
    (TransformSpec.product Z (TransformSpec.product Y (TransformSpec.product X S)))).
  intros [[] [] [] []]. matrix_entries. f_equal; ring.
Qed.

(** X22: Without rotation the model matrix scales each axis and then
    translates: a point [(x, y, z)] of the mesh is drawn at
    [(sx * x + px, sy * y + py, sz * z + pz)]. *)
Theorem modelView_without_rotation scaleXYZ positionXYZ v :
  transform_point (modelView scaleXYZ 0 0 0 positionXYZ) v
  = glm.mk_vec4 (glm.x3 scaleXYZ * glm.x3 v + glm.x3 positionXYZ)
                (glm.y3 scaleXYZ * glm.y3 v + glm.y3 positionXYZ)
                (glm.z3 scaleXYZ * glm.z3 v + glm.z3 positionXYZ) 1.
Proof.
  rewrite modelView_is_compose. unfold TransformSpec.compose.
  rewrite zero_degrees, RotationX_zero, RotationY_zero, RotationZ_zero,
    !product_identity_l.
  destruct scaleXYZ, positionXYZ, v. matrix_entries. f_equal; ring.
Qed.

Lemma full_turn d :
  cos (TransformSpec.degrees_to_radians (d + 360))
  = cos (TransformSpec.degrees_to_radians d)
  /\ sin (TransformSpec.degrees_to_radians (d + 360))
     = sin (TransformSpec.degrees_to_radians d).
Proof.
  unfold TransformSpec.degrees_to_radians.
  replace ((d + 360) * PI / 180) with (d * PI / 180 + 2 * PI) by field.
  rewrite cos_plus, sin_plus, sin_2PI, cos_2PI. split; ring.
Qed.

(** X23: Angles count modulo a full turn: adding 360 degrees to any of the
    three angles gives the same model matrix. *)
Theorem modelView_full_turn scaleXYZ rx ry rz positionXYZ :
  modelView scaleXYZ (rx + 360) ry rz positionXYZ
  = modelView scaleXYZ rx ry rz positionXYZ
  /\ modelView scaleXYZ rx (ry + 360) rz positionXYZ
     = modelView scaleXYZ rx ry rz positionXYZ
  /\ modelView scaleXYZ rx ry (rz + 360) positionXYZ
     = modelView scaleXYZ rx ry rz positionXYZ.
Proof.
  rewrite !modelView_is_compose. unfold TransformSpec.compose,
    TransformSpec.RotationX, TransformSpec.RotationY, TransformSpec.RotationZ.
  destruct (full_turn rx) as [-> ->]. destruct (full_turn ry) as [-> ->].
  destruct (full_turn rz) as [-> ->]. repeat split.
Qed.

(** ** Capacity, unknown tags and rejected files *)

Lemma loads_fill_registry files : forall s,
  Forall (fun p => loadable (fst p) = true) files ->
  (0 <= m_loadedTextures s <= Z.of_nat (List.length (m_textureIDs s)))%Z ->
  ((m_loadedTextures s + Z.of_nat (List.length files)
    <= Z.of_nat (List.length (m_textureIDs s)))%Z ->
   exists s' evs,
     for_each files (fun p => perform (OpCreateGLTexture (fst p) (snd p))) s
       = Some (tt, s', evs)
     /\ m_loadedTextures s'
        = (m_loadedTextures s + Z.of_nat (List.length files))%Z
     /\ List.length (m_textureIDs s') = List.length (m_textureIDs s)
     /\ map TEXTURE_INFO.tag (registered s')
        = map TEXTURE_INFO.tag (registered s) ++ map snd files)
  /\ ((Z.of_nat (List.length (m_textureIDs s))
       < m_loadedTextures s + Z.of_nat (List.length files))%Z ->
      for_each files (fun p => perform (OpCreateGLTexture (fst p) (snd p))) s
        = None).
Proof.
  set (body := fun p : string * string =>
                 perform (OpCreateGLTexture (fst p) (snd p))).
  induction files as [|[f t] files IH]; intros s Hl Hb.
  - split; [|cbn [List.length]; lia]. intros _. exists s, [].
    cbn [List.length map]. rewrite app_nil_r, Z.add_0_r. repeat split.
  - inversion Hl as [|p l Lf Lrest]; subst. cbn [fst] in Lf.
    cbn [for_each List.length]. unfold body at 1 3. cbn [perform fst snd].
    destruct (Z.eq_dec (m_loadedTextures s)
                (Z.of_nat (List.length (m_textureIDs s)))) as [Full|Room].
    + split; [lia|]. intros _. apply bind_none, bind_none.
      apply CreateGLTexture_outside; [exact Lf | lia].
    + destruct (CreateGLTexture_inside f t s Lf)
        as (s1 & e1 & Hr & Hn & Hreg & Hlen & _); [lia|].
      destruct (IH s1 Lrest) as [Hfit Hover]; [lia|].
      assert (Hstep : forall k : M unit,
                 ((CreateGLTexture f t ;; ret tt) ;; k) s
                 = match k s1 with
                   | Some (a, s2, e2) => Some (a, s2, (e1 ++ []) ++ e2)
                   | None => None
                   end).
      { intros k. unfold bind at 1. unfold bind at 1. now rewrite Hr. }
      rewrite Hstep. split.
      * intros Hroom. destruct Hfit as (s' & evs & Hrun & Hc & Hl' & Ht); [lia|].
        rewrite Hrun. eexists _, _. split; [reflexivity|].
        split; [lia|]. split; [congruence|].
        rewrite Ht, Hreg, map_app, <- app_assoc. reflexivity.
      * intros Hov. rewrite Hover; [reflexivity | lia].
Qed.

(** X24: The registry holds 16 textures and no more: from a new scene, up to
    16 loads of loadable files all succeed and register their tags in
    order; a sequence of more than 16 is undefined, whatever the tags. *)
Theorem texture_capacity p files :
  Forall (fun f => loadable (fst f) = true) files ->
  ((List.length files <= 16)%nat ->
   exists s evs,
     for_each files (fun f => perform (OpCreateGLTexture (fst f) (snd f)))
       (SceneManager_new p) = Some (tt, s, evs)
     /\ m_loadedTextures s = Z.of_nat (List.length files)
     /\ map TEXTURE_INFO.tag (registered s) = map snd files)
  /\ ((16 < List.length files)%nat ->
      for_each files (fun f => perform (OpCreateGLTexture (fst f) (snd f)))
        (SceneManager_new p) = None).
Proof.
  intros Hl.
  destruct (loads_fill_registry files (SceneManager_new p) Hl) as [Hfit Hover].
  { cbn. lia. }
  split.
  - intros Hn. destruct Hfit as (s & evs & Hr & Hc & _ & Ht).
    { cbn. lia. }
    exists s, evs. split; [exact Hr|]. split; [exact Hc | exact Ht].
  - intros Hn. apply Hover. cbn. lia.
Qed.

(** X25: [SetShaderTexture] switches to textured mode whether or not the tag
    is registered: the sampler is given the slot of the first registered
    entry with the tag, and -1 when there is none. *)
Theorem SetShaderTexture_selects textureTag s :
  m_pShaderManager s = ShaderManagerObject ->
  textures_in_bounds s ->
  exists slot,
    runs (SetShaderTexture textureTag) s
         [setIntValue "bUseTexture" 1; setSampler2DValue "objectTexture" slot]
    /\ ((slot = (-1)%Z
         /\ Forall (fun e => TEXTURE_INFO.tag e <> textureTag) (registered s))
        \/ (exists e, nth_error (registered s) (Z.to_nat slot) = Some e
              /\ (0 <= slot)%Z
              /\ TEXTURE_INFO.tag e = textureTag
              /\ Forall (fun x => TEXTURE_INFO.tag x <> textureTag)
                        (firstn (Z.to_nat slot) (registered s)))).
Proof.
  intros Hp Hb. exists (slot_of textureTag s). split.
  - pose proof (SetShaderTexture_runs s (defined_with_shader s Hp Hb) textureTag)
      as R.
    unfold if_present in R. now rewrite Hp in R.
  - unfold slot_of.
    destruct (FindTextureSlot_first_match textureTag s Hb)
      as [(Hf & ->) | (k & e & Hn & Ht & Hf & ->)].
    + left. split; [reflexivity | exact Hf].
    + right. exists e. rewrite Nat2Z.id. repeat split; try assumption. lia.
Qed.

(** A file that decodes to a channel count other than 3 or 4 is rejected
    after a texture name has been generated and bound, and the calls end
    with the filter parameters. *)
Lemma CreateGLTexture_rejected filename tag image s :
  stbi_load filename = Some image ->
  colorChannels image <> 3%Z -> colorChannels image <> 4%Z ->
  CreateGLTexture filename tag s
  = Some (false,
          set_gl_textures (fresh_name (gl_textures s) :: gl_textures s) s,
          [stbi_set_flip_vertically_on_load true;
           glGenTextures (fresh_name (gl_textures s));
           glBindTexture GL_TEXTURE_2D (fresh_name (gl_textures s));
           glTexParameteri GL_TEXTURE_2D GL_TEXTURE_WRAP_S GL_REPEAT;
           glTexParameteri GL_TEXTURE_2D GL_TEXTURE_WRAP_T GL_REPEAT;
           glTexParameteri GL_TEXTURE_2D GL_TEXTURE_MIN_FILTER GL_LINEAR;
           glTexParameteri GL_TEXTURE_2D GL_TEXTURE_MAG_FILTER GL_LINEAR]).
Proof.
  intros E H3 H4. unfold CreateGLTexture. rewrite emit_then, E.
  apply Z.eqb_neq in H3, H4. rewrite H3, H4.
  unfold bind at 1. unfold gen_texture at 1. cbv beta iota.
  rewrite !emit_then. unfold ret. cbv beta iota. reflexivity.
Qed.

(** X26: Whenever [CreateGLTexture] returns, it returns true exactly for a
    loadable file; the decoded pixels are freed, and the texture unbound as
    the last call, exactly when it returns true; and one texture name is
    generated whenever the file decodes.  So a file of a rejected format
    leaves its pixels allocated, its texture name in the context and that
    texture bound. *)
Theorem CreateGLTexture_release filename tag s b s' evs :
  CreateGLTexture filename tag s = Some (b, s', evs) ->
  (b = true <-> loadable filename = true)
  /\ (In stbi_image_free evs <-> b = true)
  /\ (last evs stbi_image_free = glBindTexture GL_TEXTURE_2D 0 <-> b = true)
  /\ List.length (gl_textures s')
     = (List.length (gl_textures s)
        + match stbi_load filename with Some _ => 1 | None => 0 end)%nat.
Proof.
  intros H. destruct (loadable filename) eqn:L.
  - destruct (CreateGLTexture_loadable filename tag s L) as [upload E].
    destruct (loadable_channels _ L) as (image & Ei & _). rewrite Ei.
    rewrite E in H. clear E.
    assert ((0 <= m_loadedTextures s < Z.of_nat (List.length (m_textureIDs s)))%Z
            \/ ~ (0 <= m_loadedTextures s
                  < Z.of_nat (List.length (m_textureIDs s)))%Z) as [B|B] by lia.
    + rewrite CreateGLTexture_register_inside in H by exact B.
      inversion H; subst. cbn [app last In gl_textures set_gl_textures
        set_loadedTextures set_textureIDs List.length].
      repeat split; try reflexivity; try lia; intros _; tauto.
    + rewrite CreateGLTexture_register_outside in H by exact B.
      discriminate.
  - unfold loadable in L. destruct (stbi_load filename) as [image|] eqn:Ei.
    + apply orb_false_elim in L. destruct L as [H3 H4].
      apply Z.eqb_neq in H3, H4.
      rewrite (CreateGLTexture_rejected filename tag image s Ei H3 H4) in H.
      inversion H; subst. cbn [last In gl_textures set_gl_textures List.length].
      repeat split; try discriminate; try lia.
      intros F. repeat (destruct F as [F|F]; [discriminate|]). contradiction.
    + unfold CreateGLTexture in H. rewrite emit_then, Ei in H.
      inversion H; subst. cbn [last In app List.length].
      repeat split; try discriminate; try lia.
      intros [F|F]; [discriminate | contradiction].
Qed.
End SceneManager.

(** ** The claims on concrete scenes *)

Local Open Scope R_scope.

Lemma new_scene_in_bounds p : textures_in_bounds (SceneManager_new p).
Proof. unfold textures_in_bounds. cbn. lia. Qed.

Lemma new_scene_defined p : rendering_defined (SceneManager_new p).
Proof. split; intros _; [reflexivity | apply new_scene_in_bounds]. Qed.

(** Nine loads register nine textures in the order of the calls; tags are
    then found in their slots, and a tag never loaded is not. *)
Example LoadSceneTextures_slots :
  exists s evs,
    LoadSceneTextures rgb_files next_name (SceneManager_new ShaderManagerObject)
      = Some (tt, s, evs)
    /\ m_loadedTextures s = 9%Z
    /\ FindTextureSlot "fabric" s = Some (0%Z, s, [])
    /\ FindTextureSlot "glass" s = Some (1%Z, s, [])
    /\ FindTextureSlot "wood" s = Some (8%Z, s, [])
    /\ FindTextureID "wood" s = Some (9%Z, s, [])
    /\ FindTextureSlot "marble" s = Some ((-1)%Z, s, []).
Proof.
  eexists _, _. split; [vm_compute; reflexivity|]. repeat split.
Qed.

(** A file that cannot be read leaves the scene untouched. *)
Example CreateGLTexture_unreadable :
  CreateGLTexture no_files next_name "textures/knit.jpg" "fabric"
    (SceneManager_new ShaderManagerObject)
  = Some (false, SceneManager_new ShaderManagerObject,
          [stbi_set_flip_vertically_on_load true]).
Proof. reflexivity. Qed.

(** C1: with the six materials of [DefineObjectMaterials] defined, none
    of them tagged "marble", [FindMaterial "marble"] still answers [true]
    and hands back the caller's material untouched; not-found is reported
    for an empty registry only. *)
Theorem FindMaterial_unknown_tag_reported_found :
  exists s,
    DefineObjectMaterials blank_material 0 (SceneManager_new ShaderManagerObject)
      = Some (tt, s, [])
    /\ map OBJECT_MATERIAL.tag (m_objectMaterials s)
       = ["backdrop"; "glass"; "metal"; "wood"; "flame"; "liquid"]
    /\ FindMaterial "marble" blank_material s
       = Some ((true, blank_material), s, []).
Proof.
  eexists. split; [reflexivity|]. split; reflexivity.
Qed.

(** C3: after one texture is loaded (name 1, in slot 0),
    [DestroyGLTextures] makes one call, [glGenTextures], which adds name 2
    to the context and overwrites the slot with it; name 1 stays in use.
    A second call changes the state again (name 3). *)
Theorem DestroyGLTextures_generates_names :
  exists s1 e1 s2 s3,
    CreateGLTexture rgb_files next_name "textures/knit.jpg" "fabric"
      (SceneManager_new ShaderManagerObject) = Some (true, s1, e1)
    /\ gl_textures s1 = [1%Z]
    /\ nth_error (m_textureIDs s1) 0 = Some (TEXTURE_INFO.mk "fabric" 1)
    /\ DestroyGLTextures next_name s1 = Some (tt, s2, [glGenTextures 2])
    /\ gl_textures s2 = [2%Z; 1%Z]
    /\ nth_error (m_textureIDs s2) 0 = Some (TEXTURE_INFO.mk "fabric" 2)
    /\ DestroyGLTextures next_name s2 = Some (tt, s3, [glGenTextures 3])
    /\ gl_textures s3 = [3%Z; 2%Z; 1%Z]
    /\ s3 <> s2.
Proof.
  eexists _, _, _, _.
  split; [reflexivity|]. split; [reflexivity|]. split; [reflexivity|].
  split; [reflexivity|]. split; [reflexivity|]. split; [reflexivity|].
  split; [reflexivity|]. split; [reflexivity|].
  intros H. apply (f_equal gl_textures) in H. discriminate H.
Qed.

(** C2, as first stated, fails for the potion bottle: its closure is drawn
    textured while blending is enabled. *)
Lemma potion_bottle_closure_drawn_blended :
  exists evs,
    runs (RenderPotionBottle blank_material)
         (SceneManager_new ShaderManagerObject) evs
    /\ blend (replay initial_RenderState evs) = false
    /\ ~ only_transparent_blended (profile initial_RenderState evs).
Proof.
  destruct (RenderPotionBottle_profile blank_material
              (SceneManager_new ShaderManagerObject) initial_RenderState
              eq_refl (new_scene_in_bounds _)) as (evs & R & P & B).
  exists evs. split; [exact R|]. split; [exact B|].
  rewrite P. intros F. unfold only_transparent_blended in F.
  rewrite Forall_forall in F.
  destruct (F (mk_DrawInfo TaperedCylinderMesh true 1 0.65)) as [U _].
  - do 9 right. now left.
  - reflexivity.
  - discriminate U.
Qed.


(** C8, as first stated, fails without a shader manager: the call returns
    and the texture flag is still false. *)
Lemma SetShaderTexture_null_leaves_flag :
  exists evs,
    SetShaderTexture "fabric" (SceneManager_new NULL)
      = Some (tt, SceneManager_new NULL, evs)
    /\ bUseTexture (replay initial_RenderState evs) = 0%Z.
Proof. exists []. split; reflexivity. Qed.

Lemma setters_without_shader_manager_witness :
  m_pShaderManager (SceneManager_new NULL) = NULL
  /\ SetTransformations (glm.mk_vec3 1 1 1) 0 0 0 (glm.mk_vec3 0 0 0)
       (SceneManager_new NULL) = Some (tt, SceneManager_new NULL, [])
  /\ SetShaderColor 1 1 1 1 (SceneManager_new NULL)
     = Some (tt, SceneManager_new NULL, [])
  /\ SetShaderTexture "fabric" (SceneManager_new NULL)
     = Some (tt, SceneManager_new NULL, [])
  /\ SetTextureUVScale 1 1 (SceneManager_new NULL)
     = Some (tt, SceneManager_new NULL, []).
Proof.
  split; [reflexivity|].
  destruct (setters_without_shader_manager (SceneManager_new NULL) eq_refl)
    as (T & C & X & U).
  split; [apply T | split; [apply C | split; [apply X | apply U]]].
Defined.

Lemma CreateGLTexture_failure_witness :
  (grey_files "textures/knit.jpg" = None
   \/ (exists image, grey_files "textures/knit.jpg" = Some image
        /\ colorChannels image <> 3%Z /\ colorChannels image <> 4%Z))
  /\ exists s' evs,
       CreateGLTexture grey_files next_name "textures/knit.jpg" "fabric"
         (SceneManager_new ShaderManagerObject) = Some (false, s', evs)
       /\ m_loadedTextures s' = 0%Z
       /\ m_textureIDs s' = m_textureIDs (SceneManager_new ShaderManagerObject).
Proof.
  assert (H : grey_files "textures/knit.jpg" = None
              \/ (exists image, grey_files "textures/knit.jpg" = Some image
                   /\ colorChannels image <> 3%Z /\ colorChannels image <> 4%Z)).
  { right. exists (mk_Image 2 2 1). repeat split; discriminate. }
  split; [exact H|].
  exact (CreateGLTexture_failure grey_files next_name "textures/knit.jpg"
           "fabric" (SceneManager_new ShaderManagerObject) H).
Defined.


Lemma RenderScene_order_witness :
  rendering_defined (SceneManager_new ShaderManagerObject)
  /\ exists evs,
       runs (RenderScene blank_material 0)
            (SceneManager_new ShaderManagerObject) evs
       /\ entered evs
          = [Table; Backdrop; PotionBottle; Candle; BottomBook; TopBook;
             Cauldron].
Proof.
  split; [apply new_scene_defined|].
  destruct (RenderScene_order blank_material 0
              (SceneManager_new ShaderManagerObject) (new_scene_defined _))
    as (e1 & e2 & e3 & e4 & e5 & e6 & e7 & H).
  exists (e1 ++ e2 ++ e3 ++ e4 ++ e5 ++ e6 ++ e7).
  split; apply H.
Defined.

Lemma blending_brackets_witness :
  rendering_defined (SceneManager_new ShaderManagerObject)
  /\ exists evs opaque flame,
       runs (RenderCandle blank_material 0)
            (SceneManager_new ShaderManagerObject) evs
       /\ blend (replay (mk_RenderState true 0 (glm.mk_vec4 0 0 0 0)) evs)
          = false
       /\ profile (mk_RenderState true 0 (glm.mk_vec4 0 0 0 0)) evs
          = opaque ++ [flame]
       /\ List.length opaque = 8%nat
       /\ mesh flame = ConeMesh /\ blending flame = true
       /\ transparent flame.
Proof.
  split; [apply new_scene_defined|].
  destruct (blending_brackets blank_material 0
              (SceneManager_new ShaderManagerObject)
              (mk_RenderState true 0 (glm.mk_vec4 0 0 0 0))
              (new_scene_defined _))
    as (_ & (evs & opaque & flame & R & B & P & L & _ & M & F & S) & _).
  destruct (S eq_refl) as (_ & T & _).
  exists evs, opaque, flame. repeat split; try assumption; apply T.
Defined.

Lemma color_and_texture_modes_witness :
  m_pShaderManager (SceneManager_new ShaderManagerObject) = ShaderManagerObject
  /\ textures_in_bounds (SceneManager_new ShaderManagerObject)
  /\ exists evs,
       runs (for_each
               [CallSetShaderColor 1 1 1 1; CallDraw BoxMesh;
                CallSetShaderTexture "wood"; CallSetTextureUVScale 1 1;
                CallDraw PlaneMesh]
               (call blank_material))
            (SceneManager_new ShaderManagerObject) evs
       /\ map use_texture (profile initial_RenderState evs) = [0%Z; 1%Z].
Proof.
  split; [reflexivity|]. split; [apply new_scene_in_bounds|].
  destruct (color_and_texture_modes blank_material
              (SceneManager_new ShaderManagerObject)
              eq_refl (new_scene_in_bounds _)) as (_ & _ & H).
  exact (H [CallSetShaderColor 1 1 1 1; CallDraw BoxMesh;
            CallSetShaderTexture "wood"; CallSetTextureUVScale 1 1;
            CallDraw PlaneMesh] initial_RenderState).
Defined.

(** ** More properties on concrete scenes *)

(** The prepared scene is the one the code reaches. *)
Example prepared_scene_reached :
  exists s evs,
    LoadSceneTextures rgb_files next_name (SceneManager_new ShaderManagerObject)
      = Some (tt, s, evs)
    /\ DefineObjectMaterials blank_material 0 s = Some (tt, prepared_scene, []).
Proof.
  eexists _, _. split; [vm_compute; reflexivity|]. reflexivity.
Qed.

Lemma prepared_scene_in_bounds : textures_in_bounds prepared_scene.
Proof. unfold textures_in_bounds. cbn. lia. Qed.

Lemma prepared_scene_tags :
  map TEXTURE_INFO.tag (registered prepared_scene)
  = ["fabric"; "glass"; "rubber"; "candle"; "stainless"; "metal"; "pages";
     "leather"; "wood"].
Proof. reflexivity. Qed.

Lemma prepared_scene_materials :
  forall t, In t ["backdrop"; "glass"; "metal"; "wood"; "flame"; "liquid"] ->
    defined_material t prepared_scene <> None.
Proof.
  intros t H. cbn [In] in H.
  repeat (destruct H as [<-|H]; [discriminate|]). contradiction.
Qed.

(** ** The added properties at concrete inputs *)

Lemma CreateGLTexture_registers_witness :
  loadable rgb_files "textures/knit.jpg" = true
  /\ (0 <= m_loadedTextures (SceneManager_new ShaderManagerObject)
      < Z.of_nat (List.length
                    (m_textureIDs (SceneManager_new ShaderManagerObject))))%Z
  /\ exists s' evs,
       CreateGLTexture rgb_files next_name "textures/knit.jpg" "fabric"
         (SceneManager_new ShaderManagerObject) = Some (true, s', evs)
       /\ m_loadedTextures s' = 1%Z
       /\ registered s' = [TEXTURE_INFO.mk "fabric" 1].
Proof.
  assert (B : (0 <= m_loadedTextures (SceneManager_new ShaderManagerObject)
               < Z.of_nat (List.length
                    (m_textureIDs (SceneManager_new ShaderManagerObject))))%Z)
    by (cbn; lia).
  split; [reflexivity|]. split; [exact B|].
  destruct (CreateGLTexture_registers rgb_files next_name "textures/knit.jpg"
              "fabric" (SceneManager_new ShaderManagerObject) eq_refl B)
    as (s' & evs & H & N & R & _).
  exists s', evs. split; [exact H|]. split; [exact N | exact R].
Defined.

Lemma CreateGLTexture_registry_full_witness :
  loadable rgb_files "textures/knit.jpg" = true
  /\ (Z.of_nat (List.length
                  (m_textureIDs (set_loadedTextures 16 (SceneManager_new NULL))))
      <= m_loadedTextures (set_loadedTextures 16 (SceneManager_new NULL)))%Z
  /\ CreateGLTexture rgb_files next_name "textures/knit.jpg" "fabric"
       (set_loadedTextures 16 (SceneManager_new NULL)) = None.
Proof.
  assert (B : (Z.of_nat (List.length
                  (m_textureIDs (set_loadedTextures 16 (SceneManager_new NULL))))
               <= m_loadedTextures
                    (set_loadedTextures 16 (SceneManager_new NULL)))%Z)
    by (cbn; lia).
  split; [reflexivity|]. split; [exact B|].
  exact (CreateGLTexture_registry_full rgb_files next_name "textures/knit.jpg"
           "fabric" (set_loadedTextures 16 (SceneManager_new NULL)) eq_refl B).
Defined.

Lemma texture_searches_first_match_witness :
  textures_in_bounds prepared_scene
  /\ exists slot name,
       FindTextureSlot "rubber" prepared_scene = Some (slot, prepared_scene, [])
       /\ FindTextureID "rubber" prepared_scene = Some (name, prepared_scene, []).
Proof.
  split; [apply prepared_scene_in_bounds|].
  destruct (texture_searches_first_match "rubber" prepared_scene
              prepared_scene_in_bounds)
    as [(_ & S & I) | (k & e & _ & _ & _ & S & I & _)].
  - exists (-1)%Z, (-1)%Z. split; [exact S | exact I].
  - exists (Z.of_nat k), (to_int (TEXTURE_INFO.ID e)).
    split; [exact S | exact I].
Defined.

Lemma found_tags_have_distinct_slots_witness :
  textures_in_bounds prepared_scene
  /\ "glass"%string <> "rubber"%string
  /\ FindTextureSlot "glass" prepared_scene = Some (1%Z, prepared_scene, [])
  /\ 1%Z <> (-1)%Z
  /\ FindTextureSlot "rubber" prepared_scene = Some (2%Z, prepared_scene, [])
  /\ 2%Z <> (-1)%Z
  /\ 1%Z <> 2%Z.
Proof.
  assert (T : "glass"%string <> "rubber"%string) by discriminate.
  assert (N1 : 1%Z <> (-1)%Z) by lia.
  assert (N2 : 2%Z <> (-1)%Z) by lia.
  split; [apply prepared_scene_in_bounds|]. split; [exact T|].
  split; [reflexivity|]. split; [exact N1|].
  split; [reflexivity|]. split; [exact N2|].
  exact (found_tags_have_distinct_slots "glass" "rubber" 1 2 prepared_scene
           prepared_scene_in_bounds T eq_refl N1 eq_refl N2).
Defined.

Lemma lookup_after_load_witness :
  loadable rgb_files "textures/knit.jpg" = true
  /\ (0 <= m_loadedTextures (SceneManager_new ShaderManagerObject)
      < Z.of_nat (List.length
                    (m_textureIDs (SceneManager_new ShaderManagerObject))))%Z
  /\ exists s' evs,
       CreateGLTexture rgb_files next_name "textures/knit.jpg" "fabric"
         (SceneManager_new ShaderManagerObject) = Some (true, s', evs)
       /\ FindTextureSlot "fabric" s' = Some (0%Z, s', [])
       /\ FindTextureID "fabric" s' = Some (1%Z, s', []).
Proof.
  assert (B : (0 <= m_loadedTextures (SceneManager_new ShaderManagerObject)
               < Z.of_nat (List.length
                    (m_textureIDs (SceneManager_new ShaderManagerObject))))%Z)
    by (cbn; lia).
  split; [reflexivity|]. split; [exact B|].
  destruct (lookup_after_load rgb_files next_name "textures/knit.jpg"
              "fabric" (SceneManager_new ShaderManagerObject) eq_refl B)
    as (s' & evs & H & _ & F & _).
  exists s', evs. split; [exact H|].
  destruct (F eq_refl) as (S & _ & I).
  split; [exact S|]. apply I. cbn. lia.
Defined.

Lemma BindGLTextures_units_witness :
  textures_in_bounds prepared_scene
  /\ exists evs,
       runs BindGLTextures prepared_scene evs
       /\ List.length evs = 18%nat
       /\ nth_error (bindings 0 evs) 4 = Some (4%Z, 5%Z).
Proof.
  split; [apply prepared_scene_in_bounds|].
  destruct (BindGLTextures_units prepared_scene prepared_scene_in_bounds)
    as (evs & H & L & _ & B).
  exists evs. split; [exact H|]. split; [exact L|].
  exact (B 4%nat (TEXTURE_INFO.mk "stainless" 5) eq_refl).
Defined.

Lemma DestroyGLTextures_effect_witness :
  textures_in_bounds prepared_scene
  /\ exists s' evs,
       DestroyGLTextures next_name prepared_scene = Some (tt, s', evs)
       /\ List.length evs = 9%nat
       /\ m_loadedTextures s' = 9%Z
       /\ List.length (gl_textures s') = 18%nat.
Proof.
  split; [apply prepared_scene_in_bounds|].
  destruct (DestroyGLTextures_effect next_name prepared_scene
              prepared_scene_in_bounds)
    as (s' & evs & H & L & _ & N & _ & _ & G & _).
  exists s', evs. split; [exact H|]. split; [exact L|].
  split; [exact N | exact G].
Defined.

Lemma rendering_reads_only_witness :
  exists evs,
    SetShaderTexture "wood" prepared_scene = Some (tt, prepared_scene, evs).
Proof.
  destruct (SetShaderTexture "wood" prepared_scene) as [[[[] s'] evs]|] eqn:E;
    [|discriminate E].
  exists evs.
  destruct (rendering_reads_only blank_material)
    as (_ & _ & _ & _ & _ & _ & T & _).
  now rewrite (T "wood"%string prepared_scene tt s' evs E).
Defined.

Lemma registry_invariant_witness :
  exists s evs,
    for_each [OpCreateGLTexture "textures/knit.jpg" "fabric";
              OpCreateGLTexture "textures/glass.jpg" "glass";
              OpDestroyGLTextures; OpBindGLTextures]
      (perform rgb_files next_name blank_material)
      (SceneManager_new ShaderManagerObject) = Some (tt, s, evs)
    /\ registry_ok s
    /\ m_pShaderManager s = ShaderManagerObject
    /\ rendering_defined s.
Proof.
  assert (E : exists s evs,
    for_each [OpCreateGLTexture "textures/knit.jpg" "fabric";
              OpCreateGLTexture "textures/glass.jpg" "glass";
              OpDestroyGLTextures; OpBindGLTextures]
      (perform rgb_files next_name blank_material)
      (SceneManager_new ShaderManagerObject) = Some (tt, s, evs))
    by (eexists _, _; vm_compute; reflexivity).
  destruct E as (s & evs & H). exists s, evs. split; [exact H|].
  destruct (registry_invariant rgb_files next_name blank_material
              ShaderManagerObject _ _ _ H) as (R & P & D).
  split; [exact R|]. split; [exact P | exact (D eq_refl)].
Defined.

Lemma LoadSceneTextures_registers_witness :
  (0 <= m_loadedTextures (SceneManager_new ShaderManagerObject))%Z
  /\ (m_loadedTextures (SceneManager_new ShaderManagerObject) + 9
      <= Z.of_nat (List.length
                     (m_textureIDs (SceneManager_new ShaderManagerObject))))%Z
  /\ exists s' evs,
       LoadSceneTextures rgb_files next_name
         (SceneManager_new ShaderManagerObject) = Some (tt, s', evs)
       /\ map TEXTURE_INFO.tag (registered s')
          = ["fabric"; "glass"; "rubber"; "candle"; "stainless"; "metal";
             "pages"; "leather"; "wood"]
       /\ m_loadedTextures s' = Z.of_nat (List.length (registered s')).
Proof.
  assert (B1 : (0 <= m_loadedTextures (SceneManager_new ShaderManagerObject))%Z)
    by (cbn; lia).
  assert (B2 : (m_loadedTextures (SceneManager_new ShaderManagerObject) + 9
      <= Z.of_nat (List.length
                     (m_textureIDs (SceneManager_new ShaderManagerObject))))%Z)
    by (cbn; lia).
  split; [exact B1|]. split; [exact B2|].
  destruct (LoadSceneTextures_registers rgb_files next_name
              (SceneManager_new ShaderManagerObject) B1 B2)
    as (s' & evs & H & T & N & _).
  exists s', evs. split; [exact H|]. split; [exact T | exact N].
Defined.

Lemma frame_samplers_witness :
  m_pShaderManager prepared_scene = ShaderManagerObject
  /\ textures_in_bounds prepared_scene
  /\ map TEXTURE_INFO.tag (registered prepared_scene)
     = ["fabric"; "glass"; "rubber"; "candle"; "stainless"; "metal"; "pages";
        "leather"; "wood"]
  /\ exists evs,
       runs (RenderScene blank_material 0) prepared_scene evs
       /\ samplers evs
          = [0; 8; 0; 2; 5; 5; 5; 5; 5; 5; 3; 2; 6; 7; 7; 7; 6; 7; 7; 7;
             5; 5; 5; 5; 5]%Z.
Proof.
  split; [reflexivity|]. split; [apply prepared_scene_in_bounds|].
  split; [apply prepared_scene_tags|].
  exact (frame_samplers blank_material 0 prepared_scene eq_refl
           prepared_scene_in_bounds prepared_scene_tags).
Defined.

Lemma frame_profile_witness :
  m_pShaderManager prepared_scene = ShaderManagerObject
  /\ textures_in_bounds prepared_scene
  /\ blend initial_RenderState = false
  /\ exists evs,
       runs (RenderScene blank_material 0) prepared_scene evs
       /\ List.length (profile initial_RenderState evs) = 42%nat
       /\ replay initial_RenderState evs
          = mk_RenderState false 0 (glm.mk_vec4 0.3 0.8 1.0 0.65).
Proof.
  split; [reflexivity|]. split; [apply prepared_scene_in_bounds|].
  split; [reflexivity|].
  destruct (frame_profile blank_material 0 prepared_scene initial_RenderState
              eq_refl prepared_scene_in_bounds eq_refl)
    as (evs & H & B & _ & R).
  exists evs. split; [exact H|]. split; [|exact R].
  rewrite <- (length_map blending), B. reflexivity.
Defined.

Lemma SetShaderMaterial_pushes_witness :
  m_pShaderManager prepared_scene = ShaderManagerObject
  /\ runs (SetShaderMaterial blank_material "glass") prepared_scene
       [setVec3Value "material.diffuseColor" (glm.mk_vec3 0.3 0.3 0.3);
        setVec3Value "material.specularColor" (glm.mk_vec3 0.7 0.6 0.9);
        setFloatValue "material.shininess" 95].
Proof.
  split; [reflexivity|].
  destruct (SetShaderMaterial_pushes blank_material "glass" prepared_scene
              eq_refl) as (_ & D & _).
  exact (D _ eq_refl).
Defined.

Lemma unguarded_shader_manager_witness :
  m_pShaderManager (set_objectMaterials [blank_material] (SceneManager_new NULL))
  = NULL
  /\ SetupSceneLights 0 0 0 0
       (set_objectMaterials [blank_material] (SceneManager_new NULL)) = None
  /\ SetShaderMaterial blank_material "glass"
       (set_objectMaterials [blank_material] (SceneManager_new NULL)) = None
  /\ RenderScene blank_material 0
       (set_objectMaterials [blank_material] (SceneManager_new NULL)) = None.
Proof.
  split; [reflexivity|].
  destruct (unguarded_shader_manager blank_material
              (set_objectMaterials [blank_material] (SceneManager_new NULL))
              eq_refl) as (L & M & R).
  split; [exact (L 0 0 0 0)|]. split; [exact (M "glass"%string)|].
  apply R. discriminate.
Defined.

Lemma frame_materials_witness :
  m_pShaderManager prepared_scene = ShaderManagerObject
  /\ textures_in_bounds prepared_scene
  /\ (forall t, In t ["backdrop"; "glass"; "metal"; "wood"; "flame"; "liquid"] ->
        defined_material t prepared_scene <> None)
  /\ exists evs,
       runs (RenderScene blank_material 0) prepared_scene evs
       /\ List.length (material_writes evs) = 96%nat.
Proof.
  split; [reflexivity|]. split; [apply prepared_scene_in_bounds|].
  split; [apply prepared_scene_materials|].
  destruct (frame_materials blank_material 0 prepared_scene eq_refl
              prepared_scene_in_bounds prepared_scene_materials)
    as (evs & H & L & _).
  exists evs. split; [exact H | exact L].
Defined.

Lemma SetupSceneLights_writes_witness :
  m_pShaderManager (SceneManager_new ShaderManagerObject) = ShaderManagerObject
  /\ exists evs,
       SetupSceneLights 0 0 0 0 (SceneManager_new ShaderManagerObject)
       = Some (tt,
               set_flameColor (flame_light_color 0 0 0 0)
                 (SceneManager_new ShaderManagerObject), evs)
       /\ List.length evs = 30%nat
       /\ NoDup (uniform_names evs)
       /\ writes_to "pointLights[0]" evs = [].
Proof.
  split; [reflexivity|].
  destruct (SetupSceneLights_writes 0 0 0 0 1 1 1 1
              (SceneManager_new ShaderManagerObject) eq_refl)
    as (evs & evs' & H & _ & _ & L & N & W & _).
  exists evs. split; [exact H|]. split; [exact L|]. split; [exact N | exact W].
Defined.


Lemma texture_capacity_witness :
  Forall (fun f => loadable rgb_files (fst f) = true)
         (repeat ("textures/knit.jpg", "fabric")%string 17)
  /\ for_each (repeat ("textures/knit.jpg", "fabric")%string 17)
       (fun f => perform rgb_files next_name blank_material
                   (OpCreateGLTexture (fst f) (snd f)))
       (SceneManager_new ShaderManagerObject) = None.
Proof.
  assert (F : Forall (fun f => loadable rgb_files (fst f) = true)
                     (repeat ("textures/knit.jpg", "fabric")%string 17))
    by (cbn [repeat]; repeat constructor).
  split; [exact F|].
  apply (texture_capacity rgb_files next_name blank_material
           ShaderManagerObject _ F).
  cbn. lia.
Defined.

Lemma SetShaderTexture_selects_witness :
  m_pShaderManager prepared_scene = ShaderManagerObject
  /\ textures_in_bounds prepared_scene
  /\ exists slot,
       runs (SetShaderTexture "wood") prepared_scene
            [setIntValue "bUseTexture" 1;
             setSampler2DValue "objectTexture" slot].
Proof.
  split; [reflexivity|]. split; [apply prepared_scene_in_bounds|].
  destruct (SetShaderTexture_selects "wood" prepared_scene eq_refl
              prepared_scene_in_bounds) as (slot & H & _).
  exists slot. exact H.
Defined.

Lemma CreateGLTexture_release_witness :
  exists s' evs,
    CreateGLTexture grey_files next_name "textures/knit.jpg" "fabric"
      (SceneManager_new ShaderManagerObject) = Some (false, s', evs)
    /\ ~ In stbi_image_free evs
    /\ List.length (gl_textures s') = 1%nat.
Proof.
  assert (E : exists s' evs,
    CreateGLTexture grey_files next_name "textures/knit.jpg" "fabric"
      (SceneManager_new ShaderManagerObject) = Some (false, s', evs))
    by (eexists _, _; vm_compute; reflexivity).
  destruct E as (s' & evs & H). exists s', evs. split; [exact H|].
  destruct (CreateGLTexture_release grey_files next_name _ _ _ _ _ _ H)
    as (_ & F & _ & G).
  split; [|exact G].
  intros I. apply F in I. discriminate I.
Defined.
